(** * TerriaJS: share-link construction and the ArcGIS catalog group

    A shallow embedding of
    - [lib/ReactViews/Map/Panels/SharePanel/BuildShareLink.js]
      (buildShareLink, getShareData, canShorten, buildShortShareLink and the
      add... steps that assemble the init sources),
    - [lib/Models/sendFeedback.js] (sendFeedback, raiseError),
    - [lib/Models/ArcGisCatalogGroup.js] (_load, loadRest, createGroup,
      createMapOrFeatureServer, getBasePath, removePathFromName),
    - [lib/ReactViews/Custom/Chart/Chart.jsx] (the series made from a table,
      the chart parameters and the life cycle of the component),
    - [lib/Models/TerriaJsonCatalogFunction.js] (invoke),
    - [lib/Models/Cesium3DTilesCatalogItem.js] (enabling, disabling, showing
      and hiding the tileset),
    - [lib/ReactViews/SidePanel/SidePanel.jsx],
      [lib/ReactViews/ExplorerWindow/ExplorerWindow.jsx] and
      [lib/ReactViews/Workbench/Controls/ConceptViewer.jsx] (state changes
      and what is rendered),
    followed by the properties proved about them.

    JavaScript strings are sequences of code units; they are modelled by
    [string], whose characters are the code units below 256. *)

From Stdlib Require Import String Ascii List Bool Arith NArith ZArith Lia.
From Stdlib Require Import DecimalString.
Import ListNotations.

Set Implicit Arguments.
#[local] Set Warnings "-register-all".
Open Scope string_scope.
Open Scope list_scope.

(* ================================================================== *)
(** * Part I. The embedding                                            *)
(* ================================================================== *)

(** ** JavaScript values, objects, completions and promises *)

Module Js.

(** Values stored in properties.  Objects are kept as their own
    enumerable properties in enumeration order. *)
Inductive value : Type :=
| VUndefined
| VNull
| VBool (b : bool)
| VNum (z : Z)
| VStr (s : string)
| VObj (fields : list (string * value)).

(** ToBoolean. *)
Definition truthy (v : value) : bool :=
  match v with
  | VUndefined | VNull => false
  | VBool b => b
  | VNum z => negb (Z.eqb z 0)
  | VStr s => negb (String.eqb s "")
  | VObj _ => true
  end.

(** Cesium's [defined]: neither undefined nor null. *)
Definition defined (v : value) : bool :=
  match v with
  | VUndefined | VNull => false
  | _ => true
  end.

(** ToString. *)
Definition toStr (v : value) : string :=
  match v with
  | VUndefined => "undefined"
  | VNull => "null"
  | VBool true => "true"
  | VBool false => "false"
  | VNum z => NilEmpty.string_of_int (Z.to_int z)
  | VStr s => s
  | VObj _ => "[object Object]"
  end.

(** *** Ordinary objects used as maps

    Own string-keyed properties in the order [Object.keys] and [for-in]
    list them: array indices first, by ascending value, then the other
    keys in the order they were created.  [get] and [read] see own
    properties only; a read of a key that is no own property finds the
    members of [Object.prototype] ([inherited]).  The keys written are
    assumed not to be [__proto__], the one name whose assignment sets the
    prototype and creates no property. *)
Definition obj (V : Type) : Type := list (string * V).

(** The names of the members of [Object.prototype]; what a plain object
    reads under each of them is a function or an object. *)
Definition objectPrototype : list string :=
  [ "constructor"; "hasOwnProperty"; "isPrototypeOf"; "propertyIsEnumerable";
    "toLocaleString"; "toString"; "valueOf"; "__proto__";
    "__defineGetter__"; "__defineSetter__"; "__lookupGetter__"; "__lookupSetter__" ].

Definition inherited (k : string) : bool := existsb (String.eqb k) objectPrototype.

Definition digit (c : ascii) : option N :=
  let n := N_of_ascii c in
  if (48 <=? n)%N && (n <=? 57)%N then Some (n - 48)%N else None.

Fixpoint digits (s : string) (acc : N) : option N :=
  match s with
  | EmptyString => Some acc
  | String c r =>
      match digit c with
      | Some d => digits r (10 * acc + d)%N
      | None => None
      end
  end.

(** A canonical numeric string below 2^32 - 1. *)
Definition arrayIndex (k : string) : option N :=
  match k with
  | EmptyString => None
  | String "0"%char EmptyString => Some 0%N
  | String "0"%char _ => None
  | _ =>
      match digits k 0 with
      | Some n => if (n <? 4294967295)%N then Some n else None
      | None => None
      end
  end.

Fixpoint get {V} (o : obj V) (k : string) : option V :=
  match o with
  | [] => None
  | (k', v) :: o' => if String.eqb k' k then Some v else get o' k
  end.

Fixpoint replace {V} (k : string) (v : V) (o : obj V) : obj V :=
  match o with
  | [] => []
  | (k', v') :: o' =>
      if String.eqb k' k then (k', v) :: o' else (k', v') :: replace k v o'
  end.

Fixpoint insertIndex {V} (n : N) (k : string) (v : V) (o : obj V) : obj V :=
  match o with
  | [] => [(k, v)]
  | (k', v') :: o' =>
      match arrayIndex k' with
      | Some n' =>
          if (n <? n')%N then (k, v) :: o else (k', v') :: insertIndex n k v o'
      | None => (k, v) :: o
      end
  end.

(** [o[k] = v]. *)
Definition set {V} (k : string) (v : V) (o : obj V) : obj V :=
  match get o k with
  | Some _ => replace k v o
  | None =>
      match arrayIndex k with
      | Some n => insertIndex n k v o
      | None => o ++ [(k, v)]
      end
  end.

(** [Object.keys(o)]. *)
Definition keys {V} (o : obj V) : list string := map fst o.

(** A property read: a missing property reads as undefined. *)
Definition read (o : obj value) (k : string) : value :=
  match get o k with
  | Some v => v
  | None => VUndefined
  end.

(** *** Errors, completions, promises *)

(** [TerriaError]'s user-facing message text is not kept; [sender] is
    the url of the catalog group that raised it, when one is given. *)
Inductive error : Type :=
| TypeError (what : string)
| DeveloperError (what : string)
| TerriaError (title : string) (sender : option string)
| HostError (what : string).

(** The outcome of evaluating a call: a value, or a thrown exception. *)
Inductive completion (A : Type) : Type :=
| Normal (a : A)
| Throw (e : error).
Arguments Normal {A} a.
Arguments Throw {A} e.

(** A promise, by the way it settles. *)
Inductive promise (A : Type) : Type :=
| Fulfilled (a : A)
| Rejected (e : error).
Arguments Fulfilled {A} a.
Arguments Rejected {A} e.

(** [p.then(f)] for a callback without effects on shared state. *)
Definition then_ {A B} (p : promise A) (f : A -> completion B) : promise B :=
  match p with
  | Fulfilled a =>
      match f a with
      | Normal b => Fulfilled b
      | Throw e => Rejected e
      end
  | Rejected e => Rejected e
  end.

(** [p.then(f)] for a callback that updates a state [S] it closes over:
    what the callback did before it threw stays done. *)
Definition thenS {S A B} (p : promise A) (f : A -> S -> S * completion B)
    (s : S) : S * promise B :=
  match p with
  | Fulfilled a =>
      match f a s with
      | (s', Normal b) => (s', Fulfilled b)
      | (s', Throw e) => (s', Rejected e)
      end
  | Rejected e => (s, Rejected e)
  end.

(** [p.otherwise(g)]. *)
Definition otherwise {A} (p : promise A) (g : error -> completion A) : promise A :=
  match p with
  | Fulfilled a => Fulfilled a
  | Rejected e =>
      match g e with
      | Normal a => Fulfilled a
      | Throw e' => Rejected e'
      end
  end.

End Js.

(** ** Regular expressions of the sources

    The three literals of [ArcGisCatalogGroup.js] are matched the way a
    backtracking engine does: the pattern is tried at each start position
    from the left.  The [i] flag folds ASCII letters only: a non-ASCII
    code unit never matches an ASCII letter of the pattern. *)

Module Re.

Definition lower (c : ascii) : ascii :=
  let n := nat_of_ascii c in
  if (65 <=? n)%nat && (n <=? 90)%nat then ascii_of_nat (n + 32) else c.

Definition eqCI (a b : ascii) : bool := Ascii.eqb (lower a) (lower b).

(** The literal [pat] at the start of [s], case folded; what follows it. *)
Fixpoint prefixCI (pat s : string) : option string :=
  match pat with
  | EmptyString => Some s
  | String p pat' =>
      match s with
      | EmptyString => None
      | String c s' => if eqCI p c then prefixCI pat' s' else None
      end
  end.



(** Line terminators among the code units below 256: LF and CR. *)
Definition lineTerminator (c : ascii) : bool :=
  let n := nat_of_ascii c in (n =? 10)%nat || (n =? 13)%nat.

(** The capture group (dot, star): the longest run without a line
    terminator. *)
Fixpoint dotStar (s : string) : string :=
  match s with
  | EmptyString => EmptyString
  | String c s' => if lineTerminator c then EmptyString else String c (dotStar s')
  end.

(** [exec] for the literal followed by the capture group, with the [i]
    flag: the capture of the leftmost match, or [None] when [exec]
    returns null. *)
Fixpoint execLitDotStar (lit s : string) : option string :=
  match prefixCI lit s with
  | Some rest => Some (dotStar rest)
  | None =>
      match s with
      | EmptyString => None
      | String _ s' => execLitDotStar lit s'
      end
  end.

End Re.

(** ** lib/Models/ArcGisCatalogGroup.js *)

Module ArcGis.
Import Js.

Inductive groupKind : Type := EsriGroup | EsriMapServerGroup | EsriFeatureServerGroup.

(** An ArcGisCatalogGroup (or one of its two sibling group classes): the
    properties the file reads and writes; [extra] keeps any other property
    assigned by name. *)
Inductive group : Type := Group {
  kind : groupKind;
  name : value;
  url : string;
  dataCustodian : value;
  blacklist : value;
  itemProperties : value;
  items : list group;
  extra : obj value }.

(** An entry of the [services] array of a REST listing. *)
Record service : Type := Service { svc_name : string; svc_type : value }.

(** The JSON document a REST endpoint answers with: [None] stands for a
    missing (or otherwise falsy) [folders] or [services] member. *)
Record serviceJson : Type := ServiceJson {
  folders : option (list string);
  services : option (list service) }.

(** The collaborators outside the file: the transport, the proxy, URI.js
    and the two specialised loaders. *)
Class Host : Type := {
  (** [loadJson(url)]: how the request settles; [None] is a falsy body. *)
  loadJson : string -> promise (option serviceJson);
  (** [proxyCatalogItemUrl(group, url, cacheDuration)]. *)
  proxyCatalogItemUrl : group -> string -> string -> string;
  (** [new URI(url).search('').toString()]. *)
  uriWithoutSearch : string -> string;
  (** [new URI(url).segment(s1)...segment(sn).toString()]. *)
  uriSegments : string -> list string -> string;
  (** [ArcGisMapServerCatalogGroup.loadMapServer]. *)
  loadMapServer : group -> group * completion (promise unit);
  (** [ArcGisFeatureServerCatalogGroup.loadFeatureServer]. *)
  loadFeatureServer : group -> group * completion (promise unit) }.

(** Modelled from the spec: lib/Core/replaceUnderscores.js is not among the
    sources; section 4.2 says the adapter "replaces underscores with
    spaces". *)
Definition replaceUnderscores (s : string) : string :=
  string_of_list_ascii
    (map (fun c => if Ascii.eqb c "_"%char then " "%char else c)
         (list_ascii_of_string s)).

(** Modelled from the spec: CatalogGroup.prototype.add is not among the
    sources; section 3 makes [items] an ordered sequence in insertion
    order, so a child that is added comes last. *)
Definition add (child parent : group) : group :=
  {| kind := kind parent; name := name parent; url := url parent;
     dataCustodian := dataCustodian parent; blacklist := blacklist parent;
     itemProperties := itemProperties parent;
     items := items parent ++ [child]; extra := extra parent |}.

(** [group[propertyName] = v].  Every read of [url] in the file turns it
    into a string, so the string is what is kept. *)
Definition assign (propertyName : string) (v : value) (g : group) : group :=
  if String.eqb propertyName "name" then
    {| kind := kind g; name := v; url := url g; dataCustodian := dataCustodian g;
       blacklist := blacklist g; itemProperties := itemProperties g;
       items := items g; extra := extra g |}
  else if String.eqb propertyName "url" then
    {| kind := kind g; name := name g; url := toStr v; dataCustodian := dataCustodian g;
       blacklist := blacklist g; itemProperties := itemProperties g;
       items := items g; extra := extra g |}
  else if String.eqb propertyName "dataCustodian" then
    {| kind := kind g; name := name g; url := url g; dataCustodian := v;
       blacklist := blacklist g; itemProperties := itemProperties g;
       items := items g; extra := extra g |}
  else if String.eqb propertyName "blacklist" then
    {| kind := kind g; name := name g; url := url g; dataCustodian := dataCustodian g;
       blacklist := v; itemProperties := itemProperties g;
       items := items g; extra := extra g |}
  else if String.eqb propertyName "itemProperties" then
    {| kind := kind g; name := name g; url := url g; dataCustodian := dataCustodian g;
       blacklist := blacklist g; itemProperties := v;
       items := items g; extra := extra g |}
  else
    {| kind := kind g; name := name g; url := url g; dataCustodian := dataCustodian g;
       blacklist := blacklist g; itemProperties := itemProperties g;
       items := items g; extra := set propertyName v (extra g) |}.

Fixpoint charProperties (i : nat) (s : string) : obj value :=
  match s with
  | EmptyString => []
  | String c r =>
      (NilEmpty.string_of_uint (Nat.to_uint i), VStr (String c EmptyString))
        :: charProperties (S i) r
  end.

(** The own enumerable properties a [for-in] with [hasOwnProperty] visits. *)
Definition ownProperties (v : value) : obj value :=
  match v with
  | VObj fields => fields
  | VStr s => charProperties 0 s
  | _ => []
  end.

(** Modelled from the spec: CatalogMember.prototype.updateFromJson is not
    among the sources; sections 3 and 4.2 describe [itemProperties] as
    configuration "applied to children created during load"
    ([setProperties]): each property of the JSON is set on the member. *)
Definition updateFromJson (json : value) (g : group) : group :=
  fold_left (fun g kv => assign (fst kv) (snd kv) g) (ownProperties json) g.

(** [name.substring(n)]. *)
Fixpoint substringFrom (n : nat) (s : string) : string :=
  match n, s with
  | O, _ => s
  | S n', String _ s' => substringFrom n' s'
  | S _, EmptyString => EmptyString
  end.

(** [getBasePath]: the capture group of the rest/services/ pattern run on
    [catalogGroup.url], or the empty string. *)
Definition getBasePath (catalogGroup : group) : string :=
  match Re.execLitDotStar "rest/services/" (url catalogGroup) with
  | Some m1 => m1
  | None => ""
  end.

Definition removePathFromName (basePath name : string) : string :=
  if negb (truthy (VStr basePath)) && (String.length basePath =? 0)%nat then name
  else
    match String.index 0 basePath name with      (* name.indexOf(basePath) *)
    | Some O => substringFrom (String.length basePath + 1) name
    | _ => name
    end.

Section WithHost.
Context {H : Host}.

Definition cleanAndProxyUrl (catalogGroup : group) (u : string) : string :=
  let cleanedUrl := uriWithoutSearch u in
  proxyCatalogItemUrl catalogGroup cleanedUrl "1d".

(** Returns the parent after [catalogGroup.add(newGroup)] and the child.
    A group fresh from its constructor has no items and its
    [itemProperties] undefined. *)
Definition createGroup (catalogGroup : group) (basePath folderJson : string)
    : group * group :=
  let localName := removePathFromName basePath folderJson in
  let newGroup :=
    {| kind := EsriGroup;
       name := VStr (replaceUnderscores localName);
       url := uriSegments (url catalogGroup) [localName];
       dataCustodian := dataCustodian catalogGroup;
       blacklist := blacklist catalogGroup;
       itemProperties := VUndefined; items := []; extra := [] |} in
  let newGroup :=
    if defined (itemProperties catalogGroup)
    then updateFromJson (itemProperties catalogGroup) newGroup
    else newGroup in
  (add newGroup catalogGroup, newGroup).

Definition validServerTypes : list value := [VStr "MapServer"; VStr "FeatureServer"].

(** Strict equality on the values an element of [validServerTypes] can
    equal. *)
Definition strictEqStr (a b : value) : bool :=
  match a, b with
  | VStr x, VStr y => String.eqb x y
  | _, _ => false
  end.

(** [array.indexOf(x)], [None] for -1. *)
Fixpoint indexOf (x : value) (l : list value) : option nat :=
  match l with
  | [] => None
  | y :: l' =>
      if strictEqStr y x then Some O
      else match indexOf x l' with Some i => Some (S i) | None => None end
  end.

(** Returns the parent (after [add], when a child was made) and what the
    function returns: the child, or undefined. *)
Definition createMapOrFeatureServer (catalogGroup : group) (basePath : string)
    (serviceJson : service) : group * option group :=
  match indexOf (svc_type serviceJson) validServerTypes with
  | None => (catalogGroup, None)
  | Some serverTypeIndex =>
      let localName := removePathFromName basePath (svc_name serviceJson) in
      let k := if (serverTypeIndex =? 0)%nat
               then EsriMapServerGroup else EsriFeatureServerGroup in
      let group0 :=
        {| kind := k;
           name := VStr (replaceUnderscores localName);
           url := uriSegments (url catalogGroup)
                    [localName; toStr (svc_type serviceJson)];
           dataCustodian := dataCustodian catalogGroup;
           blacklist := blacklist catalogGroup;
           itemProperties := VUndefined; items := []; extra := [] |} in
      let group1 :=
        if defined (itemProperties catalogGroup)
        then fold_left (fun g kv => assign (fst kv) (snd kv) g)
               (ownProperties (itemProperties catalogGroup)) group0
        else group0 in
      (add group1 catalogGroup, Some group1)
  end.

Definition invalidArcGisServer : error := TerriaError "Invalid ArcGIS Server" None.

Definition groupIsNotAvailable (catalogGroup : group) : error :=
  TerriaError "Group is not available" (Some (url catalogGroup)).

(** The callback [loadRest] passes to [then]. *)
Definition restLoaded (response : option serviceJson) (catalogGroup : group)
    : group * completion unit :=
  match response with
  | None => (catalogGroup, Throw invalidArcGisServer)
  | Some json =>
      match folders json, services json with
      | None, None => (catalogGroup, Throw invalidArcGisServer)
      | fs, ss =>
          let basePath := getBasePath catalogGroup in
          let g1 :=
            match fs with
            | Some l => fold_left (fun g f => fst (createGroup g basePath f)) l catalogGroup
            | None => catalogGroup
            end in
          let g2 :=
            match ss with
            | Some l =>
                fold_left (fun g s => fst (createMapOrFeatureServer g basePath s)) l g1
            | None => g1
            end in
          (g2, Normal tt)
      end
  end.

(** The group once the request has settled, and what the call returns. *)
Definition loadRest (catalogGroup : group) : group * completion (promise unit) :=
  let serviceUrl := (cleanAndProxyUrl catalogGroup (url catalogGroup) ++ "?f=json")%string in
  let (g', p) := thenS (loadJson serviceUrl) restLoaded catalogGroup in
  (g', Normal (otherwise p (fun _ => Throw (groupIsNotAvailable catalogGroup)))).


End WithHost.

End ArcGis.

(** ** URI.js, as far as the share links use it *)

Module Uri.
Import Js.

(** The parts URI.js keeps: everything before the query (scheme, authority
    and path), the query without its [?] and the fragment without its [#]. *)
Record uri : Type := Uri { path : string; query : string; fragment : string }.

(** [uri.toString()]: an empty query or fragment leaves no [?] or [#]. *)
Definition toString (u : uri) : string :=
  (path u
   ++ (if String.eqb (query u) "" then "" else "?" ++ query u)
   ++ (if String.eqb (fragment u) "" then "" else "#" ++ fragment u))%string.

Definition hexDigit (n : nat) : ascii :=
  match String.get n "0123456789ABCDEF" with
  | Some c => c
  | None => "0"%char
  end.

Definition percent (n : nat) : string :=
  String "%"%char (String (hexDigit (n / 16)) (String (hexDigit (n mod 16)) EmptyString)).

(** The characters [URI.encode] (a strict encodeURIComponent) leaves alone:
    letters, digits and [- _ . ~]. *)
Definition unreserved (c : ascii) : bool :=
  let n := nat_of_ascii c in
  ((48 <=? n) && (n <=? 57) || (65 <=? n) && (n <=? 90) || (97 <=? n) && (n <=? 122)
   || (n =? 45) || (n =? 95) || (n =? 46) || (n =? 126))%nat.

(** One code unit below 256 through [URI.encodeQuery]: a space becomes
    [+], any other reserved unit the percent-escapes of its UTF-8 bytes. *)
Definition encodeUnit (c : ascii) : string :=
  let n := nat_of_ascii c in
  if unreserved c then String c EmptyString
  else if (n =? 32)%nat then "+"
  else if (n <? 128)%nat then percent n
  else (percent (192 + n / 64) ++ percent (128 + n mod 64))%string.

Fixpoint encodeQuery (s : string) : string :=
  match s with
  | EmptyString => EmptyString
  | String c r => (encodeUnit c ++ encodeQuery r)%string
  end.

(** The object [URI.parseQuery] returns and [URI.buildQuery] takes: each
    parameter name with its values, in the object's key order. *)
Definition queryData : Type := obj (list string).

(** [URI.addQuery(data, name, value)] for a value that is a string or
    undefined: an undefined value leaves the query as it is (the property
    it sets is skipped by [buildQuery]). *)
Definition addQuery (name : string) (v : option string) (data : queryData) : queryData :=
  match v with
  | None => data
  | Some s =>
      match get data name with
      | Some vs => set name (vs ++ [s]) data
      | None => set name [s] data
      end
  end.

Definition buildQueryParameter (name value : string) : string :=
  (encodeQuery name ++ "=" ++ encodeQuery value)%string.

(** The values of one name, each once (duplicateQueryParameters is off). *)
Fixpoint unique (seen vs : list string) : list string :=
  match vs with
  | [] => []
  | v :: vs' =>
      if existsb (String.eqb v) seen then unique seen vs'
      else v :: unique (v :: seen) vs'
  end.

Fixpoint joinAmp (l : list string) : string :=
  match l with
  | [] => ""
  | [p] => p
  | p :: l' => (p ++ "&" ++ joinAmp l')%string
  end.

(** [URI.buildQuery(data)]: names that are the empty string are left out. *)
Definition buildQuery (data : queryData) : string :=
  joinAmp
    (flat_map
       (fun kv => if String.eqb (fst kv) "" then []
                  else map (buildQueryParameter (fst kv)) (unique [] (snd kv)))
       data).

(** [window.location], already split as [new URI(window.location)] splits
    it. *)
Record location : Type := Location { base : string; search : string; hash : string }.

End Uri.

(** ** The JSON a catalog serializes to *)

Module Json.
Import Js.

(** A serialized catalog member: the members [BuildShareLink.js] reads by
    name ([id], [parents], [items]) and the other serialized properties
    ([isEnabled], [isOpen], [name], ...).  [id = None] and [items = None]
    stand for undefined. *)
Inductive node : Type := Node {
  id : option string;
  parents : list string;
  props : obj value;
  items : option (list node) }.

Definition isEnabled (item : node) : value := read (props item) "isEnabled".
Definition isOpen (item : node) : value := read (props item) "isOpen".

End Json.

(** ** The live catalog and its serialization

    lib/Models (CatalogMember, CatalogGroup, Catalog) and
    lib/Core/combineFilters.js are not among the sources; what
    [BuildShareLink.js] needs of them is modelled here from the spec. *)

Module Catalog.
Import Js.

(** Modelled from the spec: the CatalogNode / CatalogGroup / CatalogItem
    data model of section 3, which is not among the sources: [id] (here
    [uniqueId]), the serializable properties ([name], [url],
    [isUserSupplied], [isEnabled], [isOpen], ...) and, for a group, the
    ordered [items]. *)
Inductive member : Type := Member {
  uniqueId : string;
  properties : obj value;
  items : option (list member) }.

(** Modelled from the spec: a member as a filter sees it, with the
    [parent] back-reference of section 3 (the CatalogMember class is not
    among the sources): the owning group, or none at the root. *)
Record item : Type := Item { self : member; parent : option member }.

(** Filters run against the one array a filter of [BuildShareLink.js]
    closes over: the rejections recorded so far. *)
Definition St (A : Type) : Type := list item -> A * list item.

Definition ret {A} (a : A) : St A := fun r => (a, r).

Definition bind {A B} (m : St A) (f : A -> St B) : St B :=
  fun r => let (a, r') := m r in f a r'.

Definition filterFn (X : Type) : Type := X -> St bool.

(** A filter without effects. *)
Definition pure {X} (f : X -> bool) : filterFn X := fun x => ret (f x).

(** Modelled from the spec: combineFilters (lib/Core/combineFilters.js is
    not among the sources); section 4.3 calls it a "predicate chain" by
    which "exclusion rules can be composed": the chain accepts when every
    filter accepts; filters are asked in order, up to the first that
    rejects. *)
Fixpoint combineFilters {X} (filters : list (filterFn X)) (x : X) : St bool :=
  match filters with
  | [] => ret true
  | f :: fs => bind (f x) (fun ok => if ok then combineFilters fs x else ret false)
  end.

(** The options [BuildShareLink.js] passes to [serializeToJson]. *)
Record options : Type := Options {
  itemFilter : option (filterFn item);
  propertyFilter : option (filterFn (string * member)) }.

Section Walk.
Variable visit : member -> St (option Json.node).

(** Modelled from the spec: the serialization of the children of a group
    (CatalogGroup is not among the sources), in the order of section 3; a
    child that is filtered out leaves no trace. *)
Fixpoint serializeItems (l : list member) : St (list Json.node) :=
  match l with
  | [] => ret []
  | c :: l' =>
      bind (visit c) (fun oc =>
      bind (serializeItems l') (fun rest =>
      ret (match oc with Some n => n :: rest | None => rest end)))
  end.
End Walk.

(** Modelled from the spec: the projection of a member's properties
    through the property filter (section 4.3, step 2), in the order of the
    properties; serializeToJson is not among the sources. *)
Fixpoint filterProperties (pf : filterFn (string * member)) (m : member)
    (ps : obj value) : St (obj value) :=
  match ps with
  | [] => ret []
  | (k, v) :: ps' =>
      bind (pf (k, m)) (fun ok =>
      bind (filterProperties pf m ps') (fun rest =>
      ret (if ok then (k, v) :: rest else rest)))
  end.

(** Modelled from the spec: CatalogMember.prototype.serializeToJson, which
    is not among the sources.  Section 4.3: the walk keeps the members the
    item filter accepts and, of each kept member, the properties the
    property filter accepts; section 7: a member that is not kept is
    skipped (and with it the subtree only it leads to).  The JSON carries
    the member's id, the ids of its ancestors below the root, outermost
    first ([parents]), and, for a group, the kept children ([items]). *)
Fixpoint serializeMember (o : options) (ancestors : list string)
    (par : option member) (m : member) {struct m} : St (option Json.node) :=
  bind (match itemFilter o with
        | Some f => f {| self := m; parent := par |}
        | None => ret true
        end) (fun keep =>
  if keep then
    bind (match propertyFilter o with
          | Some pf => filterProperties pf m (properties m)
          | None => ret (properties m)
          end) (fun ps =>
    bind (match items m with
          | None => ret None
          | Some l =>
              bind (serializeItems
                      (serializeMember o (ancestors ++ [uniqueId m]) (Some m)) l)
                   (fun l' => ret (Some l'))
          end) (fun kids =>
    ret (Some {| Json.id := Some (uniqueId m); Json.parents := ancestors;
                 Json.props := ps; Json.items := kids |})))
  else ret None).

(** Modelled from the spec: Catalog.prototype.serializeToJson: the members
    below the root group, whose parent is the root. *)
Definition serializeToJson (o : options) (root : member) : St (list Json.node) :=
  match items root with
  | Some l => serializeItems (serializeMember o [] (Some root)) l
  | None => ret []
  end.

(** The predicates of CatalogMember that are not among the sources. *)
Class MemberFilters : Type := {
  (** [CatalogMember.itemFilters.noLocalData]. *)
  noLocalData : item -> bool;
  (** [CatalogMember.propertyFilters.sharedOnly(property, member)]: the
      "shareable" subset of a member's properties. *)
  sharedOnly : string * member -> bool }.

(** Modelled from the spec: CatalogMember.itemFilters.userSuppliedOnly
    keeps the "user-added nodes (isUserSupplied == true)". *)
Definition userSuppliedOnly (it : item) : bool :=
  truthy (read (properties (self it)) "isUserSupplied").

End Catalog.

(** ** lib/ReactViews/Map/Panels/SharePanel/BuildShareLink.js *)

Module BuildShareLink.
Import Js.
Import Catalog.

Record rectangle (R : Type) : Type := Rectangle { west : R; south : R; east : R; north : R }.
Record cartographic (R : Type) : Type :=
  Cartographic { longitude : R; latitude : R; height : R }.

(** Cesium, which the file only calls: its numbers, its Cartesian3 and the
    two conversions used. *)
Class Cesium : Type := {
  num : Type;
  cartesian3 : Type;
  (** [CesiumMath.toDegrees]. *)
  toDegrees : num -> num;
  (** [Ellipsoid.WGS84.cartesianToCartographic]. *)
  cartesianToCartographic : cartesian3 -> cartographic num }.

(** [lib/Models/ViewerMode], of which the sources name the three members. *)
Inductive ViewerMode : Type := CesiumTerrain | CesiumEllipsoid | Leaflet.

Section Model.
Context {C : Cesium} {F : MemberFilters}.

(** *** The state of a Terria instance the file reads *)

Record camera : Type := Camera {
  positionWC : cartesian3; directionWC : cartesian3; upWC : cartesian3 }.

Record homeView : Type := HomeView {
  hv_rectangle : rectangle num;
  hv_position : value; hv_direction : value; hv_up : value }.

Record julianDate : Type := JulianDate { dayNumber : num; secondsOfDay : num }.

Record clock : Type := Clock { currentTime : julianDate }.

(** A picked feature (an Entity): [imageryLayer] is defined on the
    features that come from a raster layer. *)
Record feature : Type := Feature {
  feat_name : value;
  imageryLayer : value;
  feat_properties : obj value }.

Record pickedFeatures : Type := PickedFeatures {
  providerCoords : value;
  pickPosition : cartesian3;
  features : list feature }.

(** [locationMarker.entities.values[0]]. *)
Record markerEntity : Type := MarkerEntity {
  marker_name : value; marker_position : cartesian3 }.

(** *** The init sources *)

Record cameraJson : Type := CameraJson {
  c_west : num; c_south : num; c_east : num; c_north : num;
  c_position : option cartesian3; c_direction : option cartesian3;
  c_up : option cartesian3 }.

Record homeCameraJson : Type := HomeCameraJson {
  h_west : num; h_south : num; h_east : num; h_north : num;
  h_position : value; h_direction : value; h_up : value }.

Record viewSettings : Type := ViewSettings {
  initialCamera : cameraJson;
  homeCamera : homeCameraJson;
  baseMapName : value;
  viewerMode : option string;
  currentTimeJson : julianDate;
  (** [showSplitter] and [splitPosition], set together or not at all. *)
  splitter : option (value * value) }.

Record entityJson : Type := EntityJson { e_name : value; e_hash : Z }.

Record pickCoords : Type := PickCoords { lat : num; lng : num; pc_height : num }.

Record pickedFeaturesJson : Type := PickedFeaturesJson {
  pf_providerCoords : value;
  pf_pickCoords : pickCoords;
  pf_current : option entityJson;
  pf_entities : list entityJson }.

Record locationMarkerJson : Type := LocationMarkerJson {
  lm_name : value; lm_latitude : num; lm_longitude : num }.

Inductive initSource : Type :=
| Existing (source : value)                 (** an element of [terria.initSources] *)
| CatalogInit (catalog : list Json.node)    (** [{catalog: ...}] *)
| SharedCatalogMembers (members : obj (option Json.node))
                                            (** [{sharedCatalogMembers: ...}] *)
| ViewInit (settings : viewSettings)
| PickedFeaturesInit (picked : pickedFeaturesJson)  (** [{pickedFeatures: ...}] *)
| LocationMarkerInit (marker : locationMarkerJson). (** [{locationMarker: ...}] *)

Record shareData : Type := ShareData { version : string; sd_initSources : list initSource }.

(** The short-link collaborators (section 6). *)
Record urlShortener : Type := UrlShortener {
  us_isUsable : bool;
  shorten : string -> promise string }.

Record shareDataService : Type := ShareDataService {
  sds_isUsable : bool;
  getShareToken : shareData -> promise string }.

Record terria : Type := Terria {
  t_initSources : list initSource;
  t_catalog : member;                        (** the root group of [terria.catalog] *)
  userProperties : obj string;
  t_urlShortener : option urlShortener;
  t_shareDataService : option shareDataService;
  currentExtent : rectangle num;             (** [currentViewer.getCurrentExtent()] *)
  cesiumCamera : option camera;              (** [terria.cesium.scene.camera] *)
  t_homeView : homeView;
  t_clock : clock;
  t_viewerMode : ViewerMode;
  baseMapNameOf : value;                     (** [terria.baseMap.name] *)
  showSplitter : value;
  splitPosition : value;
  t_pickedFeatures : option pickedFeatures;
  selectedFeature : option feature;
  locationMarker : option markerEntity }.

(** What the file takes from its environment: [hashEntity]
    (lib/Core/hashEntity), [JSON.stringify] and [window.location]. *)
Class Host : Type := {
  hashEntity : feature -> clock -> Z;
  stringify : shareData -> string;
  location : Uri.location }.

Context {H : Host}.

Definition userPropWhiteList : list string := ["hideExplorerPanel"; "activeTabId"].

(** *** rememberRejections

    The returned [filter]; the returned [rejections] array is the state the
    filter runs against, empty at first. *)
Definition rememberRejections (filterFn : item -> bool) : Catalog.filterFn item :=
  fun item rejections =>
    let allowed := filterFn item in
    (allowed, if negb allowed then rejections ++ [item] else rejections).

(** *** flattenCatalog

    Each item comes first, with its [items] set to undefined once its
    subtree has been appended: the array holds the very object that is
    updated. *)
Fixpoint flattenNode (item : Json.node) : list Json.node :=
  match item with
  | Json.Node i ps pr its =>
      Json.Node i ps pr None
        :: match its with
           | Some l => flat_map flattenNode l
           | None => []
           end
  end.

Definition flattenCatalog (items : list Json.node) : list Json.node :=
  flat_map flattenNode items.

(** *** addUserAddedCatalog *)

(** The third filter of the chain: [!item.parent || !item.parent.url]. *)
Definition parentHasNoUrl (item : item) : bool :=
  match parent item with
  | None => true
  | Some p => negb (truthy (read (properties p) "url"))
  end.

Definition userAddedFilter : Catalog.filterFn item :=
  combineFilters
    [ rememberRejections noLocalData;
      pure userSuppliedOnly;
      pure parentHasNoUrl ].

(** Returns the init sources after the push and the rejections. *)
Definition addUserAddedCatalog (t : terria) (initSources : list initSource)
    : list initSource * list item :=
  let (userAddedCatalog, rejections) :=
    serializeToJson {| itemFilter := Some userAddedFilter; propertyFilter := None |}
      (t_catalog t) [] in
  (if (0 <? length userAddedCatalog)%nat
   then initSources ++ [CatalogInit userAddedCatalog]
   else initSources,
   rejections).

(** *** addSharedMembers *)

Definition sharedOptions : options :=
  {| itemFilter := Some (combineFilters [pure noLocalData]);
     propertyFilter :=
       Some (combineFilters
               [ pure sharedOnly;
                 pure (fun pm : string * member => negb (String.eqb (fst pm) "name")) ]) |}.

(** The property key [item.id] turns into. *)
Definition propertyKey (identifier : option string) : string :=
  match identifier with
  | Some s => s
  | None => "undefined"
  end.

Definition clearId (item : Json.node) : Json.node :=
  {| Json.id := None; Json.parents := Json.parents item;
     Json.props := Json.props item; Json.items := Json.items item |}.

(** The callback of [reduce]: [soFar[item.id] = item; item.id =
    undefined].  A value [None] is the undefined the pruning writes. *)
Definition store (soFar : obj (option Json.node)) (item : Json.node)
    : obj (option Json.node) :=
  set (propertyKey (Json.id item)) (Some (clearId item)) soFar.

(** The [filter] and [reduce] steps. *)
Definition keyById (flat : list Json.node) : obj (option Json.node) :=
  fold_left store
    (filter (fun item => truthy (Json.isEnabled item) || truthy (Json.isOpen item)) flat)
    [].

(** [!catalogForSharing[parentId]]: an own property holds an item or
    undefined; a key that is no own property reads a member of
    [Object.prototype], which is truthy, or undefined. *)
Definition absent (catalogForSharing : obj (option Json.node)) (parentId : string) : bool :=
  match get catalogForSharing parentId with
  | Some (Some _) => false
  | Some None => true
  | None => negb (inherited parentId)
  end.

(** One turn of the [forEach] over [Object.keys(catalogForSharing)].  Each
    key is visited once and only its own visit writes to it, so the key
    still holds the item the reduce stored; the last branch is not
    reached. *)
Definition eliminate (catalogForSharing : obj (option Json.node)) (key : string)
    : obj (option Json.node) :=
  match get catalogForSharing key with
  | Some (Some item) =>
      let isGroupWithClosedParent :=
        truthy (Json.isOpen item)
        && existsb (absent catalogForSharing) (Json.parents item) in
      if isGroupWithClosedParent then set key None catalogForSharing
      else catalogForSharing
  | _ => catalogForSharing
  end.

(** "Eliminate open groups without all ancestors open". *)
Definition eliminateOpenGroups (catalogForSharing : obj (option Json.node))
    : obj (option Json.node) :=
  fold_left eliminate (keys catalogForSharing) catalogForSharing.

(** The [catalogForSharing] object of a serialized catalog, as pushed. *)
Definition catalogForSharing (serialized : list Json.node) : obj (option Json.node) :=
  eliminateOpenGroups (keyById (flattenCatalog serialized)).

Definition addSharedMembers (t : terria) (initSources : list initSource)
    : list initSource :=
  let serialized := fst (serializeToJson sharedOptions (t_catalog t) []) in
  let members := catalogForSharing serialized in
  if (0 <? length (keys members))%nat
  then initSources ++ [SharedCatalogMembers members]
  else initSources.

(** *** addViewSettings *)

Definition addViewSettings (t : terria) (initSources : list initSource)
    : list initSource :=
  let cameraExtent := currentExtent t in
  let initialCamera :=
    {| c_west := toDegrees (west cameraExtent);
       c_south := toDegrees (south cameraExtent);
       c_east := toDegrees (east cameraExtent);
       c_north := toDegrees (north cameraExtent);
       c_position := option_map positionWC (cesiumCamera t);
       c_direction := option_map directionWC (cesiumCamera t);
       c_up := option_map upWC (cesiumCamera t) |} in
  let homeCamera :=
    {| h_west := toDegrees (west (hv_rectangle (t_homeView t)));
       h_south := toDegrees (south (hv_rectangle (t_homeView t)));
       h_east := toDegrees (east (hv_rectangle (t_homeView t)));
       h_north := toDegrees (north (hv_rectangle (t_homeView t)));
       h_position := hv_position (t_homeView t);
       h_direction := hv_direction (t_homeView t);
       h_up := hv_up (t_homeView t) |} in
  let time :=
    {| dayNumber := dayNumber (currentTime (t_clock t));
       secondsOfDay := secondsOfDay (currentTime (t_clock t)) |} in
  let viewerMode :=
    match t_viewerMode t with
    | CesiumTerrain => "3d"
    | CesiumEllipsoid => "3dSmooth"
    | Leaflet => "2d"
    end in
  let terriaSettings :=
    {| initialCamera := initialCamera;
       homeCamera := homeCamera;
       baseMapName := baseMapNameOf t;
       viewerMode := Some viewerMode;
       currentTimeJson := time;
       splitter := if truthy (showSplitter t)
                   then Some (showSplitter t, splitPosition t) else None |} in
  initSources ++ [ViewInit terriaSettings].

(** *** addFeaturePicking *)

Definition entityOf (t : terria) (entity : feature) : entityJson :=
  {| e_name := feat_name entity; e_hash := hashEntity entity (t_clock t) |}.

Definition addFeaturePicking (t : terria) (initSources : list initSource)
    : list initSource :=
  match t_pickedFeatures t with
  | Some picked =>
      if (0 <? length (features picked))%nat then
        let positionInRadians := cartesianToCartographic (pickPosition picked) in
        let pickedFeatures :=
          {| pf_providerCoords := providerCoords picked;
             pf_pickCoords :=
               {| lat := toDegrees (latitude positionInRadians);
                  lng := toDegrees (longitude positionInRadians);
                  pc_height := height positionInRadians |};
             pf_current := option_map (entityOf t) (selectedFeature t);
             pf_entities :=
               map (entityOf t)
                 (filter (fun feature => negb (defined (imageryLayer feature)))
                    (features picked)) |} in
        initSources ++ [PickedFeaturesInit pickedFeatures]
      else initSources
  | None => initSources
  end.

(** *** addLocationMarker *)

Definition addLocationMarker (t : terria) (initSources : list initSource)
    : list initSource :=
  match locationMarker t with
  | Some entity =>
      let positionDegrees := cartesianToCartographic (marker_position entity) in
      initSources ++
        [LocationMarkerInit
           {| lm_name := marker_name entity;
              lm_latitude := toDegrees (latitude positionDegrees);
              lm_longitude := toDegrees (longitude positionDegrees) |}]
  | None => initSources
  end.

(** *** getShareData, buildShareLink, canShorten, buildShortShareLink *)

Definition getShareData (t : terria) : shareData :=
  let initSources := t_initSources t in                  (* slice() *)
  let initSources := fst (addUserAddedCatalog t initSources) in
  let initSources := addSharedMembers t initSources in
  let initSources := addViewSettings t initSources in
  let initSources := addFeaturePicking t initSources in
  let initSources := addLocationMarker t initSources in
  {| version := "0.0.05"; sd_initSources := initSources |}.

(** The query the [uri] of [buildShareLink] carries before it is moved to
    the fragment: [search({start: ...})], then one [addSearch({ key: ... })]
    per whitelisted name; the object literal's property is named [key]. *)
Definition shareQuery (t : terria) : Uri.queryData :=
  fold_left
    (fun data key => Uri.addQuery "key" (get (userProperties t) key) data)
    userPropWhiteList
    [("start", [stringify (getShareData t)])].

Definition buildShareLink (t : terria) : string :=
  Uri.toString
    {| Uri.path := Uri.base location;
       Uri.query := "";
       Uri.fragment := Uri.buildQuery (shareQuery t) |}.

(** The truth value of what [canShorten] returns. *)
Definition canShorten (t : terria) : bool :=
  match t_urlShortener t with
  | Some u => us_isUsable u
  | None => false
  end
  || match t_shareDataService t with
     | Some s => sds_isUsable s
     | None => false
     end.

Definition urlFromToken (token : string) : string :=
  Uri.toString
    {| Uri.path := Uri.base location;
       Uri.query := Uri.search location;
       Uri.fragment := ("share=" ++ token)%string |}.

Definition buildShortShareLink (t : terria) : completion (promise string) :=
  match t_shareDataService t with
  | Some service =>
      Normal (then_ (getShareToken service (getShareData t))
                (fun token => Normal (urlFromToken token)))
  | None =>
      match t_urlShortener t with
      | Some shortener =>
          Normal (then_ (shorten shortener (buildShareLink t))
                    (fun token => Normal (urlFromToken token)))
      | None => Throw (TypeError "terria.urlShortener is undefined")
      end
  end.

(** ** lib/Models/sendFeedback.js: the share link it sends *)

(** What the conditional expression evaluates to: a string, or a
    promise. *)
Inductive linkValue : Type :=
| PlainString (s : string)
| Promised (p : promise string).

(** The initializer of [shareLinkPromise] in [sendFeedback]. *)
Definition shareLinkPromise (sendShareURL : bool) (t : terria) : completion linkValue :=
  if sendShareURL then
    if canShorten t then
      match buildShortShareLink t with
      | Normal p => Normal (Promised p)
      | Throw e => Throw e
      end
    else Normal (PlainString (buildShareLink t))
  else Normal (Promised (Fulfilled "Not shared")).

End Model.

End BuildShareLink.

(** ** Promise callbacks that return promises or write to shared state *)

Module Async.
Import Js.

(** [p.then(f)] for a callback that returns a promise and updates a state
    [S] it closes over: the promise [then] returns settles as the one the
    callback returns. *)
Definition thenP {S A B} (p : promise A) (f : A -> S -> S * promise B)
    (s : S) : S * promise B :=
  match p with
  | Fulfilled a => f a s
  | Rejected e => (s, Rejected e)
  end.

(** [p.otherwise(g)] for a handler that updates a state [S]. *)
Definition otherwiseS {S A} (p : promise A) (g : error -> S -> S * completion A)
    (s : S) : S * promise A :=
  match p with
  | Fulfilled a => (s, Fulfilled a)
  | Rejected e =>
      match g e s with
      | (s', Normal a) => (s', Fulfilled a)
      | (s', Throw e') => (s', Rejected e')
      end
  end.

End Async.

(** ** lib/Models/sendFeedback.js *)

Module Feedback.
Import Js Async BuildShareLink.

Section Model.
Context {C : Cesium} {F : Catalog.MemberFilters} {H : Host}.

(** [options.terria]: the Terria instance with, of its configParameters,
    the [feedbackUrl]. *)
Record feedbackTerria : Type := FeedbackTerria {
  instance : terria;
  feedbackUrl : value }.

(** The [options] of [sendFeedback]; [o_terria = None] when
    [options.terria] is undefined or null. *)
Record options : Type := Options {
  o_terria : option feedbackTerria;
  o_title : value;
  o_name : value;
  o_email : value;
  o_comment : value;
  sendShareURL : value }.

(** The object whose JSON text is the [data] of the request. *)
Record feedback : Type := FeedbackData {
  f_title : value;
  f_name : value;
  f_email : value;
  f_shareLink : string;
  f_comment : value }.

(** The argument of [loadWithXhr]; the response type is always json and
    the content type application/json. *)
Record request : Type := Request {
  r_url : value;
  r_method : string;
  r_data : feedback }.

(** The collaborators: [loadWithXhr] (how the request settles) and
    [JSON.parse]. *)
Class Network : Type := {
  loadWithXhr : request -> promise value;
  parse : string -> completion value }.

Context {N : Network}.

(** What [sendFeedback] does to its surroundings: the TerriaErrors raised
    on [terria.error], by title, and the requests made, both in order. *)
Record world : Type := World {
  raised : list string;
  posted : list request }.

Definition raiseEvent (title : string) (w : world) : world :=
  {| raised := raised w ++ [title]; posted := posted w |}.

Definition raiseError (w : world) : world :=
  raiseEvent "Unable to send feedback" w.

(** [json.result] for a [json] that is neither undefined nor null. *)
Definition resultOf (json : value) : value :=
  match json with
  | VObj fields => read fields "result"
  | _ => VUndefined
  end.

(** [v !== 'SUCCESS']. *)
Definition isNotSuccess (v : value) : bool :=
  match v with
  | VStr s => negb (String.eqb s "SUCCESS")
  | _ => true
  end.

(** The first callback: the request is made with the share link. *)
Definition post (o : options) (t : feedbackTerria) (shareLink : string) (w : world)
    : world * promise value :=
  let r :=
    {| r_url := feedbackUrl t;
       r_method := "POST";
       r_data := {| f_title := o_title o; f_name := o_name o; f_email := o_email o;
                    f_shareLink := shareLink; f_comment := o_comment o |} |} in
  ({| raised := raised w; posted := posted w ++ [r] |}, loadWithXhr r).

(** The second callback: the answer of the server. *)
Definition answered (json : value) (w : world) : world * completion bool :=
  match (match json with
         | VStr s => parse s
         | _ => Normal json
         end) with
  | Throw e => (w, Throw e)
  | Normal json =>
      if negb (truthy json) || negb (truthy (resultOf json))
         || isNotSuccess (resultOf json)
      then (raiseError w, Normal false)
      else (raiseEvent "Thank you for your feedback!" w, Normal true)
  end.

(** The handler given to [otherwise]. *)
Definition failed (_ : error) (w : world) : world * completion bool :=
  (raiseError w, Normal false).

(** [sendFeedback(options)]: the world once every promise has settled, and
    what the call returns, [Normal None] being undefined.  A string has no
    [then] method, so calling it on the full link is a TypeError. *)
Definition sendFeedback (options : option options) (w : world)
    : world * completion (option (promise bool)) :=
  match options with
  | None => (w, Throw (DeveloperError "options.terria is required."))
  | Some o =>
      match o_terria o with
      | None => (w, Throw (DeveloperError "options.terria is required."))
      | Some t =>
          if negb (defined (feedbackUrl t)) then (raiseError w, Normal None)
          else
            match shareLinkPromise (truthy (sendShareURL o)) (instance t) with
            | Throw e => (w, Throw e)
            | Normal (PlainString _) =>
                (w, Throw (TypeError "shareLinkPromise.then is not a function"))
            | Normal (Promised shareLinkPromise) =>
                let (w1, p1) := thenP shareLinkPromise (post o t) w in
                let (w2, p2) := thenS p1 answered w1 in
                let (w3, p3) := otherwiseS p2 failed w2 in
                (w3, Normal (Some p3))
            end
      end
  end.

End Model.

End Feedback.

(** ** lib/ReactViews/Custom/Chart/Chart.jsx *)

Module Chart.
Import Js.

Section Model.

(** One array of points, as [TableStructure.toPointArrays] makes them. *)
Variable points : Type.

(** A column of a table: [ref] stands for the identity of the object
    (what [!==] compares), [isScalar] for
    [column.type === VarType.SCALAR]. *)
Record column : Type := Column {
  ref : nat;
  col_name : value;
  col_units : value;
  isScalar : bool }.

(** lib/Map/TableStructure, as far as the component calls it; a column
    that is not found is [None] (undefined). *)
Record tableStructure : Type := TableStructure {
  columns : list column;
  getColumnWithNameIdOrIndex : value -> option column;
  toPointArrays : option column -> list (option column) -> list points }.

(** [new ChartData(points, {id, name, units, color})]. *)
Record chartData : Type := ChartData {
  cd_points : points;
  cd_id : nat;
  cd_name : value;
  cd_units : value;
  cd_color : value }.

(** [props.catalogItem], with its own loader when it has one. *)
Record catalogItem : Type := CatalogItem {
  ci_loadIntoTableStructure : option (value -> promise tableStructure) }.

(** The props the component reads; [None] is undefined (or null); the
    height and the update counter are numbers, or undefined. *)
Record props : Type := Props {
  domain : value;
  styling : value;
  height : option Z;
  axisLabel : value;
  p_catalogItem : option catalogItem;
  transitionDuration : value;
  highlightX : value;
  updateCounter : option Z;
  data : option (list chartData);
  url : value;
  xColumn : value;
  yColumns : option (list value);
  colors : option (list value);
  pollUrl : value;
  p_tableStructure : option tableStructure }.

(** What the file takes from elsewhere: [loadText], [proxyCatalogItemUrl]
    and [loadFromCsv] of a fresh TableStructure. *)
Class Host : Type := {
  loadText : string -> promise string;
  proxyCatalogItemUrl : option catalogItem -> value -> string -> string;
  loadFromCsv : string -> completion tableStructure }.

Context {H : Host}.

Definition defaultHeight : Z := 100.
Definition defaultColor : value := VUndefined.

(** [column !== xColumn]. *)
Definition differs (c : column) (x : option column) : bool :=
  match x with
  | Some x' => negb (ref c =? ref x')%nat
  | None => true
  end.

(** [(colors && colors.length > 0) ? colors[index % colors.length]
    : defaultColor]. *)
Definition colorOf (colors : option (list value)) (index : nat) : value :=
  match colors with
  | Some cs =>
      if (0 <? length cs)%nat then nth (index mod length cs) cs VUndefined
      else defaultColor
  | None => defaultColor
  end.

(** [pointArrays.map((points, index) => new ChartData(...))], from the
    element at [index] on; reading [name] of a y column that is undefined
    throws. *)
Fixpoint chartDataFrom (yColumns : list (option column)) (colors : option (list value))
    (index : nat) (pointArrays : list points) : completion (list chartData) :=
  match pointArrays with
  | [] => Normal []
  | pts :: rest =>
      match nth_error yColumns index with
      | Some (Some y) =>
          match chartDataFrom yColumns colors (S index) rest with
          | Normal l =>
              Normal ({| cd_points := pts; cd_id := index; cd_name := col_name y;
                         cd_units := col_units y; cd_color := colorOf colors index |} :: l)
          | Throw e => Throw e
          end
      | _ => Throw (TypeError "yColumns[index] is undefined")
      end
  end.

(** The y columns: those asked for by [props.yColumns], or the first
    scalar column that is not the x column. *)
Definition yColumnsOf (p : props) (table : tableStructure) (xColumn : option column)
    : completion (list (option column)) :=
  match yColumns p with
  | Some l => Normal (map (getColumnWithNameIdOrIndex table) l)
  | None =>
      match filter (fun column => differs column xColumn && isScalar column)
                   (columns table) with
      | y :: _ => Normal [Some y]
      | [] => Throw (DeveloperError "No y-column available.")
      end
  end.

Definition chartDataArrayFromTableStructure (p : props) (table : tableStructure)
    : completion (list chartData) :=
  let xColumn :=
    getColumnWithNameIdOrIndex table
      (if truthy (xColumn p) then xColumn p else VNum 0) in
  match yColumnsOf p table xColumn with
  | Throw e => Throw e
  | Normal yColumns =>
      let pointArrays := toPointArrays table xColumn yColumns in
      chartDataFrom yColumns (colors p) 0 pointArrays
  end.

(** [loadIntoTableStructure(catalogItem, url)]. *)
Definition loadIntoTableStructure (catalogItem : option catalogItem) (url : value)
    : promise tableStructure :=
  match catalogItem with
  | Some (CatalogItem (Some load)) => load url
  | _ =>
      let url' := proxyCatalogItemUrl catalogItem url "0d" in
      then_ (loadText url') loadFromCsv
  end.

(** [getChartDataPromise(data, url, catalogItem)]; [None] when the
    function falls off its end and returns undefined. *)
Definition getChartDataPromise (p : props) (data : option (list chartData)) (url : value)
    (catalogItem : option catalogItem) : option (promise (list chartData)) :=
  match data with
  | Some d => Some (Fulfilled d)
  | None =>
      if defined url then
        Some (otherwise
                (then_ (loadIntoTableStructure catalogItem url)
                       (chartDataArrayFromTableStructure p))
                (fun _ => Normal []))
      else None
  end.

(** *** getChartParameters *)

Record margin : Type := Margin { top : Z; right : Z; bottom : Z; left : Z }.

(** The tooltip settings; the class name, the alignment and the offset
    are the same in every chart. *)
Record tooltipSettings : Type := TooltipSettings { tt_id : string }.

Record titleSettings : Type := TitleSettings { ts_type : string; ts_height : Z }.

Record grid : Type := Grid { g_x : bool; g_y : bool }.

Record chartParameters : Type := ChartParameters {
  cp_data : option (list chartData);
  cp_domain : value;
  cp_width : string;
  cp_height : Z;
  cp_axisLabel : value;
  cp_mini : bool;
  cp_transitionDuration : value;
  cp_margin : option margin;
  cp_tooltipSettings : option tooltipSettings;
  cp_titleSettings : option titleSettings;
  cp_grid : option grid;
  cp_highlightX : value }.

(** [props.styling === s]. *)
Definition stylingIs (p : props) (s : string) : bool :=
  match styling p with
  | VStr s' => String.eqb s' s
  | _ => false
  end.

(** [getChartParameters()]: [tooltipId] is [this._tooltipId] before the
    call, [random] what [Math.random().toString().substr(2)] gives when it
    is called; returns [this._tooltipId] after the call and the result. *)
Definition getChartParameters (p : props) (random : string) (tooltipId : option string)
    : option string * completion chartParameters :=
  let tooltipId' :=
    if negb (stylingIs p "feature-info") then
      match tooltipId with
      | Some i => Some i
      | None => Some ("d3-tooltip-" ++ random)%string
      end
    else tooltipId in
  let margin :=
    if negb (stylingIs p "feature-info")
    then Some {| top := 0; right := 20; bottom := 20; left := 0 |}
    else None in
  let tooltipSettings :=
    if negb (stylingIs p "feature-info")
    then option_map TooltipSettings tooltipId'
    else None in
  let titleSettings :=
    if negb (stylingIs p "feature-info")
    then Some {| ts_type := "legend"; ts_height := 30 |}
    else None in
  let grid :=
    if negb (stylingIs p "feature-info")
    then Some {| g_x := true; g_y := true |}
    else None in
  let tooltipSettings := if defined (highlightX p) then None else tooltipSettings in
  let titleSettings := if stylingIs p "histogram" then None else titleSettings in
  let margin :=
    if stylingIs p "histogram"
    then Some {| top := 0; right := 0; bottom := 0; left := 0 |}
    else margin in
  match (match data p with
         | Some d => Normal (Some d)
         | None =>
             match p_tableStructure p with
             | Some table =>
                 match chartDataArrayFromTableStructure p table with
                 | Normal d => Normal (Some d)
                 | Throw e => Throw e
                 end
             | None => Normal None
             end
         end) with
  | Throw e => (tooltipId', Throw e)
  | Normal chartData =>
      (tooltipId',
       Normal {| cp_data := chartData;
                 cp_domain := domain p;
                 cp_width := "100%";
                 cp_height := match height p with Some h => h | None => defaultHeight end;
                 cp_axisLabel := axisLabel p;
                 cp_mini := stylingIs p "feature-info";
                 cp_transitionDuration := transitionDuration p;
                 cp_margin := margin;
                 cp_tooltipSettings := tooltipSettings;
                 cp_titleSettings := titleSettings;
                 cp_grid := grid;
                 cp_highlightX := highlightX p |})
  end.

(** *** The life cycle

    [LineChart] and the window are written to only: the calls made to
    [LineChart] are kept in order, and the resize listeners registered on
    the window by their identity, a number that is new for each closure. *)

Inductive chartCall : Type :=
| Create (parameters : chartParameters)
| Update (parameters : chartParameters)
| Destroy (parameters : chartParameters).

Record page : Type := Page {
  listeners : list nat;
  closures : nat;                 (** the closures made so far *)
  calls : list chartCall }.

(** The component: [_tooltipId], whether [_element] is set, and
    [_promise], which is fulfilled with the resize listener. *)
Record component : Type := Component {
  _tooltipId : option string;
  _element : bool;
  _promise : option (promise nat) }.

Definition withData (parameters : chartParameters) (d : list chartData)
    : chartParameters :=
  {| cp_data := Some d;
     cp_domain := cp_domain parameters;
     cp_width := cp_width parameters;
     cp_height := cp_height parameters;
     cp_axisLabel := cp_axisLabel parameters;
     cp_mini := cp_mini parameters;
     cp_transitionDuration := cp_transitionDuration parameters;
     cp_margin := cp_margin parameters;
     cp_tooltipSettings := cp_tooltipSettings parameters;
     cp_titleSettings := cp_titleSettings parameters;
     cp_grid := cp_grid parameters;
     cp_highlightX := cp_highlightX parameters |}.

Definition called (c : chartCall) (w : page) : page :=
  {| listeners := listeners w; closures := closures w; calls := calls w ++ [c] |}.

(** [componentDidMount()], once the promise has settled. *)
Definition componentDidMount (p : props) (random : string) (this : component) (w : page)
    : component * page * completion unit :=
  match getChartParameters p random (_tooltipId this) with
  | (tooltipId, Throw e) =>
      ({| _tooltipId := tooltipId; _element := _element this;
          _promise := _promise this |}, w, Throw e)
  | (tooltipId, Normal chartParameters) =>
      match getChartDataPromise p (cp_data chartParameters) (url p) (p_catalogItem p) with
      | None =>
          ({| _tooltipId := tooltipId; _element := _element this;
              _promise := _promise this |}, w,
           Throw (TypeError "promise is undefined"))
      | Some (Fulfilled d) =>
          let w1 := called (Create (withData chartParameters d)) w in
          let resize := closures w1 in
          ({| _tooltipId := tooltipId; _element := _element this;
              _promise := Some (Fulfilled resize) |},
           {| listeners := listeners w1 ++ [resize]; closures := S (closures w1);
              calls := calls w1 |},
           Normal tt)
      | Some (Rejected e) =>
          ({| _tooltipId := tooltipId; _element := _element this;
              _promise := Some (Rejected e) |}, w, Normal tt)
      end
  end.

(** [props.updateCounter > 0]. *)
Definition positive (v : option Z) : bool :=
  match v with
  | Some z => (0 <? z)%Z
  | None => false
  end.

(** [componentDidUpdate()]. *)
Definition componentDidUpdate (p : props) (random : string) (this : component) (w : page)
    : component * page * completion unit :=
  match getChartParameters p random (_tooltipId this) with
  | (tooltipId, Throw e) =>
      ({| _tooltipId := tooltipId; _element := _element this;
          _promise := _promise this |}, w, Throw e)
  | (tooltipId, Normal chartParameters) =>
      let this' := {| _tooltipId := tooltipId; _element := _element this;
                      _promise := _promise this |} in
      match cp_data chartParameters with
      | Some _ => (this', called (Update chartParameters) w, Normal tt)
      | None =>
          if positive (updateCounter p) then
            let url := if truthy (pollUrl p) then pollUrl p else url p in
            match getChartDataPromise p (cp_data chartParameters) url (p_catalogItem p) with
            | None => (this', w, Throw (TypeError "promise is undefined"))
            | Some (Fulfilled d) =>
                (this', called (Update (withData chartParameters d)) w, Normal tt)
            | Some (Rejected _) => (this', w, Normal tt)
            end
          else (this', w, Normal tt)
      end
  end.

(** [componentWillUnmount()], once the callback given to
    [this._promise.then] has run. *)
Definition componentWillUnmount (p : props) (random : string) (this : component) (w : page)
    : component * page * completion unit :=
  match _promise this with
  | None => (this, w, Throw (TypeError "this._promise is undefined"))
  | Some (Rejected _) =>
      ({| _tooltipId := _tooltipId this; _element := _element this;
          _promise := None |}, w, Normal tt)
  | Some (Fulfilled listener) =>
      let w1 := {| listeners := List.remove Nat.eq_dec listener (listeners w);
                   closures := closures w; calls := calls w |} in
      match getChartParameters p random (_tooltipId this) with
      | (tooltipId, Throw _) =>
          ({| _tooltipId := tooltipId; _element := _element this; _promise := None |},
           w1, Normal tt)
      | (tooltipId, Normal chartParameters) =>
          ({| _tooltipId := tooltipId; _element := false; _promise := None |},
           called (Destroy chartParameters) w1, Normal tt)
      end
  end.

End Model.

End Chart.

(** ** lib/Models/TerriaJsonCatalogFunction.js *)

Module TerriaJson.
Import Js.

(** The JSON a service answers with.  An array is an object too: [named]
    holds the properties set on it by name, none after [JSON.parse]. *)
Inductive json : Type :=
| JNull
| JBool (b : bool)
| JNum (z : Z)
| JStr (s : string)
| JArr (elements : list json) (named : list (string * json))
| JObj (fields : list (string * json)).

(** [j[k]] for a name [k] that no prototype defines: undefined is [None];
    reading a property of null throws. *)
Definition prop (j : json) (k : string) : completion (option json) :=
  match j with
  | JNull => Throw (TypeError "Cannot read property of null")
  | JObj fields => Normal (get fields k)
  | JArr _ named => Normal (get named k)
  | _ => Normal None
  end.

(** ToBoolean, and Cesium's [defined], of a value that may be undefined. *)
Definition truthyJ (v : option json) : bool :=
  match v with
  | None | Some JNull => false
  | Some (JBool b) => b
  | Some (JNum z) => negb (Z.eqb z 0)
  | Some (JStr s) => negb (String.eqb s "")
  | Some _ => true
  end.

Definition definedJ (v : option json) : bool :=
  match v with
  | None | Some JNull => false
  | Some _ => true
  end.

(** [j[k] = v] in strict mode: a property cannot be set on null or on a
    primitive value. *)
Definition assign (k : string) (v : json) (j : json) : completion json :=
  match j with
  | JObj fields => Normal (JObj (set k v fields))
  | JArr elements named => Normal (JArr elements (set k v named))
  | _ => Throw (TypeError "Cannot create property")
  end.

(** [Array.isArray(v)]. *)
Definition isArray (v : option json) : bool :=
  match v with
  | Some (JArr _ _) => true
  | _ => false
  end.

(** A FunctionParameter as [invoke] reads it: [formatValueAsString] and
    [formatForService] stand for what the two methods return. *)
Record functionParameter : Type := FunctionParameter {
  p_id : string;
  p_name : value;
  p_value : value;
  formatValueAsString : value;
  formatForService : value }.

(** The function: [inputs] is what the [parameters] getter returns, [None]
    when it is undefined or null. *)
Record catalogFunction : Type := CatalogFunction {
  cf_name : value;
  cf_url : value;
  cf_uniqueId : value;
  inputs : option (list functionParameter) }.

(** An element of an [items] array: the function itself, another member,
    or a results group with its id and name. *)
Inductive entry : Type :=
| Self
| Member (key : string)
| ResultsGroup (id : string) (name : string).

(** The catalog around the function: [this.parent.items] when
    [this.parent && this.parent.items] holds, the items of
    [terria.catalog.group], and [terria.catalog.shareKeyIndex]. *)
Record catalog : Type := CatalogState {
  parentItems : option (list entry);
  groupItems : list entry;
  shareKeyIndex : obj entry }.

(** The calls [invoke] hands the answer to. *)
Inductive call : Type :=
| UpdateFromStartData (answer : json)
| AddInitSource (answer : json)
| UpdateItems (items : list json) (isUserSupplied : bool) (group : entry).

(** [now], as the getters of Date give it; [month] counts from zero. *)
Record date : Type := Date {
  fullYear : nat; month : nat; day : nat;
  hours : nat; minutes : nat; seconds : nat }.

(** The collaborators: URI.js ([new URI(url).addQuery(q).toString()]),
    the proxy, the transport, and the way the promise of each call
    settles. *)
Class Host : Type := {
  uriWithQuery : value -> obj value -> string;
  proxyCatalogItemUrl : catalogFunction -> string -> string -> string;
  loadJson : string -> promise json;
  settles : call -> promise unit }.

Section WithHost.
Context {H : Host}.

(** The ResultPendingCatalogItem [invoke] makes; [ar_isEnabled] is [None]
    while [isEnabled] is as the constructor left it. *)
Record pendingItem : Type := PendingItem {
  ar_name : string;
  ar_description : string;
  ar_isEnabled : option bool;
  ar_hasLoadPromise : bool }.

Fixpoint zeros (n : nat) : string :=
  match n with
  | O => ""
  | S n' => String "0"%char (zeros n')
  end.

(** [sprintf('%0wd', n)]. *)
Definition pad (w n : nat) : string :=
  let s := NilEmpty.string_of_uint (Nat.to_uint n) in
  (zeros (w - String.length s) ++ s)%string.

Definition timestamp (now : date) : string :=
  (pad 4 (fullYear now) ++ "-" ++ pad 2 (month now + 1) ++ "-" ++ pad 2 (day now)
   ++ "T" ++ pad 2 (hours now) ++ ":" ++ pad 2 (minutes now) ++ ":"
   ++ pad 2 (seconds now))%string.

(** The callback of [reduce]: one table row for a parameter. *)
Definition row (previousValue : string) (p : functionParameter) : string :=
  (previousValue ++ "<tr>" ++ "<td style=" ++ String (ascii_of_nat 34) "vertical-align: middle"
   ++ String (ascii_of_nat 34) ">" ++ toStr (p_name p) ++ "</td>"
   ++ "<td>" ++ toStr (formatValueAsString p) ++ "</td>" ++ "</tr>")%string.

Definition description (this : catalogFunction) (stamp : string) : string :=
  ("This is the result of invoking the " ++ toStr (cf_name this)
   ++ " process or service at " ++ stamp ++ " with the input parameters below."
   ++ String (ascii_of_nat 10) (String (ascii_of_nat 10) "")
   ++ "<table class=" ++ String (ascii_of_nat 34) "cesium-infoBox-defaultTable"
   ++ String (ascii_of_nat 34) ">"
   ++ fold_left row (match inputs this with Some l => l | None => [] end) ""
   ++ "</table>")%string.

(** [v === '']. *)
Definition isEmptyString (v : value) : bool :=
  match v with
  | VStr s => String.eqb s ""
  | _ => false
  end.

(** The callback of [forEach] that fills [queryParameters]. *)
Definition addParameter (queryParameters : obj value) (p : functionParameter) : obj value :=
  if negb (defined (p_value p)) || isEmptyString (p_value p) then queryParameters
  else set (p_id p) (formatForService p) queryParameters.

Definition queryParametersOf (l : list functionParameter) : obj value :=
  fold_left addParameter l [].

(** The callback of [items.forEach]: the defaults of a result item. *)
Definition prepare (asyncResult : pendingItem) (item : json) : completion json :=
  match prop item "isEnabled" with
  | Throw e => Throw e
  | Normal isEnabled =>
      match (if negb (definedJ isEnabled) then assign "isEnabled" (JBool true) item
             else Normal item) with
      | Throw e => Throw e
      | Normal item1 =>
          match prop item1 "name" with
          | Throw e => Throw e
          | Normal name =>
              match assign "name"
                      (match name with
                       | Some n => if truthyJ name then n else JStr (ar_name asyncResult)
                       | None => JStr (ar_name asyncResult)
                       end) item1 with
              | Throw e => Throw e
              | Normal item2 =>
                  match prop item2 "description" with
                  | Throw e => Throw e
                  | Normal d =>
                      assign "description"
                        (match d with
                         | Some d' =>
                             if truthyJ d then d'
                             else JStr (ar_description asyncResult)
                         | None => JStr (ar_description asyncResult)
                         end) item2
                  end
              end
          end
      end
  end.

(** [items.forEach(...)]: the items as the loop leaves them, up to the
    first item that makes it throw. *)
Fixpoint prepareAll (asyncResult : pendingItem) (items : list json)
    : completion (list json) :=
  match items with
  | [] => Normal []
  | item :: rest =>
      match prepare asyncResult item with
      | Throw e => Throw e
      | Normal item' =>
          match prepareAll asyncResult rest with
          | Throw e => Throw e
          | Normal rest' => Normal (item' :: rest')
          end
      end
  end.

(** [items.indexOf(this)], [None] for -1. *)
Fixpoint indexOfSelf (items : list entry) : option nat :=
  match items with
  | [] => None
  | Self :: _ => Some O
  | _ :: rest => option_map S (indexOfSelf rest)
  end.

(** [items.splice(index, 0, x)] for an index within the array. *)
Definition spliceIn (index : nat) (x : entry) (items : list entry) : list entry :=
  firstn index items ++ x :: skipn index items.

(** The group that holds the results: the one the share key index has, or
    a new one placed in the items of the parent; returns the catalog after
    the placement and the group.  A member that enters the items of a
    group of the catalog is entered in [terria.catalog.shareKeyIndex]
    under its id (CatalogGroup watches its items), so the index holds the
    new group once it is spliced in.  The key read ends in -results and so
    names no member of [Object.prototype]. *)
Definition resultsGroupOf (this : catalogFunction) (c : catalog) : catalog * entry :=
  let resultsGroupId := (toStr (cf_uniqueId this) ++ "-results")%string in
  match get (shareKeyIndex c) resultsGroupId with
  | Some resultsGroup => (c, resultsGroup)
  | None =>
      let items :=
        match parentItems c with
        | Some l => l
        | None => groupItems c
        end in
      let index :=
        match indexOfSelf items with
        | Some i => S i
        | None => length items
        end in
      let resultsGroup :=
        ResultsGroup resultsGroupId (toStr (cf_name this) ++ " Results")%string in
      let items' := spliceIn index resultsGroup items in
      (match parentItems c with
       | Some _ => {| parentItems := Some items'; groupItems := groupItems c;
                      shareKeyIndex := set resultsGroupId resultsGroup (shareKeyIndex c) |}
       | None => {| parentItems := None; groupItems := items';
                    shareKeyIndex := set resultsGroupId resultsGroup (shareKeyIndex c) |}
       end,
       resultsGroup)
  end.

(** What the callback given to [loadJson(...).then] does once
    [asyncResult.isEnabled] is cleared: the catalog after it, the call it
    hands the answer to, if it gets that far, and how it completes. *)
Definition answered (this : catalogFunction) (asyncResult : pendingItem)
    (answer : json) (c : catalog) : catalog * list call * completion (promise unit) :=
  match prop answer "version" with
  | Throw e => (c, [], Throw e)
  | Normal version =>
      match prop answer "initSources", prop answer "catalog" with
      | Normal initSources, Normal catalog =>
          if truthyJ version && truthyJ initSources then
            (c, [UpdateFromStartData answer], Normal (settles (UpdateFromStartData answer)))
          else if isArray catalog then
            (c, [AddInitSource answer], Normal (settles (AddInitSource answer)))
          else
            let items :=
              match answer with
              | JArr elements _ => elements
              | _ => [answer]
              end in
            match prepareAll asyncResult items with
            | Throw e => (c, [], Throw e)
            | Normal items' =>
                let (c', resultsGroup) := resultsGroupOf this c in
                (c', [UpdateItems items' true resultsGroup],
                 Normal (settles (UpdateItems items' true resultsGroup)))
            end
      | Throw e, _ => (c, [], Throw e)
      | _, Throw e => (c, [], Throw e)
      end
  end.

(** The outcome of [invoke()], once the request has settled: the pending
    item, the url asked for, the catalog as the statements of [invoke]
    leave it (what the calls it makes do to the catalog is theirs), the
    calls made, and what [invoke] returns. *)
Record outcome : Type := Outcome {
  asyncResult : pendingItem;
  requested : option string;
  after : catalog;
  made : list call;
  returned : completion (promise unit) }.

Definition invoke (this : catalogFunction) (now : date) (c : catalog) : outcome :=
  let stamp := timestamp now in
  let name := (toStr (cf_name this) ++ " " ++ stamp)%string in
  let described :=
    {| ar_name := name; ar_description := description this stamp;
       ar_isEnabled := None; ar_hasLoadPromise := false |} in
  match inputs this with
  | None =>
      {| asyncResult := described; requested := None; after := c; made := [];
         returned := Throw (TypeError "this.parameters is undefined") |}
  | Some parameters =>
      let queryParameters := queryParametersOf parameters in
      let proxiedUrl :=
        proxyCatalogItemUrl this (uriWithQuery (cf_url this) queryParameters) "1d" in
      match loadJson proxiedUrl with
      | Rejected e =>
          {| asyncResult :=
               {| ar_name := name; ar_description := description this stamp;
                  ar_isEnabled := Some true; ar_hasLoadPromise := true |};
             requested := Some proxiedUrl; after := c; made := [];
             returned := Normal (Rejected e) |}
      | Fulfilled answer =>
          let '(c', calls, r) := answered this described answer c in
          {| asyncResult :=
               {| ar_name := name; ar_description := description this stamp;
                  ar_isEnabled := Some false; ar_hasLoadPromise := true |};
             requested := Some proxiedUrl; after := c'; made := calls;
             returned :=
               Normal (match r with
                       | Normal p => p
                       | Throw e => Rejected e
                       end) |}
      end
  end.

End WithHost.

End TerriaJson.

(** ** lib/Models/Cesium3DTilesCatalogItem.js *)

Module Tiles.
Import Js.

(** What the tileset is loaded from: the proxied url, or the Cesium Ion
    asset with the access token and the server asked for. *)
Inductive resource : Type :=
| Url (u : string)
| IonAsset (assetId : value) (accessToken : value) (server : value).

(** A Cesium3DTileset: its [show], the [url] option it was made with and
    the other options it was given. *)
Record tileset : Type := Tileset {
  show : value;
  ts_url : resource;
  ts_options : obj value;
  destroyed : bool }.

(** [terria.cesium.scene]: every tileset made so far, by identity (its
    position), and the identities [scene.primitives] holds, in order. *)
Record scene : Type := Scene {
  tilesets : list tileset;
  primitives : list nat }.

(** The catalog item: the properties the file reads, the access token of
    [terria.configParameters] and [_tileset]. *)
Record item : Type := Item {
  name : value;
  url : value;
  isShown : value;
  options : option (obj value);
  ionAssetId : value;
  ionAccessToken : value;
  ionServer : value;
  cesiumIonAccessToken : value;
  _tileset : option nat }.

Section WithHost.

(** [proxyCatalogItemUrl(item, url)]. *)
Variable proxyCatalogItemUrl : item -> value -> string.

Definition withTileset (t : option nat) (this : item) : item :=
  {| name := name this; url := url this; isShown := isShown this;
     options := options this; ionAssetId := ionAssetId this;
     ionAccessToken := ionAccessToken this; ionServer := ionServer this;
     cesiumIonAccessToken := cesiumIonAccessToken this; _tileset := t |}.

(** [tileset.show = v] on the tileset [r]. *)
Fixpoint setShow (r : nat) (v : value) (l : list tileset) : list tileset :=
  match l, r with
  | [], _ => []
  | t :: l', O =>
      {| show := v; ts_url := ts_url t; ts_options := ts_options t;
         destroyed := destroyed t |} :: l'
  | t :: l', S r' => t :: setShow r' v l'
  end.

Fixpoint destroy (r : nat) (l : list tileset) : list tileset :=
  match l, r with
  | [], _ => []
  | t :: l', O =>
      {| show := show t; ts_url := ts_url t; ts_options := ts_options t;
         destroyed := true |} :: l'
  | t :: l', S r' => t :: destroy r' l'
  end.

Definition _showInCesium (this : item) (s : scene) : scene :=
  match _tileset this with
  | Some r => {| tilesets := setShow r (VBool true) (tilesets s); primitives := primitives s |}
  | None => s
  end.

Definition _hideInCesium (this : item) (s : scene) : scene :=
  match _tileset this with
  | Some r => {| tilesets := setShow r (VBool false) (tilesets s); primitives := primitives s |}
  | None => s
  end.

(** [_showInLeaflet()]: the item after the call, and the TerriaError it
    throws, whose sender is the item (kept by its url). *)
Definition _showInLeaflet (this : item) : item * completion unit :=
  ({| name := name this; url := url this; isShown := VBool false;
      options := options this; ionAssetId := ionAssetId this;
      ionAccessToken := ionAccessToken this; ionServer := ionServer this;
      cesiumIonAccessToken := cesiumIonAccessToken this; _tileset := _tileset this |},
   Throw (TerriaError "Not supported in 2D" (Some (toStr (url this))))).

(** Cesium's [combine(options, this.options)] on the two options [show]
    and [url]: a property of the first object wins, so the second gives
    the other options only. *)
Definition combine (others : obj value) : obj value :=
  filter (fun kv => negb (String.eqb (fst kv) "show" || String.eqb (fst kv) "url")) others.

Definition _enableInCesium (this : item) (s : scene) : item * scene :=
  let (this1, s1) :=
    match _tileset this with
    | None =>
        let resource :=
          if defined (ionAssetId this) then
            IonAsset (ionAssetId this)
              (if truthy (ionAccessToken this) then ionAccessToken this
               else cesiumIonAccessToken this)
              (ionServer this)
          else Url (proxyCatalogItemUrl this (url this)) in
        let made :=
          {| show := isShown this; ts_url := resource;
             ts_options := match options this with
                           | Some others => combine others
                           | None => []
                           end;
             destroyed := false |} in
        (withTileset (Some (length (tilesets s))) this,
         {| tilesets := tilesets s ++ [made]; primitives := primitives s |})
    | Some _ => (this, s)
    end in
  match _tileset this1 with
  | Some r =>
      if existsb (Nat.eqb r) (primitives s1) then (this1, s1)
      else (this1, {| tilesets := tilesets s1; primitives := primitives s1 ++ [r] |})
  | None => (this1, s1)
  end.

(** [_disableInCesium()]; [primitives.removeAndDestroy(tileset)] removes
    the tileset and destroys it when the collection held it. *)
Definition _disableInCesium (this : item) (s : scene) : item * scene :=
  match _tileset this with
  | Some r =>
      (withTileset None this,
       {| tilesets := if existsb (Nat.eqb r) (primitives s)
                      then destroy r (tilesets s) else tilesets s;
          primitives := List.remove Nat.eq_dec r (primitives s) |})
  | None => (this, s)
  end.

(** The calls the viewer makes while it is Cesium. *)
Inductive call : Type := Enable | Disable | Show | Hide.

Definition run (c : call) (state : item * scene) : item * scene :=
  match c with
  | Enable => _enableInCesium (fst state) (snd state)
  | Disable => _disableInCesium (fst state) (snd state)
  | Show => (fst state, _showInCesium (fst state) (snd state))
  | Hide => (fst state, _hideInCesium (fst state) (snd state))
  end.

End WithHost.

End Tiles.

(** ** lib/ReactViews/SidePanel/SidePanel.jsx *)

Module SidePanel.

(** What the component reads and writes outside itself: the knockout
    subscriptions side panels hold on [nowViewing.items], by identity,
    and how many were made so far; of [viewState.searchState], the
    location search text and whether its results are shown; the length
    of [nowViewing.items] ([None] when the array is undefined); whether
    the location marker is on the map. *)
Record world : Type := World {
  subscriptions : list nat;
  made : nat;
  locationSearchText : string;
  showLocationSearchResults : bool;
  nowViewingItems : option nat;
  marker : bool }.

(** The component: [this._nowViewingChangeSubscription]. *)
Definition component : Type := option nat.

Definition unsubscribeFromProps (this : component) (w : world) : component * world :=
  match this with
  | Some subscription =>
      (None,
       {| subscriptions := List.remove Nat.eq_dec subscription (subscriptions w);
          made := made w;
          locationSearchText := locationSearchText w;
          showLocationSearchResults := showLocationSearchResults w;
          nowViewingItems := nowViewingItems w;
          marker := marker w |})
  | None => (None, w)
  end.

Definition subscribeToProps (this : component) (w : world) : component * world :=
  let (_, w1) := unsubscribeFromProps this w in
  (Some (made w1),
   {| subscriptions := subscriptions w1 ++ [made w1];
      made := S (made w1);
      locationSearchText := locationSearchText w1;
      showLocationSearchResults := showLocationSearchResults w1;
      nowViewingItems := nowViewingItems w1;
      marker := marker w1 |}).

Definition componentDidMount := subscribeToProps.
Definition componentDidUpdate := subscribeToProps.
Definition componentWillUnmount := unsubscribeFromProps.

(** [nowViewing.items] changes: every subscription that is still held
    runs its callback, which hides the location search results. *)
Definition nowViewingChanged (items : option nat) (w : world) : world :=
  {| subscriptions := subscriptions w;
     made := made w;
     locationSearchText := locationSearchText w;
     showLocationSearchResults :=
       match subscriptions w with
       | [] => showLocationSearchResults w
       | _ :: _ => false
       end;
     nowViewingItems := items;
     marker := marker w |}.

(** [changeSearchText(newText)]; [removeMarker] takes the location marker
    off the map. *)
Definition changeSearchText (newText : string) (w : world) : world :=
  {| subscriptions := subscriptions w;
     made := made w;
     locationSearchText := newText;
     showLocationSearchResults := showLocationSearchResults w;
     nowViewingItems := nowViewingItems w;
     marker := if (String.length newText =? 0)%nat then false else marker w |}.

Definition startLocationSearch (w : world) : world :=
  {| subscriptions := subscriptions w;
     made := made w;
     locationSearchText := locationSearchText w;
     showLocationSearchResults := true;
     nowViewingItems := nowViewingItems w;
     marker := marker w |}.

(** The branch of [Choose] that [render] takes for the body. *)
Inductive body : Type := SidebarSearch | Workbench | WorkbenchEmpty.

Definition render (w : world) : body :=
  if (0 <? String.length (locationSearchText w))%nat && showLocationSearchResults w
  then SidebarSearch
  else if match nowViewingItems w with
          | Some n => (0 <? n)%nat
          | None => false
          end
       then Workbench
       else WorkbenchEmpty.

(** The calls React makes on a component between its mounting and its
    unmounting. *)
Inductive lifecycle : Type := DidMount | DidUpdate | WillUnmount.

Definition run (c : lifecycle) (state : component * world) : component * world :=
  match c with
  | DidMount => componentDidMount (fst state) (snd state)
  | DidUpdate => componentDidUpdate (fst state) (snd state)
  | WillUnmount => componentWillUnmount (fst state) (snd state)
  end.

End SidePanel.

(** ** lib/ReactViews/ExplorerWindow/ExplorerWindow.jsx *)

Module ExplorerWindow.

Definition SLIDE_DURATION : N := 300.

(** What a timer does when it fires: the three callbacks given to
    [setTimeout]. *)
Inductive callback : Type :=
| SetSlidIn          (** [setState({slidIn: true})], then the timer below *)
| StopAnimating      (** [viewState.explorerPanelAnimating = false] *)
| SetInvisible.      (** [setState({visible: false})] *)

(** The component and its surroundings: of [this.state], [visible] and
    [slidIn] ([None] while undefined); [viewState.explorerPanelAnimating];
    the time in milliseconds; the timers waiting, each with the time it
    is due, in the order they were set. *)
Record window : Type := Window {
  visible : option bool;
  slidIn : option bool;
  explorerPanelAnimating : bool;
  now : N;
  timers : list (N * callback) }.

(** [setTimeout(callback, delay)]. *)
Definition setTimeout (c : callback) (delay : N) (w : window) : window :=
  {| visible := visible w; slidIn := slidIn w;
     explorerPanelAnimating := explorerPanelAnimating w;
     now := now w; timers := timers w ++ [((now w + delay)%N, c)] |}.

Definition slideIn (w : window) : window :=
  setTimeout SetSlidIn 0
    {| visible := Some true; slidIn := slidIn w; explorerPanelAnimating := true;
       now := now w; timers := timers w |}.

Definition slideOut (w : window) : window :=
  setTimeout SetInvisible SLIDE_DURATION
    {| visible := visible w; slidIn := Some false;
       explorerPanelAnimating := explorerPanelAnimating w;
       now := now w; timers := timers w |}.

Definition onVisibilityChange (isVisible : bool) (w : window) : window :=
  if isVisible then slideIn w else slideOut w.

(** A timer fires. *)
Definition fire (c : callback) (w : window) : window :=
  match c with
  | SetSlidIn =>
      setTimeout StopAnimating SLIDE_DURATION
        {| visible := visible w; slidIn := Some true;
           explorerPanelAnimating := explorerPanelAnimating w;
           now := now w; timers := timers w |}
  | StopAnimating =>
      {| visible := visible w; slidIn := slidIn w; explorerPanelAnimating := false;
         now := now w; timers := timers w |}
  | SetInvisible =>
      {| visible := Some false; slidIn := slidIn w;
         explorerPanelAnimating := explorerPanelAnimating w;
         now := now w; timers := timers w |}
  end.

(** The timer that fires next: the first of those due earliest. *)
Fixpoint earliest (l : list (N * callback)) : option (N * callback) :=
  match l with
  | [] => None
  | t :: l' =>
      match earliest l' with
      | Some t' => if (fst t' <? fst t)%N then Some t' else Some t
      | None => Some t
      end
  end.

(** The timers without the first occurrence of [t]. *)
Fixpoint without (t : N * callback) (l : list (N * callback))
    : list (N * callback) :=
  match l with
  | [] => []
  | t' :: l' =>
      if (fst t' =? fst t)%N
         && match snd t', snd t with
            | SetSlidIn, SetSlidIn | StopAnimating, StopAnimating
            | SetInvisible, SetInvisible => true
            | _, _ => false
            end
      then l' else t' :: without t l'
  end.

(** Time passes until [until]: the timers due by then fire in the order
    they are due.  [fuel] bounds the number of timers that fire. *)
Fixpoint elapse (fuel : nat) (until : N) (w : window) : window :=
  match fuel with
  | O => w
  | S fuel' =>
      match earliest (timers w) with
      | Some (due, c) =>
          if (due <=? until)%N then
            elapse fuel' until
              (fire c {| visible := visible w; slidIn := slidIn w;
                         explorerPanelAnimating := explorerPanelAnimating w;
                         now := N.max (now w) due;
                         timers := without (due, c) (timers w) |})
          else {| visible := visible w; slidIn := slidIn w;
                  explorerPanelAnimating := explorerPanelAnimating w;
                  now := N.max (now w) until; timers := timers w |}
      | None =>
          {| visible := visible w; slidIn := slidIn w;
             explorerPanelAnimating := explorerPanelAnimating w;
             now := N.max (now w) until; timers := timers w |}
      end
  end.

(** [render()] draws the window, or returns null. *)
Definition rendered (w : window) : bool :=
  match visible w with
  | Some true => true
  | _ => false
  end.

End ExplorerWindow.

(** ** lib/ReactViews/Workbench/Controls/ConceptViewer.jsx *)

Module ConceptViewer.
Import Js.

(** A concept, as the two components read it. *)
Inductive concept : Type := Concept {
  name : value;
  color : value;
  hasChildren : value;
  isOpen : value;
  isSelectable : value;
  isActive : value;
  isVisible : value;
  allowMultiple : value;
  items : list concept }.

Inductive glyph : Type :=
| opened | closed | checkboxOn | checkboxOff | radioOn | radioOff.

(** What an expression in braces gives React to draw: an icon, or a value
    (false, undefined and null draw nothing). *)
Inductive child : Type :=
| Icon (g : glyph)
| Plain (v : value).

(** The header of a concept that has a name: whether it carries the
    hasChildren class, the glyph of the button that opens it, the children
    of the button that selects it, and the name. *)
Record header : Type := Header {
  hasChildrenClass : bool;
  openButton : option glyph;
  selectButton : option (list child);
  label : value }.

(** The list item a Concept renders: its colour style, its header and,
    when it is open, the items drawn below it. *)
Inductive view : Type :=
| Li (style : option value) (head : option header) (below : option (list view)).

(** [x && y] and [!x]. *)
Definition and_ (x y : value) : value := if truthy x then y else x.
Definition not_ (x : value) : value := VBool (negb (truthy x)).

(** [{condition && <Icon glyph={g}/>}]. *)
Definition iconWhen (condition : value) (g : glyph) : child :=
  if truthy condition then Icon g else Plain condition.

Definition getColorStyle (c : concept) : option value :=
  if truthy (color c) then Some (color c) else None.

(** The header, for the [allowMultiple] prop the Concept was given. *)
Definition headerOf (allowMultipleProp : value) (c : concept) : option header :=
  if truthy (name c) then
    Some {| hasChildrenClass := truthy (hasChildren c);
            openButton :=
              if truthy (hasChildren c)
              then Some (if truthy (isOpen c) then opened else closed)
              else None;
            selectButton :=
              if truthy (isSelectable c)
              then Some [ iconWhen (and_ (isActive c) allowMultipleProp) checkboxOn;
                          iconWhen (and_ (not_ (isActive c)) allowMultipleProp) checkboxOff;
                          iconWhen (and_ (isActive c) (not_ allowMultipleProp)) radioOn;
                          iconWhen (and_ (not_ (isActive c)) (not_ allowMultipleProp))
                            radioOff ]
              else None;
            label := name c |}
  else None.

(** [Concept.render()]. *)
Fixpoint renderConcept (allowMultipleProp : value) (c : concept) : view :=
  Li (getColorStyle c)
     (headerOf allowMultipleProp c)
     (if truthy (isOpen c) then
        Some ((fix each (l : list concept) : list view :=
                 match l with
                 | [] => []
                 | child :: l' =>
                     if truthy (isVisible child)
                     then renderConcept (allowMultiple c) child :: each l'
                     else each l'
                 end) (items c))
      else None).

(** [ConceptViewer.render()]: one list per visible concept of the item;
    the Concept is given no [allowMultiple]. *)
Definition render (concepts : list concept) : list view :=
  map (renderConcept VUndefined) (filter (fun c => truthy (isVisible c)) concepts).

End ConceptViewer.

(** ** Definitions the properties are stated with *)

Module Props.
Import Js.

(** ASCII case folding of a whole string. *)
Fixpoint foldCase (s : string) : string :=
  match s with
  | EmptyString => EmptyString
  | String c r => String (Re.lower c) (foldCase r)
  end.






(** The url [loadRest] requests. *)
Definition serviceUrl {H : ArcGis.Host} (g : ArcGis.group) : string :=
  (ArcGis.cleanAndProxyUrl g (ArcGis.url g) ++ "?f=json")%string.

(** A response [loadRest] does not take for an ArcGIS REST document. *)
Definition invalidResponse (r : option ArcGis.serviceJson) : Prop :=
  r = None
  \/ exists json, r = Some json
       /\ ArcGis.folders json = None /\ ArcGis.services json = None.

(** The child-naming rule as the specification words it: the base path,
    when the identifier begins with it, is stripped as a path prefix,
    that is with the separator that follows it, if one does; underscores
    then become spaces. *)
Definition withoutSeparator (s : string) : string :=
  match s with
  | String "/"%char s' => s'
  | _ => s
  end.

Definition specChildName (basePath identifier : string) : string :=
  ArcGis.replaceUnderscores
    (if String.prefix basePath identifier && negb (String.eqb basePath "")
     then withoutSeparator (ArcGis.substringFrom (String.length basePath) identifier)
     else identifier).

(** No occurrence of [lit], up to case, starts inside [pre] when [pre] is
    followed by [rest]. *)
Definition firstAt (lit pre rest : string) : Prop :=
  forall a b : string, pre = (a ++ b)%string -> b <> EmptyString ->
    Re.prefixCI lit (b ++ rest) = None.

(** The children a listing asks for, made against the parent [g]. *)
Definition folderChildren {H : ArcGis.Host} (g : ArcGis.group) (l : list string)
    : list ArcGis.group :=
  map (fun f => snd (ArcGis.createGroup g (ArcGis.getBasePath g) f)) l.

Definition serverType (s : ArcGis.service) : bool :=
  match ArcGis.svc_type s with
  | VStr t => String.eqb t "MapServer" || String.eqb t "FeatureServer"
  | _ => false
  end.

Definition serviceChildren {H : ArcGis.Host} (g : ArcGis.group)
    (l : list ArcGis.service) : list ArcGis.group :=
  flat_map
    (fun s =>
       match snd (ArcGis.createMapOrFeatureServer g (ArcGis.getBasePath g) s) with
       | Some child => [child]
       | None => []
       end)
    (filter serverType l).

(** What a child is made from: [add] changes none of it. *)
Definition sameSettings (g g' : ArcGis.group) : Prop :=
  ArcGis.url g = ArcGis.url g'
  /\ ArcGis.dataCustodian g = ArcGis.dataCustodian g'
  /\ ArcGis.blacklist g = ArcGis.blacklist g'
  /\ ArcGis.itemProperties g = ArcGis.itemProperties g'.

(** What follows the start parameter in a full share link, by the values
    of the two whitelisted user properties. *)
Definition keyParameters (hideExplorerPanel activeTabId : option string) : string :=
  match hideExplorerPanel, activeTabId with
  | None, None => ""
  | Some a, None => "&key=" ++ Uri.encodeQuery a
  | None, Some b => "&key=" ++ Uri.encodeQuery b
  | Some a, Some b =>
      "&key=" ++ Uri.encodeQuery a
      ++ (if String.eqb b a then "" else "&key=" ++ Uri.encodeQuery b)
  end%string.

(** The picked features that do not come from an imagery layer. *)
Definition vectorFeatures {C : BuildShareLink.Cesium}
    (l : list BuildShareLink.feature) : list BuildShareLink.feature :=
  filter (fun f => negb (defined (BuildShareLink.imageryLayer f))) l.

(** The test of the [filter] step of [addSharedMembers]. *)
Definition enabledOrOpen (item : Json.node) : bool :=
  truthy (Json.isEnabled item) || truthy (Json.isOpen item).

(** Every entry lists, among its ancestors, the ancestors of each of its
    ancestors that has an entry: what holds when [parents] is the chain of
    ancestor ids and ids are unique. *)
Definition ancestorClosed (m : obj (option Json.node)) : bool :=
  forallb
    (fun kv =>
       match snd kv with
       | None => true
       | Some e =>
           forallb
             (fun p =>
                match get m p with
                | Some (Some e') =>
                    forallb (fun q => existsb (String.eqb q) (Json.parents e))
                            (Json.parents e')
                | _ => true
                end)
             (Json.parents e)
       end)
    m.

(** The tree of the pruning example: A holds B, B holds C. *)
Definition chain (a b c : string) (pa pb pc : obj value) : list Json.node :=
  [ Json.Node (Some a) [] pa
      (Some [ Json.Node (Some b) [a] pb
                (Some [ Json.Node (Some c) [a; b] pc None ]) ]) ].

Definition orEmptyMembers (o : option (list Catalog.member)) : list Catalog.member :=
  match o with
  | Some l => l
  | None => []
  end.

(** *** The serialization walk, without its bookkeeping

    What [serializeToJson] returns when the item filter gives the verdict
    [accept] and the property filter the verdict [keep] ([None]: no
    property filter), and the members the item filter is asked about, in
    the order of the walk. *)
Section PureWalk.
Variable accept : Catalog.item -> bool.
Variable keep : option (string * Catalog.member -> bool).

Definition keptProperties (m : Catalog.member) : obj value :=
  match keep with
  | Some k => filter (fun kv => k (fst kv, m)) (Catalog.properties m)
  | None => Catalog.properties m
  end.

Fixpoint serializePure (ancestors : list string) (par : option Catalog.member)
    (m : Catalog.member) {struct m} : option Json.node :=
  if accept {| Catalog.self := m; Catalog.parent := par |} then
    Some {| Json.id := Some (Catalog.uniqueId m);
            Json.parents := ancestors;
            Json.props := keptProperties m;
            Json.items :=
              match Catalog.items m with
              | None => None
              | Some l =>
                  Some (flat_map
                          (fun c =>
                             match serializePure (ancestors ++ [Catalog.uniqueId m])
                                     (Some m) c with
                             | Some n => [n]
                             | None => []
                             end) l)
              end |}
  else None.

Definition serializeForest (ancestors : list string) (par : option Catalog.member)
    (l : list Catalog.member) : list Json.node :=
  flat_map (fun c => match serializePure ancestors par c with
                     | Some n => [n]
                     | None => []
                     end) l.

Fixpoint visited (par : option Catalog.member) (m : Catalog.member) {struct m}
    : list Catalog.item :=
  {| Catalog.self := m; Catalog.parent := par |}
    :: if accept {| Catalog.self := m; Catalog.parent := par |} then
         match Catalog.items m with
         | Some l => flat_map (visited (Some m)) l
         | None => []
         end
       else [].

Definition visitedForest (par : option Catalog.member) (l : list Catalog.member)
    : list Catalog.item :=
  flat_map (visited par) l.

(** A member the walk reaches: a member of the forest, or a member reached
    in the children of an accepted group of the forest. *)
Inductive Reached : option Catalog.member -> list Catalog.member -> Catalog.item -> Prop :=
| Reached_top (par : option Catalog.member) (l : list Catalog.member)
    (m : Catalog.member) :
    In m l -> Reached par l {| Catalog.self := m; Catalog.parent := par |}
| Reached_below (par : option Catalog.member) (l : list Catalog.member)
    (g : Catalog.member) (kids : list Catalog.member) (it : Catalog.item) :
    In g l ->
    accept {| Catalog.self := g; Catalog.parent := par |} = true ->
    Catalog.items g = Some kids ->
    Reached (Some g) kids it ->
    Reached par l it.

End PureWalk.

(** An item filter with verdict [accept] that appends [log] to the
    rejections; a property filter with verdict [keep] and no effect. *)
Definition itemFilterIs (o : Catalog.options) (accept : Catalog.item -> bool)
    (log : Catalog.item -> list Catalog.item) : Prop :=
  match Catalog.itemFilter o with
  | Some f => forall it st, f it st = (accept it, st ++ log it)
  | None => forall it, accept it = true /\ log it = []
  end.

Definition propertyFilterIs (o : Catalog.options)
    (keep : option (string * Catalog.member -> bool)) : Prop :=
  match Catalog.propertyFilter o, keep with
  | None, None => True
  | Some pf, Some k => forall x st, pf x st = (k x, st)
  | _, _ => False
  end.

(** *** The two filter chains of [BuildShareLink.js], as verdicts *)

(** The verdict of the chain of [addUserAddedCatalog]: no local data,
    user supplied, and no parent or a parent without a url. *)
Definition userAdded {F : Catalog.MemberFilters} (it : Catalog.item) : bool :=
  Catalog.noLocalData it && Catalog.userSuppliedOnly it && BuildShareLink.parentHasNoUrl it.

(** What a visit adds to the rejections. *)
Definition rejection {F : Catalog.MemberFilters} (it : Catalog.item) : list Catalog.item :=
  if Catalog.noLocalData it then [] else [it].

(** The verdict of the property chain of [addSharedMembers]. *)
Definition sharedKeep {F : Catalog.MemberFilters} (pm : string * Catalog.member) : bool :=
  Catalog.sharedOnly pm && negb (String.eqb (fst pm) "name").

(** The third condition as the specification words it, for a given
    reading of "the url that would regenerate the node": no parent, a
    parent without a url, or a parent whose url is another one. *)
Definition specParentRule (regeneratedFrom : Catalog.item -> string)
    (it : Catalog.item) : bool :=
  match Catalog.parent it with
  | None => true
  | Some p =>
      negb (truthy (read (Catalog.properties p) "url"))
      || negb (String.eqb (toStr (read (Catalog.properties p) "url"))
                          (regeneratedFrom it))
  end.

Definition specUserAdded {F : Catalog.MemberFilters}
    (regeneratedFrom : Catalog.item -> string) (it : Catalog.item) : bool :=
  Catalog.noLocalData it && Catalog.userSuppliedOnly it
  && specParentRule regeneratedFrom it.

(** What the flattened fragments are compared by. *)
Definition idAndProps (n : Json.node) : option string * obj value :=
  (Json.id n, Json.props n).

(** The members below the root of a catalog. *)
Definition topLevel (root : Catalog.member) : list Catalog.member :=
  orEmptyMembers (Catalog.items root).

Definition orEmpty {A} (o : option (list A)) : list A :=
  match o with
  | Some l => l
  | None => []
  end.

(** *** Serialized catalogs by their nodes *)

(** The number of nodes of a serialized subtree. *)
Fixpoint nodeCount (n : Json.node) : nat :=
  match n with
  | Json.Node _ _ _ its =>
      S (match its with
         | Some l => list_sum (map nodeCount l)
         | None => 0
         end)
  end.

(** The ids of a serialized subtree, each node before its children. *)
Fixpoint preorderIds (n : Json.node) : list (option string) :=
  match n with
  | Json.Node i _ _ its =>
      i :: match its with
           | Some l => flat_map preorderIds l
           | None => []
           end
  end.

(** The nodes of a serialized subtree as the hierarchy holds them, each
    node before the nodes below it. *)
Fixpoint nodesOf (n : Json.node) : list Json.node :=
  match n with
  | Json.Node _ _ _ its =>
      n :: match its with
           | Some l => flat_map nodesOf l
           | None => []
           end
  end.

(** A node with its [items] undefined and nothing else changed. *)
Definition withoutItems (n : Json.node) : Json.node :=
  {| Json.id := Json.id n; Json.parents := Json.parents n;
     Json.props := Json.props n; Json.items := None |}.

(** *** sendFeedback *)

(** An answer [sendFeedback] takes for a success: an object whose [result]
    is the string SUCCESS, given as such or as the JSON text of it. *)
Definition success {N : Feedback.Network} (answer : value) : Prop :=
  exists fields,
    get fields "result" = Some (VStr "SUCCESS")
    /\ (answer = VObj fields
        \/ exists text, answer = VStr text /\ Feedback.parse text = Normal (VObj fields)).

Section FeedbackRequest.
Context {C : BuildShareLink.Cesium}.

(** The request [sendFeedback] makes for a share link. *)
Definition requestFor (o : Feedback.options) (t : Feedback.feedbackTerria)
    (link : string) : Feedback.request :=
  {| Feedback.r_url := Feedback.feedbackUrl t;
     Feedback.r_method := "POST";
     Feedback.r_data :=
       {| Feedback.f_title := Feedback.o_title o;
          Feedback.f_name := Feedback.o_name o;
          Feedback.f_email := Feedback.o_email o;
          Feedback.f_shareLink := link;
          Feedback.f_comment := Feedback.o_comment o |} |}.

End FeedbackRequest.

(** *** Chart *)

(** The tooltip id a component holds after a run of calls of
    [getChartParameters], each with its props and with the random digits
    it would draw. *)
Definition tooltipIdAfter {points : Type} (calls : list (Chart.props points * string))
    (tooltipId : option string) : option string :=
  fold_left (fun i c => fst (Chart.getChartParameters (fst c) (snd c) i)) calls tooltipId.

(** *** TerriaJsonCatalogFunction *)

(** A parameter whose value goes to the service: defined and not the
    empty string. *)
Definition hasValue (p : TerriaJson.functionParameter) : bool :=
  defined (TerriaJson.p_value p) && negb (TerriaJson.isEmptyString (TerriaJson.p_value p)).

(** The items array the results group is placed in. *)
Definition itemsAround (c : TerriaJson.catalog) : list TerriaJson.entry :=
  match TerriaJson.parentItems c with
  | Some l => l
  | None => TerriaJson.groupItems c
  end.

(** *** Cesium3DTilesCatalogItem *)

(** The state the calls keep: the primitives are those of the scene the
    item was first seen in, followed by the item's tileset while it has
    one; that tileset is not destroyed. *)
Definition settled (before : list nat) (state : Tiles.item * Tiles.scene) : Prop :=
  Tiles.primitives (snd state)
  = before ++ match Tiles._tileset (fst state) with Some r => [r] | None => [] end
  /\ (forall r, In r before -> r < length (Tiles.tilesets (snd state)))
  /\ match Tiles._tileset (fst state) with
     | Some r =>
         ~ In r before
         /\ option_map Tiles.destroyed (nth_error (Tiles.tilesets (snd state)) r)
            = Some false
     | None => True
     end.

(** *** SidePanel *)

(** The subscriptions are those held before the component was mounted,
    followed by the one the component holds; none was made later than
    [made] says. *)
Definition held (before : list nat) (state : SidePanel.component * SidePanel.world)
    : Prop :=
  SidePanel.subscriptions (snd state)
  = before ++ match fst state with Some s => [s] | None => [] end
  /\ (forall s, In s (SidePanel.subscriptions (snd state)) ->
                s < SidePanel.made (snd state)).

(** *** ConceptViewer *)

(** The icons among the children of a button. *)
Definition icons (l : list ConceptViewer.child) : list ConceptViewer.glyph :=
  flat_map (fun c => match c with
                     | ConceptViewer.Icon g => [g]
                     | ConceptViewer.Plain _ => []
                     end) l.

(** A child React draws nothing for. *)
Definition drawsNothing (c : ConceptViewer.child) : bool :=
  match c with
  | ConceptViewer.Plain (VBool _)
  | ConceptViewer.Plain VUndefined
  | ConceptViewer.Plain VNull => true
  | _ => false
  end.

Definition headOf (v : ConceptViewer.view) : option ConceptViewer.header :=
  match v with ConceptViewer.Li _ h _ => h end.

Definition belowOf (v : ConceptViewer.view) : option (list ConceptViewer.view) :=
  match v with ConceptViewer.Li _ _ b => b end.

End Props.

(** ** Sample collaborators and inputs *)

Module Sample.
Import Js.

(** A transport that answers every request with one listing; URI.js
    segments joined by slashes; no proxy. *)
Definition listing : ArcGis.serviceJson :=
  {| ArcGis.folders := Some ["Utilities"; "Base_Maps"];
     ArcGis.services :=
       Some [ {| ArcGis.svc_name := "Sample_World_Cities"; ArcGis.svc_type := VStr "MapServer" |};
              {| ArcGis.svc_name := "Geometry"; ArcGis.svc_type := VStr "GeometryServer" |};
              {| ArcGis.svc_name := "Wild_Fire"; ArcGis.svc_type := VStr "FeatureServer" |} ] |}.

Definition arcGisHost (answer : promise (option ArcGis.serviceJson)) : ArcGis.Host :=
  {| ArcGis.loadJson := fun _ => answer;
     ArcGis.proxyCatalogItemUrl := fun _ u _ => u;
     ArcGis.uriWithoutSearch := fun u => u;
     ArcGis.uriSegments :=
       fun u l => fold_left (fun acc s => (acc ++ "/" ++ s)%string) l u;
     ArcGis.loadMapServer := fun g => (g, Normal (Fulfilled tt));
     ArcGis.loadFeatureServer := fun g => (g, Normal (Fulfilled tt)) |}.

Definition servicesRoot (u : string) : ArcGis.group :=
  {| ArcGis.kind := ArcGis.EsriGroup; ArcGis.name := VStr "Services";
     ArcGis.url := u; ArcGis.dataCustodian := VUndefined;
     ArcGis.blacklist := VUndefined; ArcGis.itemProperties := VUndefined;
     ArcGis.items := []; ArcGis.extra := [] |}.

(** The services directory of a server, and one of its folders. *)
Definition directory : ArcGis.group :=
  servicesRoot "https://sampleserver.example/arcgis/rest/services".

Definition utilities : ArcGis.group :=
  servicesRoot "https://sampleserver.example/arcgis/rest/services/Utilities".

(** The same folder, given by a url that ends with a slash. *)
Definition utilitiesWithSlash : ArcGis.group :=
  servicesRoot "https://sampleserver.example/arcgis/rest/services/Utilities/".

(** Stand-ins for Cesium, for the filters of CatalogMember and for the
    browser. *)
Definition cesium : BuildShareLink.Cesium :=
  {| BuildShareLink.num := Z;
     BuildShareLink.cartesian3 := (Z * Z * Z)%type;
     BuildShareLink.toDegrees := fun r => (57 * r)%Z;
     BuildShareLink.cartesianToCartographic :=
       fun p => {| BuildShareLink.longitude := fst (fst p);
                   BuildShareLink.latitude := snd (fst p);
                   BuildShareLink.height := snd p |} |}.

Definition filters : Catalog.MemberFilters :=
  {| Catalog.noLocalData :=
       fun it => negb (defined (read (Catalog.properties (Catalog.self it)) "data"));
     Catalog.sharedOnly :=
       fun pm => existsb (String.eqb (fst pm)) ["name"; "isEnabled"; "isOpen"; "opacity"] |}.

Definition host : BuildShareLink.Host (C := cesium) :=
  {| BuildShareLink.hashEntity :=
       fun f _ => Z.of_nat (length (BuildShareLink.feat_properties f));
     BuildShareLink.stringify :=
       fun d => ("{version:" ++ BuildShareLink.version d ++ "}")%string;
     BuildShareLink.location :=
       {| Uri.base := "https://maps.example/"; Uri.search := "lang=en"; Uri.hash := "" |} |}.

(** A catalog: group A (open) holds group B (closed), which holds C (its
    isOpen true) and the enabled item E; beside them, a file the user
    added and a user-added item below a group that has a url. *)
Definition memberC : Catalog.member :=
  Catalog.Member "A/B/C" [("name", VStr "C"); ("isOpen", VBool true)] (Some []).

Definition memberE : Catalog.member :=
  Catalog.Member "A/B/E"
    [("name", VStr "E"); ("isEnabled", VBool true); ("opacity", VNum 1)] None.

Definition memberB : Catalog.member :=
  Catalog.Member "A/B" [("name", VStr "B"); ("isOpen", VBool false)]
    (Some [memberC; memberE]).

Definition memberA : Catalog.member :=
  Catalog.Member "A" [("name", VStr "A"); ("isOpen", VBool true)] (Some [memberB]).

Definition myCsv : Catalog.member :=
  Catalog.Member "My CSV"
    [("name", VStr "My CSV"); ("isUserSupplied", VBool true); ("isEnabled", VBool true)]
    None.

Definition localFile : Catalog.member :=
  Catalog.Member "upload.csv"
    [("name", VStr "upload.csv"); ("isUserSupplied", VBool true);
     ("data", VStr "x,y")]
    None.

Definition layerOfService : Catalog.member :=
  Catalog.Member "W/roads"
    [("name", VStr "roads"); ("isUserSupplied", VBool true);
     ("url", VStr "https://data.example/roads.geojson")]
    None.

Definition wmsGroup : Catalog.member :=
  Catalog.Member "W"
    [("name", VStr "W"); ("isUserSupplied", VBool true); ("isOpen", VBool true);
     ("url", VStr "https://wms.example/ows")]
    (Some [layerOfService]).

Definition rootGroup : Catalog.member :=
  Catalog.Member "Root Group" [("name", VStr "Root Group")]
    (Some [memberA; myCsv; localFile; wmsGroup]).

Definition origin : BuildShareLink.cartesian3 (Cesium := cesium) := (0, 0, 0)%Z.

Definition raster : BuildShareLink.feature :=
  {| BuildShareLink.feat_name := VStr "pixel";
     BuildShareLink.imageryLayer := VObj [("alpha", VNum 1)];
     BuildShareLink.feat_properties := [] |}.

Definition vector : BuildShareLink.feature :=
  {| BuildShareLink.feat_name := VStr "parcel 12";
     BuildShareLink.imageryLayer := VUndefined;
     BuildShareLink.feat_properties := [("owner", VStr "crown")] |}.

Definition extent : BuildShareLink.rectangle Z :=
  {| BuildShareLink.west := 1; BuildShareLink.south := 2;
     BuildShareLink.east := 3; BuildShareLink.north := 4 |}%Z.

Definition home : BuildShareLink.homeView (C := cesium) :=
  BuildShareLink.HomeView (C := cesium) extent VUndefined VUndefined VUndefined.

Definition noon : BuildShareLink.clock (C := cesium) :=
  BuildShareLink.Clock (BuildShareLink.JulianDate (C := cesium) 2458000%Z 43200%Z).

Definition picked : BuildShareLink.pickedFeatures (C := cesium) :=
  BuildShareLink.PickedFeatures (C := cesium) VUndefined origin [raster; vector; raster].

(** A Terria instance without short-link services, by its user
    properties. *)
Definition terria (userProps : obj string) : BuildShareLink.terria (C := cesium) :=
  BuildShareLink.Terria (C := cesium)
    [BuildShareLink.Existing (C := cesium) (VStr "init/terria.json")]
    rootGroup userProps None None
    extent None home noon BuildShareLink.Leaflet
    (VStr "Positron") (VBool false) (VNum 0)
    (Some picked) None None.

(** Short-link collaborators: a share-data service that is out of
    service and a url shortener that answers with one token. *)
Definition serviceDown : BuildShareLink.shareDataService (C := cesium) :=
  BuildShareLink.ShareDataService (C := cesium) false
    (fun _ => Rejected (HostError "503 Service Unavailable")).

Definition shortener : BuildShareLink.urlShortener :=
  {| BuildShareLink.us_isUsable := true;
     BuildShareLink.shorten := fun _ => Fulfilled "q7x" |}.

(** The Terria instance above, with the short-link collaborators given. *)
Definition terriaWith
    (service : option (BuildShareLink.shareDataService (C := cesium)))
    (short : option BuildShareLink.urlShortener)
    : BuildShareLink.terria (C := cesium) :=
  BuildShareLink.Terria (C := cesium)
    [BuildShareLink.Existing (C := cesium) (VStr "init/terria.json")]
    rootGroup [] short service
    extent None home noon BuildShareLink.Leaflet
    (VStr "Positron") (VBool false) (VNum 0)
    (Some picked) None None.

(** A feedback server, by the way it answers; a JSON parser that knows
    the text null. *)
Definition network (answer : promise value) : Feedback.Network :=
  {| Feedback.loadWithXhr := fun _ => answer;
     Feedback.parse :=
       fun text => if String.eqb text "null" then Normal VNull
                   else Throw (HostError "SyntaxError") |}.

Definition feedbackOf (t : BuildShareLink.terria (C := cesium)) (share : value)
    : Feedback.options (C := cesium) :=
  Feedback.Options (C := cesium)
    (Some (Feedback.FeedbackTerria (C := cesium) t
             (VStr "https://feedback.example/submit")))
    (VStr "Map") (VStr "Ada") (VStr "ada@example.org") (VStr "The tiles load slowly")
    share.

Definition quiet : Feedback.world := {| Feedback.raised := []; Feedback.posted := [] |}.

(** A table of three columns, whose arrays of points are stood for by
    the number of their y column. *)
Definition dateColumn : Chart.column :=
  {| Chart.ref := 0; Chart.col_name := VStr "date"; Chart.col_units := VUndefined;
     Chart.isScalar := false |}.

Definition rainColumn : Chart.column :=
  {| Chart.ref := 1; Chart.col_name := VStr "rain"; Chart.col_units := VStr "mm";
     Chart.isScalar := true |}.

Definition flowColumn : Chart.column :=
  {| Chart.ref := 2; Chart.col_name := VStr "flow"; Chart.col_units := VStr "m3/s";
     Chart.isScalar := true |}.

Definition rainfall : Chart.tableStructure nat :=
  {| Chart.columns := [dateColumn; rainColumn; flowColumn];
     Chart.getColumnWithNameIdOrIndex :=
       fun v => match v with
                | VNum z => nth_error [dateColumn; rainColumn; flowColumn] (Z.to_nat z)
                | _ => None
                end;
     Chart.toPointArrays :=
       fun _ ys => map (fun y => match y with
                                 | Some c => Chart.ref c
                                 | None => 0
                                 end) ys |}.

Definition chartHost : Chart.Host nat :=
  {| Chart.loadText := fun _ => Rejected (HostError "404 Not Found");
     Chart.proxyCatalogItemUrl := fun _ u _ => toStr u;
     Chart.loadFromCsv := fun _ => Normal rainfall |}.

(** The props of a chart, by its styling, data, y columns and table. *)
Definition chartProps (styling : value) (data : option (list (Chart.chartData nat)))
    (yColumns : option (list value)) (table : option (Chart.tableStructure nat))
    : Chart.props nat :=
  {| Chart.domain := VUndefined; Chart.styling := styling; Chart.height := None;
     Chart.axisLabel := VUndefined; Chart.p_catalogItem := None;
     Chart.transitionDuration := VUndefined; Chart.highlightX := VUndefined;
     Chart.updateCounter := Some 1%Z; Chart.data := data; Chart.url := VUndefined;
     Chart.xColumn := VUndefined; Chart.yColumns := yColumns;
     Chart.colors := Some [VStr "red"; VStr "blue"];
     Chart.pollUrl := VUndefined; Chart.p_tableStructure := table |}.

Definition rainSeries : Chart.chartData nat :=
  {| Chart.cd_points := 1; Chart.cd_id := 0; Chart.cd_name := VStr "rain";
     Chart.cd_units := VStr "mm"; Chart.cd_color := VStr "red" |}.

Definition emptyPage : Chart.page nat :=
  {| Chart.listeners := []; Chart.closures := 0; Chart.calls := [] |}.

Definition newChart : Chart.component :=
  {| Chart._tooltipId := None; Chart._element := true; Chart._promise := None |}.

(** A 3D Tiles item and a scene that holds one primitive of another
    item. *)
Definition buildings : Tiles.item :=
  {| Tiles.name := VStr "Buildings"; Tiles.url := VStr "https://tiles.example/tileset.json";
     Tiles.isShown := VBool true; Tiles.options := Some [("show", VBool false)];
     Tiles.ionAssetId := VUndefined; Tiles.ionAccessToken := VUndefined;
     Tiles.ionServer := VUndefined; Tiles.cesiumIonAccessToken := VStr "token";
     Tiles._tileset := None |}.

Definition otherTileset : Tiles.tileset :=
  {| Tiles.show := VBool true; Tiles.ts_url := Tiles.Url "https://tiles.example/terrain.json";
     Tiles.ts_options := []; Tiles.destroyed := false |}.

Definition scene : Tiles.scene :=
  {| Tiles.tilesets := [otherTileset]; Tiles.primitives := [0] |}.

(** A side panel world with one subscription of another component. *)
Definition sidePanelWorld : SidePanel.world :=
  {| SidePanel.subscriptions := [0]; SidePanel.made := 1;
     SidePanel.locationSearchText := "Sydney";
     SidePanel.showLocationSearchResults := true;
     SidePanel.nowViewingItems := Some 2; SidePanel.marker := true |}.

(** An explorer window that is drawn and at rest. *)
Definition windowAtRest : ExplorerWindow.window :=
  {| ExplorerWindow.visible := Some true; ExplorerWindow.slidIn := Some true;
     ExplorerWindow.explorerPanelAnimating := false;
     ExplorerWindow.now := 1000%N; ExplorerWindow.timers := [] |}.

End Sample.

(* ================================================================== *)
(** * Part II. Properties                                              *)
(* ================================================================== *)

(** ** Strings *)

Section StringFacts.
Import Props.


Lemma append_empty_r (a : string) : (a ++ "")%string = a.
Proof. induction a as [|x a IH]; simpl; [reflexivity | now rewrite IH]. Qed.

Lemma append_inv_head (a b c : string) : (a ++ b = a ++ c)%string -> b = c.
Proof. induction a as [|x a IH]; simpl; intros E; [exact E | injection E; auto]. Qed.


Lemma foldCase_length (a : string) : String.length (foldCase a) = String.length a.
Proof. induction a as [|x a IH]; simpl; [reflexivity | now rewrite IH]. Qed.

Lemma length_app_s (a b : string) :
  String.length (a ++ b) = String.length a + String.length b.
Proof. induction a as [|x a IH]; simpl; [reflexivity | now rewrite IH]. Qed.

(** [prefixCI] finds exactly a case-folded copy of the literal. *)
Lemma prefixCI_spec (lit s rest : string) :
  Re.prefixCI lit s = Some rest <->
  exists m, s = (m ++ rest)%string /\ foldCase m = foldCase lit.
Proof.
  revert s; induction lit as [|p lit IH]; intros s; simpl.
  - split.
    + intros E; injection E as ->. now exists EmptyString.
    + intros (m & -> & Hm). destruct m; [reflexivity | discriminate].
  - destruct s as [|c s].
    + split; [discriminate |].
      intros (m & E & Hm). destruct m; simpl in *; discriminate.
    + unfold Re.eqCI. destruct (Ascii.eqb_spec (Re.lower p) (Re.lower c)) as [Hpc | Hpc].
      * rewrite IH. split.
        -- intros (m & -> & Hm). exists (String c m). simpl. now rewrite Hm, Hpc.
        -- intros (m & E & Hm). destruct m as [|c' m]; simpl in *; [discriminate |].
           injection E as -> ->. injection Hm as _ Hm. now exists m.
      * split; [discriminate |].
        intros (m & E & Hm). destruct m as [|c' m]; simpl in *; [discriminate |].
        injection E as -> ->. injection Hm as Hc _. congruence.
Qed.



End StringFacts.

(** ** ArcGisCatalogGroup: the choice of a loader *)

Section Dispatch.
Import Js Props.
Context {H : ArcGis.Host}.






End Dispatch.

(** ** ArcGisCatalogGroup: naming the children *)

Section ChildNames.
Import Js Props.
Context {H : ArcGis.Host}.

Lemma prefix_spec (p s : string) :
  String.prefix p s = true <-> exists tail, s = (p ++ tail)%string.
Proof.
  revert s; induction p as [|x p IH]; intros s.
  - split; [intros _; now exists s | intros _; now destruct s].
  - destruct s as [|y s]; simpl.
    + split; [discriminate | intros (t & E); discriminate].
    + destruct (Ascii.ascii_dec x y) as [-> | N].
      * rewrite IH. split; intros (t & E); exists t; [now rewrite E | now injection E].
      * split; [discriminate | intros (t & E); injection E as E1 E2; congruence].
Qed.

(** [name.indexOf(basePath) === 0] says that the name begins with the
    base path. *)
Lemma indexOf_zero_prefix (p s : string) :
  String.index 0 p s = Some 0 <-> String.prefix p s = true.
Proof.
  destruct s as [|y s].
  - destruct p; simpl; split; congruence.
  - cbn [String.index]. destruct (String.prefix p (String y s)).
    + tauto.
    + destruct (String.index 0 p s); split; discriminate.
Qed.

Lemma substringFrom_app (p tail : string) (k : nat) :
  ArcGis.substringFrom (String.length p + k) (p ++ tail) = ArcGis.substringFrom k tail.
Proof. induction p as [|x p IH]; simpl; [reflexivity | exact IH]. Qed.

(** [removePathFromName] on an identifier that begins with a non-empty
    base path: the base path goes, and the character after it. *)
Lemma removePathFromName_strips (basePath tail : string) :
  basePath <> "" ->
  ArcGis.removePathFromName basePath (basePath ++ tail) = ArcGis.substringFrom 1 tail.
Proof.
  intros Hne. unfold ArcGis.removePathFromName.
  destruct basePath as [|c b]; [contradiction |].
  cbn [truthy String.eqb negb andb].
  assert (String.index 0 (String c b) (String c b ++ tail) = Some 0) as ->.
  { apply indexOf_zero_prefix, prefix_spec. now exists tail. }
  apply substringFrom_app.
Qed.

Lemma removePathFromName_keeps (basePath identifier : string) :
  basePath = "" \/ String.prefix basePath identifier = false ->
  ArcGis.removePathFromName basePath identifier = identifier.
Proof.
  intros [-> | Hp]; [reflexivity |]. unfold ArcGis.removePathFromName.
  destruct (negb (truthy (VStr basePath)) && (String.length basePath =? 0)%nat);
    [reflexivity |].
  destruct (String.index 0 basePath identifier) as [[|n]|] eqn:E; try reflexivity.
  apply indexOf_zero_prefix in E. congruence.
Qed.

Lemma assign_name_other (k : string) (v : value) (g : ArcGis.group) :
  k <> "name" -> ArcGis.name (ArcGis.assign k v g) = ArcGis.name g.
Proof.
  intros Hk. unfold ArcGis.assign.
  destruct (String.eqb_spec k "name"); [contradiction |].
  repeat match goal with |- context [if ?b then _ else _] => destruct b end;
    reflexivity.
Qed.

Lemma assignAll_name (l : obj value) (g : ArcGis.group) :
  ~ In "name" (keys l) ->
  ArcGis.name (fold_left (fun g kv => ArcGis.assign (fst kv) (snd kv) g) l g)
  = ArcGis.name g.
Proof.
  revert g; induction l as [|[k v] l IH]; intros g Hn; simpl in *; [reflexivity |].
  rewrite IH by tauto. apply assign_name_other. intros ->. tauto.
Qed.

Lemma indexOf_serverType (s : ArcGis.service) :
  ArcGis.indexOf (ArcGis.svc_type s) ArcGis.validServerTypes = None
  <-> serverType s = false.
Proof.
  unfold serverType, ArcGis.validServerTypes.
  destruct (ArcGis.svc_type s) as [ | | b | z | t | f];
    cbn [ArcGis.indexOf ArcGis.strictEqStr]; try (split; reflexivity).
  rewrite (String.eqb_sym "MapServer" t), (String.eqb_sym "FeatureServer" t).
  destruct (String.eqb t "MapServer"), (String.eqb t "FeatureServer");
    cbn [orb]; split; congruence.
Qed.

Lemma execLitDotStar_eq (lit s : string) :
  Re.execLitDotStar lit s
  = match Re.prefixCI lit s with
    | Some rest => Some (Re.dotStar rest)
    | None =>
        match s with
        | EmptyString => None
        | String _ s' => Re.execLitDotStar lit s'
        end
    end.
Proof. destruct s; reflexivity. Qed.

(** The capture of [getBasePath]: what follows the first rest/services/ of
    the url, up to the end of the line. *)
Lemma execLitDotStar_first (lit pre m rest : string) :
  foldCase m = foldCase lit ->
  firstAt lit pre (m ++ rest) ->
  Re.execLitDotStar lit (pre ++ m ++ rest) = Some (Re.dotStar rest).
Proof.
  intros Hm. induction pre as [|c pre IH]; intros Hf.
  - rewrite execLitDotStar_eq. cbn [append].
    assert (Re.prefixCI lit (m ++ rest) = Some rest) as ->; [| reflexivity].
    apply prefixCI_spec. exists m. auto.
  - rewrite execLitDotStar_eq. cbn [append].
    assert (Re.prefixCI lit (String c (pre ++ m ++ rest)) = None) as ->.
    { apply (Hf EmptyString (String c pre)); [reflexivity | discriminate]. }
    apply IH. intros a b -> Hb. apply (Hf (String c a) b); [reflexivity | exact Hb].
Qed.

Lemma assignAll_name_set (l : obj value) (g : ArcGis.group) (v : value) :
  NoDup (keys l) -> In ("name", v) l ->
  ArcGis.name (fold_left (fun g kv => ArcGis.assign (fst kv) (snd kv) g) l g) = v.
Proof.
  revert g; induction l as [|[k w] l IH]; intros g Hn Hin; [contradiction |].
  cbn [fold_left fst snd]. unfold keys in Hn. cbn [map fst] in Hn.
  apply NoDup_cons_iff in Hn as [Hk Hn].
  destruct Hin as [E | Hin].
  - injection E as -> ->. rewrite assignAll_name by exact Hk.
    unfold ArcGis.assign. cbn. reflexivity.
  - apply IH; [exact Hn | exact Hin].
Qed.

Lemma replaceUnderscores_cons (c : ascii) (s : string) :
  ArcGis.replaceUnderscores (String c s)
  = String (if Ascii.eqb c "_"%char then " "%char else c) (ArcGis.replaceUnderscores s).
Proof. reflexivity. Qed.

Lemma replaceUnderscores_length (s : string) :
  String.length (ArcGis.replaceUnderscores s) = String.length s.
Proof.
  induction s as [|c s IH]; [reflexivity |].
  rewrite replaceUnderscores_cons. cbn [String.length]. now rewrite IH.
Qed.

(** Where the code and the rule give the same local name. *)
Lemma removePathFromName_as_specified (basePath identifier : string) :
  basePath = ""
  \/ String.prefix basePath identifier = false
  \/ identifier = basePath
  \/ (exists rest, identifier = (basePath ++ "/" ++ rest)%string) ->
  ArcGis.replaceUnderscores (ArcGis.removePathFromName basePath identifier)
  = specChildName basePath identifier.
Proof.
  unfold specChildName. destruct (String.eqb_spec basePath "") as [-> | Hne].
  - intros _. now rewrite andb_false_r.
  - rewrite andb_true_r. intros [E | [Hp | [-> | (rest & ->)]]]; [contradiction | | |].
    + rewrite Hp. now rewrite removePathFromName_keeps by now right.
    + assert (String.prefix basePath basePath = true) as ->.
      { apply prefix_spec. exists "". now rewrite append_empty_r. }
      rewrite <- (append_empty_r basePath) at 2 4.
      rewrite removePathFromName_strips by exact Hne.
      rewrite <- (Nat.add_0_r (String.length basePath)), substringFrom_app. reflexivity.
    + assert (String.prefix basePath (basePath ++ "/" ++ rest) = true) as ->.
      { apply prefix_spec. now exists ("/" ++ rest)%string. }
      rewrite removePathFromName_strips by exact Hne.
      rewrite <- (Nat.add_0_r (String.length basePath)), substringFrom_app. reflexivity.
Qed.

(** C8, as the code has it.  The name a child is given when it is made
    from a folder or service identifier is what [removePathFromName]
    leaves of the identifier, with underscores replaced by spaces, unless
    the parent's itemProperties carry a name, which then replaces it.
    That is the name the rule gives (the identifier without the base path
    and the separator after it, or the whole identifier when it does not
    begin with the base path) when the base path is empty, when the
    identifier does not begin with it, is equal to it, or goes on with a
    slash after it.  When the identifier begins with a base path that is
    not empty and goes on with another character, [removePathFromName]
    drops that character too, and the name is not the one the rule
    gives.  The base path is what follows the first rest/services/ of the
    parent's url, up to the end of the line. *)
Theorem C8_child_name (parent : ArcGis.group) (identifier : string) :
  (~ In "name" (keys (ArcGis.ownProperties (ArcGis.itemProperties parent))) ->
   ArcGis.name (snd (ArcGis.createGroup parent (ArcGis.getBasePath parent) identifier))
   = VStr (ArcGis.replaceUnderscores
             (ArcGis.removePathFromName (ArcGis.getBasePath parent) identifier))
   /\ (forall s, ArcGis.svc_name s = identifier -> serverType s = true ->
       exists child,
         snd (ArcGis.createMapOrFeatureServer parent (ArcGis.getBasePath parent) s)
         = Some child
         /\ ArcGis.name child
            = VStr (ArcGis.replaceUnderscores
                      (ArcGis.removePathFromName (ArcGis.getBasePath parent)
                         identifier))))
  /\ (forall fields v s,
      ArcGis.itemProperties parent = VObj fields ->
      NoDup (keys fields) -> In ("name", v) fields ->
      ArcGis.svc_name s = identifier -> serverType s = true ->
      ArcGis.name (snd (ArcGis.createGroup parent (ArcGis.getBasePath parent) identifier))
      = v
      /\ exists child,
           snd (ArcGis.createMapOrFeatureServer parent (ArcGis.getBasePath parent) s)
           = Some child
           /\ ArcGis.name child = v)
  /\ (ArcGis.getBasePath parent = ""
      \/ String.prefix (ArcGis.getBasePath parent) identifier = false
      \/ identifier = ArcGis.getBasePath parent
      \/ (exists rest, identifier = (ArcGis.getBasePath parent ++ "/" ++ rest)%string) ->
      ArcGis.replaceUnderscores
        (ArcGis.removePathFromName (ArcGis.getBasePath parent) identifier)
      = specChildName (ArcGis.getBasePath parent) identifier)
  /\ (forall c rest,
      ArcGis.getBasePath parent <> "" -> c <> "/"%char ->
      identifier = (ArcGis.getBasePath parent ++ String c rest)%string ->
      ArcGis.removePathFromName (ArcGis.getBasePath parent) identifier = rest
      /\ specChildName (ArcGis.getBasePath parent) identifier
         = ArcGis.replaceUnderscores (String c rest)
      /\ ArcGis.replaceUnderscores
           (ArcGis.removePathFromName (ArcGis.getBasePath parent) identifier)
         <> specChildName (ArcGis.getBasePath parent) identifier)
  /\ (forall pre m rest,
      ArcGis.url parent = (pre ++ m ++ rest)%string ->
      foldCase m = "rest/services/" ->
      firstAt "rest/services/" pre (m ++ rest) ->
      ArcGis.getBasePath parent = Re.dotStar rest).
Proof.
  split; [| split; [| split; [| split]]].
  - intros Hn. split.
    + unfold ArcGis.createGroup. cbn [snd].
      destruct (defined (ArcGis.itemProperties parent)); [| reflexivity].
      unfold ArcGis.updateFromJson. now rewrite assignAll_name.
    + intros s Hs Ht. unfold ArcGis.createMapOrFeatureServer.
      destruct (ArcGis.indexOf (ArcGis.svc_type s) ArcGis.validServerTypes) eqn:E.
      * eexists. split; [reflexivity |]. rewrite Hs.
        destruct (defined (ArcGis.itemProperties parent)); [| reflexivity].
        now rewrite assignAll_name.
      * apply indexOf_serverType in E. congruence.
  - intros fields v s Hf Hn Hin Hs Ht. split.
    + unfold ArcGis.createGroup. cbn [snd]. rewrite Hf. cbn [defined].
      unfold ArcGis.updateFromJson. cbn [ArcGis.ownProperties].
      now apply assignAll_name_set.
    + unfold ArcGis.createMapOrFeatureServer.
      destruct (ArcGis.indexOf (ArcGis.svc_type s) ArcGis.validServerTypes) eqn:E.
      * eexists. split; [reflexivity |]. rewrite Hf. cbn [defined ArcGis.ownProperties].
        now apply assignAll_name_set.
      * apply indexOf_serverType in E. congruence.
  - apply removePathFromName_as_specified.
  - intros c rest Hb Hc ->.
    assert (ArcGis.removePathFromName (ArcGis.getBasePath parent)
              (ArcGis.getBasePath parent ++ String c rest) = rest) as Er.
    { now rewrite removePathFromName_strips by exact Hb. }
    assert (specChildName (ArcGis.getBasePath parent)
              (ArcGis.getBasePath parent ++ String c rest)
            = ArcGis.replaceUnderscores (String c rest)) as Es.
    { unfold specChildName.
      assert (String.prefix (ArcGis.getBasePath parent)
                (ArcGis.getBasePath parent ++ String c rest) = true) as ->.
      { apply prefix_spec. now exists (String c rest). }
      destruct (String.eqb_spec (ArcGis.getBasePath parent) ""); [contradiction |].
      cbn [andb negb].
      rewrite <- (Nat.add_0_r (String.length (ArcGis.getBasePath parent))), substringFrom_app.
      cbn [ArcGis.substringFrom withoutSeparator].
      destruct c as [[] [] [] [] [] [] [] []]; try reflexivity. now elim Hc. }
    split; [exact Er |]. split; [exact Es |].
    rewrite Er, Es. intros E. apply (f_equal String.length) in E.
    rewrite !replaceUnderscores_length in E. cbn [String.length] in E. lia.
  - intros pre m rest Hu Hm Hf. unfold ArcGis.getBasePath. rewrite Hu.
    now rewrite (@execLitDotStar_first "rest/services/" pre m rest Hm Hf).
Qed.

End ChildNames.

(** ** ArcGisCatalogGroup: loading a REST listing *)

Section LoadRest.
Import Js Props.
Context {H : ArcGis.Host}.

Lemma sameSettings_add (g g' c : ArcGis.group) :
  sameSettings g g' -> sameSettings g (ArcGis.add c g').
Proof. unfold sameSettings. simpl. tauto. Qed.

Lemma createGroup_child (g g' : ArcGis.group) (b f : string) :
  sameSettings g g' ->
  ArcGis.createGroup g' b f = (ArcGis.add (snd (ArcGis.createGroup g b f)) g',
                               snd (ArcGis.createGroup g b f)).
Proof.
  intros (Eu & Ed & Eb & Ei). unfold ArcGis.createGroup. cbn [snd].
  now rewrite Eu, Ed, Eb, Ei.
Qed.

Lemma createService_child (g g' : ArcGis.group) (b : string) (s : ArcGis.service) :
  sameSettings g g' ->
  ArcGis.createMapOrFeatureServer g' b s
  = match snd (ArcGis.createMapOrFeatureServer g b s) with
    | Some child => (ArcGis.add child g', Some child)
    | None => (g', None)
    end.
Proof.
  intros (Eu & Ed & Eb & Ei). unfold ArcGis.createMapOrFeatureServer.
  destruct (ArcGis.indexOf (ArcGis.svc_type s) ArcGis.validServerTypes);
    [| reflexivity].
  cbn [snd]. now rewrite Eu, Ed, Eb, Ei.
Qed.

Lemma folders_loop (g : ArcGis.group) (b : string) (l : list string) :
  forall g', sameSettings g g' ->
    let r := fold_left (fun g f => fst (ArcGis.createGroup g b f)) l g' in
    sameSettings g r
    /\ ArcGis.items r
       = ArcGis.items g' ++ map (fun f => snd (ArcGis.createGroup g b f)) l.
Proof.
  induction l as [|f l IH]; intros g' Hs; cbn [fold_left map].
  - split; [exact Hs | now rewrite app_nil_r].
  - rewrite (createGroup_child b f Hs). cbn [fst].
    destruct (IH _ (sameSettings_add (snd (ArcGis.createGroup g b f)) Hs)) as [Hs' Hi].
    split; [exact Hs' |]. rewrite Hi. cbn [ArcGis.add ArcGis.items].
    now rewrite <- app_assoc.
Qed.

Lemma services_loop (g : ArcGis.group) (b : string) (l : list ArcGis.service) :
  forall g', sameSettings g g' ->
    let r := fold_left (fun g s => fst (ArcGis.createMapOrFeatureServer g b s)) l g' in
    sameSettings g r
    /\ ArcGis.items r
       = ArcGis.items g'
         ++ flat_map (fun s => match snd (ArcGis.createMapOrFeatureServer g b s) with
                               | Some child => [child]
                               | None => []
                               end) l.
Proof.
  induction l as [|s l IH]; intros g' Hs; cbn [fold_left flat_map].
  - split; [exact Hs | now rewrite app_nil_r].
  - rewrite (createService_child b s Hs).
    destruct (snd (ArcGis.createMapOrFeatureServer g b s)) as [child|]; cbn [fst].
    + destruct (IH _ (sameSettings_add child Hs)) as [Hs' Hi].
      split; [exact Hs' |]. rewrite Hi. cbn [ArcGis.add ArcGis.items].
      now rewrite <- app_assoc.
    + destruct (IH _ Hs) as [Hs' Hi]. split; [exact Hs' | exact Hi].
Qed.

Lemma skipped_service (g : ArcGis.group) (b : string) (s : ArcGis.service) :
  serverType s = false -> ArcGis.createMapOrFeatureServer g b s = (g, None).
Proof.
  intros Ht. apply indexOf_serverType in Ht.
  unfold ArcGis.createMapOrFeatureServer. now rewrite Ht.
Qed.

Lemma made_service (g : ArcGis.group) (b : string) (s : ArcGis.service) :
  serverType s = true ->
  exists child, snd (ArcGis.createMapOrFeatureServer g b s) = Some child.
Proof.
  intros Ht. unfold ArcGis.createMapOrFeatureServer.
  destruct (ArcGis.indexOf (ArcGis.svc_type s) ArcGis.validServerTypes) eqn:E.
  - eexists. reflexivity.
  - apply indexOf_serverType in E. congruence.
Qed.

Lemma serviceChildren_all (g : ArcGis.group) (l : list ArcGis.service) :
  flat_map (fun s => match snd (ArcGis.createMapOrFeatureServer g (ArcGis.getBasePath g) s) with
                     | Some child => [child]
                     | None => []
                     end) l
  = serviceChildren g l.
Proof.
  unfold serviceChildren. induction l as [|s l IH]; simpl; [reflexivity |].
  destruct (serverType s) eqn:Ht; simpl.
  - now rewrite IH.
  - now rewrite (skipped_service g (ArcGis.getBasePath g) s Ht).
Qed.

Lemma serviceChildren_length (g : ArcGis.group) (l : list ArcGis.service) :
  length (serviceChildren g l) = length (filter serverType l).
Proof.
  unfold serviceChildren.
  assert (Forall (fun s => serverType s = true) (filter serverType l)) as Hall.
  { apply Forall_forall. intros s Hin. now apply filter_In in Hin. }
  induction Hall as [|s l' Ht _ IH]; [reflexivity |].
  cbn [flat_map].
  destruct (made_service g (ArcGis.getBasePath g) s Ht) as (child & ->).
  cbn [app length]. now rewrite IH.
Qed.

End LoadRest.

Section LoadRestOutcome.
Import Js Props.
Context {H : ArcGis.Host}.

Lemma sameSettings_refl (g : ArcGis.group) : sameSettings g g.
Proof. unfold sameSettings. tauto. Qed.

(** A listing with folders or services: the callback adds the children
    and returns. *)
Lemma restLoaded_valid (g : ArcGis.group) (json : ArcGis.serviceJson) :
  ArcGis.folders json <> None \/ ArcGis.services json <> None ->
  exists g',
    ArcGis.restLoaded (Some json) g = (g', Normal tt)
    /\ ArcGis.items g'
       = ArcGis.items g
         ++ folderChildren g (orEmpty (ArcGis.folders json))
         ++ serviceChildren g (orEmpty (ArcGis.services json)).
Proof.
  intros Hv. unfold ArcGis.restLoaded, folderChildren.
  destruct (ArcGis.folders json) as [fs|]; destruct (ArcGis.services json) as [ss|];
    cbn [orEmpty].
  - destruct (folders_loop (ArcGis.getBasePath g) fs (sameSettings_refl g)) as [Hs Hi].
    destruct (services_loop (ArcGis.getBasePath g) ss Hs) as [_ Hi'].
    eexists. split; [reflexivity |].
    cbv zeta in Hi, Hi'. rewrite Hi', Hi, serviceChildren_all. now rewrite <- app_assoc.
  - destruct (folders_loop (ArcGis.getBasePath g) fs (sameSettings_refl g)) as [Hs Hi].
    eexists. split; [reflexivity |].
    cbv zeta in Hi. rewrite Hi. unfold serviceChildren. cbn [filter flat_map].
    now rewrite app_nil_r.
  - destruct (services_loop (ArcGis.getBasePath g) ss (sameSettings_refl g)) as [_ Hi'].
    eexists. split; [reflexivity |].
    cbv zeta in Hi'. rewrite Hi', serviceChildren_all. reflexivity.
  - exfalso. destruct Hv as [Hv | Hv]; now apply Hv.
Qed.

Lemma restLoaded_invalid (r : option ArcGis.serviceJson) (g : ArcGis.group) :
  invalidResponse r ->
  ArcGis.restLoaded r g = (g, Throw ArcGis.invalidArcGisServer).
Proof.
  intros [-> | (json & -> & Hf & Hs)]; [reflexivity |].
  unfold ArcGis.restLoaded. now rewrite Hf, Hs.
Qed.

(** C10. A service of the listing whose type is neither MapServer nor
    FeatureServer is passed over: nothing is added for it and the load
    goes on.  After a listing with folders or services has been loaded, the
    promise is fulfilled and the group's items are the former items, then
    one child per folder, then one child per MapServer or FeatureServer
    service, each in the order of the listing. *)
Theorem C10_children_in_listing_order (g : ArcGis.group) (json : ArcGis.serviceJson) :
  ArcGis.folders json <> None \/ ArcGis.services json <> None ->
  ArcGis.loadJson (serviceUrl g) = Fulfilled (Some json) ->
  exists g',
    ArcGis.loadRest g = (g', Normal (Fulfilled tt))
    /\ ArcGis.items g'
       = ArcGis.items g
         ++ folderChildren g (orEmpty (ArcGis.folders json))
         ++ serviceChildren g (orEmpty (ArcGis.services json))
    /\ length (folderChildren g (orEmpty (ArcGis.folders json)))
       = length (orEmpty (ArcGis.folders json))
    /\ length (serviceChildren g (orEmpty (ArcGis.services json)))
       = length (filter serverType (orEmpty (ArcGis.services json)))
    /\ (forall s, serverType s = false ->
        ArcGis.createMapOrFeatureServer g (ArcGis.getBasePath g) s = (g, None)).
Proof.
  intros Hv Hl. destruct (@restLoaded_valid g json Hv) as (g' & Er & Hi).
  exists g'. repeat split.
  - unfold ArcGis.loadRest. fold (serviceUrl g). rewrite Hl.
    cbn [thenS]. rewrite Er. reflexivity.
  - exact Hi.
  - unfold folderChildren. apply length_map.
  - apply serviceChildren_length.
  - intros s. apply skipped_service.
Qed.

(** C6. [loadRest] returns a promise and never throws.  When the request
    fails, and when the answer has neither folders nor services (or is
    falsy), the promise is rejected with a TerriaError; in the second case
    the callback threw the "Invalid ArcGIS Server" TerriaError before it
    made any child, so the group is as it was. *)
Theorem C6_load_errors_are_deferred (g : ArcGis.group) :
  (exists p, snd (ArcGis.loadRest g) = Normal p)
  /\ (forall e, ArcGis.loadJson (serviceUrl g) = Rejected e ->
      ArcGis.loadRest g
      = (g, Normal (Rejected (TerriaError "Group is not available"
                                (Some (ArcGis.url g))))))
  /\ (forall r, ArcGis.loadJson (serviceUrl g) = Fulfilled r -> invalidResponse r ->
      thenS (ArcGis.loadJson (serviceUrl g)) ArcGis.restLoaded g
      = (g, Rejected (TerriaError "Invalid ArcGIS Server" None))
      /\ ArcGis.loadRest g
         = (g, Normal (Rejected (TerriaError "Group is not available"
                                   (Some (ArcGis.url g)))))).
Proof.
  unfold ArcGis.loadRest. fold (serviceUrl g). split; [| split].
  - destruct (thenS (ArcGis.loadJson (serviceUrl g)) ArcGis.restLoaded g).
    eexists. reflexivity.
  - intros e ->. reflexivity.
  - intros r Hload Hinvalid. rewrite Hload. cbn [thenS].
    rewrite (restLoaded_invalid g Hinvalid). split; reflexivity.
Qed.

End LoadRestOutcome.

(** *** The ArcGIS properties on the sample server *)

Section ArcGisSamples.
Import Js Props.

Lemma C6_witness :
  ArcGis.loadRest (H := Sample.arcGisHost (Rejected (HostError "network")))
    Sample.directory
  = (Sample.directory,
     Normal (Rejected (TerriaError "Group is not available"
                         (Some "https://sampleserver.example/arcgis/rest/services"))))
  /\ ArcGis.loadRest
       (H := Sample.arcGisHost
               (Fulfilled (Some {| ArcGis.folders := None; ArcGis.services := None |})))
       Sample.directory
     = (Sample.directory,
        Normal (Rejected (TerriaError "Group is not available"
                            (Some "https://sampleserver.example/arcgis/rest/services")))).
Proof.
  split.
  - apply (proj1 (proj2 (@C6_load_errors_are_deferred
                           (Sample.arcGisHost (Rejected (HostError "network")))
                           Sample.directory)) (HostError "network")).
    reflexivity.
  - apply (proj2 (proj2 (@C6_load_errors_are_deferred
                           (Sample.arcGisHost
                              (Fulfilled (Some {| ArcGis.folders := None;
                                                  ArcGis.services := None |})))
                           Sample.directory))
             (Some {| ArcGis.folders := None; ArcGis.services := None |})).
    + reflexivity.
    + right. eexists. repeat split.
Defined.

(** A folder whose url ends with a slash has the base path Utilities/:
    the service Utilities/Geocoding_Tools is named eocoding Tools.  With
    the base path Utilities, a folder UtilitiesNorth is named orth. *)
Lemma C8_failing_input :
  ArcGis.getBasePath Sample.utilitiesWithSlash = "Utilities/"
  /\ ArcGis.name
       (snd (ArcGis.createGroup (H := Sample.arcGisHost (Rejected (HostError "unused")))
               Sample.utilitiesWithSlash (ArcGis.getBasePath Sample.utilitiesWithSlash)
               "Utilities/Geocoding_Tools"))
     = VStr "eocoding Tools"
  /\ specChildName (ArcGis.getBasePath Sample.utilitiesWithSlash)
       "Utilities/Geocoding_Tools"
     = "Geocoding Tools"
  /\ ArcGis.name
       (snd (ArcGis.createGroup (H := Sample.arcGisHost (Rejected (HostError "unused")))
               Sample.utilities (ArcGis.getBasePath Sample.utilities)
               "UtilitiesNorth"))
     = VStr "orth"
  /\ specChildName (ArcGis.getBasePath Sample.utilities) "UtilitiesNorth" = "North".
Proof.
  destruct (@C8_child_name (Sample.arcGisHost (Rejected (HostError "unused")))
              Sample.utilitiesWithSlash "Utilities/Geocoding_Tools")
    as (Hname & _ & _ & Hdiv & _).
  destruct (Hname ltac:(simpl; tauto)) as [Eg _].
  destruct (Hdiv "G"%char "eocoding_Tools" ltac:(discriminate) ltac:(discriminate) eq_refl)
    as (Er & Es & _).
  destruct (@C8_child_name (Sample.arcGisHost (Rejected (HostError "unused")))
              Sample.utilities "UtilitiesNorth")
    as (Hname' & _ & _ & Hdiv' & _).
  destruct (Hname' ltac:(simpl; tauto)) as [Eg' _].
  destruct (Hdiv' "N"%char "orth" ltac:(discriminate) ltac:(discriminate) eq_refl)
    as (Er' & Es' & _).
  split; [reflexivity |].
  split; [rewrite Eg, Er; reflexivity |].
  split; [rewrite Es; reflexivity |].
  split; [rewrite Eg', Er'; reflexivity | rewrite Es'; reflexivity].
Defined.

Lemma C10_witness :
  (ArcGis.folders Sample.listing <> None \/ ArcGis.services Sample.listing <> None)
  /\ map ArcGis.name
       (ArcGis.items
          (fst (ArcGis.loadRest (H := Sample.arcGisHost (Fulfilled (Some Sample.listing)))
                  Sample.directory)))
     = [VStr "Utilities"; VStr "Base Maps"; VStr "Sample World Cities"; VStr "Wild Fire"].
Proof.
  assert (ArcGis.folders Sample.listing <> None
          \/ ArcGis.services Sample.listing <> None) as Hv.
  { left. discriminate. }
  split; [exact Hv |].
  destruct (@C10_children_in_listing_order
              (Sample.arcGisHost (Fulfilled (Some Sample.listing)))
              Sample.directory Sample.listing Hv eq_refl) as (g' & E & Hi & _).
  rewrite E. cbn [fst]. rewrite Hi. reflexivity.
Defined.

End ArcGisSamples.

(** ** BuildShareLink: picked features *)

Section FeaturePicking.
Import Js Props BuildShareLink.
Context {C : Cesium} {F : Catalog.MemberFilters} {H : Host}.

(** C9. When features are picked, the pickedFeatures fragment is pushed
    and its entities are, in order, the picked features without an imagery
    layer, each as its name and the hash [hashEntity] gives for the entity
    and the clock; a feature with an imagery layer contributes no entry. *)
Theorem C9_entities_are_the_vector_features
    (t : terria) (picked : pickedFeatures) (initSources : list initSource) :
  t_pickedFeatures t = Some picked ->
  features picked <> [] ->
  exists fragment,
    addFeaturePicking t initSources = initSources ++ [PickedFeaturesInit fragment]
    /\ pf_entities fragment
       = map (fun entity => {| e_name := feat_name entity;
                               e_hash := hashEntity entity (t_clock t) |})
             (vectorFeatures (features picked))
    /\ length (pf_entities fragment) = length (vectorFeatures (features picked))
    /\ (forall f, In f (vectorFeatures (features picked))
        <-> In f (features picked) /\ defined (imageryLayer f) = false).
Proof.
  intros Hp Hne. unfold addFeaturePicking. rewrite Hp.
  destruct (features picked) as [|f0 l] eqn:E; [contradiction |].
  cbn [length Nat.ltb Nat.leb]. eexists. split; [reflexivity |].
  cbn [pf_entities]. split; [reflexivity |]. split.
  { unfold vectorFeatures. now rewrite length_map. }
  intros f. unfold vectorFeatures. rewrite filter_In, negb_true_iff. reflexivity.
Qed.

End FeaturePicking.

(** ** BuildShareLink: the links *)

Section Links.
Import Js Props BuildShareLink.
Context {C : Cesium} {F : Catalog.MemberFilters} {H : Host}.

Lemma unique_two (a b : string) :
  Uri.unique [] [a; b] = a :: (if String.eqb b a then [] else [b]).
Proof. cbn [Uri.unique existsb]. rewrite orb_false_r. now destruct (String.eqb b a). Qed.

(** The query of [buildShareLink] before it becomes the fragment. *)
Lemma shareQuery_eq (t : terria) :
  shareQuery t
  = ("start", [stringify (getShareData t)])
      :: match get (userProperties t) "hideExplorerPanel",
               get (userProperties t) "activeTabId" with
         | None, None => []
         | Some a, None => [("key", [a])]
         | None, Some b => [("key", [b])]
         | Some a, Some b => [("key", [a; b])]
         end.
Proof.
  unfold shareQuery, userPropWhiteList. cbn [fold_left].
  destruct (get (userProperties t) "hideExplorerPanel") as [a|];
    destruct (get (userProperties t) "activeTabId") as [b|]; reflexivity.
Qed.

(** The full link, written out: the start parameter carries the encoded
    JSON of the share data; each whitelisted user property that is set
    follows as a parameter named key. *)
Lemma buildShareLink_eq (t : terria) :
  buildShareLink t
  = (Uri.base location ++ "#start=" ++ Uri.encodeQuery (stringify (getShareData t))
     ++ keyParameters (get (userProperties t) "hideExplorerPanel")
                      (get (userProperties t) "activeTabId"))%string.
Proof.
  unfold buildShareLink. rewrite shareQuery_eq. unfold keyParameters.
  set (j := Uri.encodeQuery (stringify (getShareData t))).
  destruct (get (userProperties t) "hideExplorerPanel") as [a|];
    destruct (get (userProperties t) "activeTabId") as [b|];
    unfold Uri.buildQuery; cbn [flat_map fst snd String.eqb app map];
    rewrite ?unique_two.
  all: try destruct (String.eqb b a); subst j; rewrite ?append_empty_r; reflexivity.
Qed.

Lemma full_link_is_no_token_link (t : terria) (token : string) :
  buildShareLink t <> urlFromToken token.
Proof.
  rewrite buildShareLink_eq. unfold urlFromToken, Uri.toString.
  cbn [Uri.path Uri.query Uri.fragment].
  intros E. apply append_inv_head in E.
  destruct (String.eqb (Uri.search location) ""); cbn in E; discriminate.
Qed.

Lemma canShorten_spec (t : terria) :
  canShorten t = true
  <-> (exists u, t_urlShortener t = Some u /\ us_isUsable u = true)
      \/ (exists s, t_shareDataService t = Some s /\ sds_isUsable s = true).
Proof.
  unfold canShorten. rewrite orb_true_iff. split.
  - intros [Hu | Hs].
    + left. destruct (t_urlShortener t) as [u|]; [now exists u | discriminate].
    + right. destruct (t_shareDataService t) as [s|]; [now exists s | discriminate].
  - intros [(u & -> & Hu) | (s & -> & Hs)]; [now left | now right].
Qed.

(** C5, as the code has it: in the full link every whitelisted user
    property that is set appears as a parameter named key, after the start
    parameter; no parameter bears the name hideExplorerPanel or
    activeTabId. *)
Theorem C5_whitelisted_properties_are_named_key (t : terria) :
  buildShareLink t
  = (Uri.base location ++ "#start=" ++ Uri.encodeQuery (stringify (getShareData t))
     ++ keyParameters (get (userProperties t) "hideExplorerPanel")
                      (get (userProperties t) "activeTabId"))%string
  /\ (forall token,
      t_shareDataService t = None ->
      forall shortener, t_urlShortener t = Some shortener ->
      shorten shortener (buildShareLink t) = Fulfilled token ->
      buildShortShareLink t
      = Normal (Fulfilled (Uri.base location
                           ++ (if String.eqb (Uri.search location) "" then ""
                               else "?" ++ Uri.search location)
                           ++ "#share=" ++ token)%string)).
Proof.
  split; [apply buildShareLink_eq |].
  intros token Hs shortener Hu Hr. unfold buildShortShareLink.
  rewrite Hs, Hu, Hr. reflexivity.
Qed.

End Links.

(** ** The share link in sendFeedback *)

Section FullLinkInFeedback.
Import Js Props BuildShareLink.
Context {C : Cesium} {F : Catalog.MemberFilters} {H : Host} {N : Feedback.Network}.

(** C2, as the code has it.  When no url shortener and no share-data
    service reports itself usable, the link [sendFeedback] chooses is the
    full link of [buildShareLink]: its fragment starts with start= and
    the encoded JSON of the share data, and it is no link of the token
    form.  The share path does not produce it, though: the full link is a
    string, [then] is called on it, and [sendFeedback] throws a TypeError
    before any request is made and before any error is raised.  The
    choice rests on [canShorten] alone: once [canShorten] holds the short
    link is asked for, and a shortener that fails leaves a rejected
    promise, not the full link; the feedback is then reported as not
    sent. *)
Theorem C2_full_link_when_shortening_is_unavailable
    (o : Feedback.options) (t : Feedback.feedbackTerria) (w : Feedback.world) :
  (canShorten (Feedback.instance t) = true
   <-> (exists u, t_urlShortener (Feedback.instance t) = Some u /\ us_isUsable u = true)
       \/ (exists s, t_shareDataService (Feedback.instance t) = Some s
                     /\ sds_isUsable s = true))
  /\ (canShorten (Feedback.instance t) = false ->
      shareLinkPromise true (Feedback.instance t)
      = Normal (PlainString (buildShareLink (Feedback.instance t)))
      /\ (exists parameters,
            buildShareLink (Feedback.instance t)
            = (Uri.base location ++ "#start="
               ++ Uri.encodeQuery (stringify (getShareData (Feedback.instance t)))
               ++ parameters)%string)
      /\ (forall token, buildShareLink (Feedback.instance t) <> urlFromToken token)
      /\ (Feedback.o_terria o = Some t ->
          defined (Feedback.feedbackUrl t) = true ->
          truthy (Feedback.sendShareURL o) = true ->
          exists what,
            Feedback.sendFeedback (Some o) w = (w, Throw (TypeError what))))
  /\ (canShorten (Feedback.instance t) = true ->
      shareLinkPromise true (Feedback.instance t)
      = match buildShortShareLink (Feedback.instance t) with
        | Normal p => Normal (Promised p)
        | Throw e => Throw e
        end)
  /\ (forall shortener e,
      t_shareDataService (Feedback.instance t) = None ->
      t_urlShortener (Feedback.instance t) = Some shortener ->
      us_isUsable shortener = true ->
      shorten shortener (buildShareLink (Feedback.instance t)) = Rejected e ->
      shareLinkPromise true (Feedback.instance t) = Normal (Promised (Rejected e))
      /\ (Feedback.o_terria o = Some t ->
          defined (Feedback.feedbackUrl t) = true ->
          truthy (Feedback.sendShareURL o) = true ->
          Feedback.sendFeedback (Some o) w
          = (Feedback.raiseError w, Normal (Some (Fulfilled false))))).
Proof.
  split; [apply canShorten_spec |]. split; [| split].
  - intros Hc. unfold shareLinkPromise. rewrite Hc. split; [reflexivity |].
    split; [eexists; apply buildShareLink_eq |].
    split; [apply full_link_is_no_token_link |].
    intros Ht Hu Hs. unfold Feedback.sendFeedback, shareLinkPromise.
    rewrite Ht, Hu, Hs, Hc. cbn [negb]. eauto.
  - intros Hc. unfold shareLinkPromise. now rewrite Hc.
  - intros shortener e Hs Hu Hus Hr.
    assert (shareLinkPromise true (Feedback.instance t) = Normal (Promised (Rejected e)))
      as Hp.
    { unfold shareLinkPromise, canShorten, buildShortShareLink.
      rewrite Hs, Hu, Hus. cbn [orb]. now rewrite Hr. }
    split; [exact Hp |].
    intros Ht Hf Hsend. unfold Feedback.sendFeedback.
    rewrite Ht, Hf, Hsend, Hp. reflexivity.
Qed.

End FullLinkInFeedback.

(** ** Objects used as maps *)

Section ObjectFacts.
Import Js.
Context {V : Type}.

Lemma get_replace_eq (k : string) (v : V) (o : obj V) :
  get o k <> None -> get (replace k v o) k = Some v.
Proof.
  induction o as [|[k' v'] o IH]; simpl; [congruence |].
  destruct (String.eqb_spec k' k) as [-> | N]; simpl.
  - now rewrite String.eqb_refl.
  - destruct (String.eqb_spec k' k); [contradiction | exact IH].
Qed.

Lemma get_replace_ne (k k' : string) (v : V) (o : obj V) :
  k' <> k -> get (replace k v o) k' = get o k'.
Proof.
  intros N. induction o as [|[k1 v1] o IH]; simpl; [reflexivity |].
  destruct (String.eqb_spec k1 k) as [-> | N1]; simpl.
  - destruct (String.eqb_spec k k'); [congruence | reflexivity].
  - destruct (String.eqb_spec k1 k'); [reflexivity | exact IH].
Qed.

Lemma keys_replace (k : string) (v : V) (o : obj V) : keys (replace k v o) = keys o.
Proof.
  unfold keys. induction o as [|[k1 v1] o IH]; simpl; [reflexivity |].
  destruct (String.eqb k1 k); simpl; [reflexivity | now rewrite IH].
Qed.

Lemma get_insertIndex_eq (n : N) (k : string) (v : V) (o : obj V) :
  get o k = None -> get (insertIndex n k v o) k = Some v.
Proof.
  induction o as [|[k1 v1] o IH]; simpl.
  - now rewrite String.eqb_refl.
  - destruct (String.eqb_spec k1 k) as [-> | N1]; [discriminate |]. intros Hg.
    destruct (arrayIndex k1) as [n1|].
    + destruct (n <? n1)%N; simpl.
      * now rewrite String.eqb_refl.
      * destruct (String.eqb_spec k1 k); [contradiction | now apply IH].
    + simpl. now rewrite String.eqb_refl.
Qed.

Lemma get_insertIndex_ne (n : N) (k k' : string) (v : V) (o : obj V) :
  k' <> k -> get (insertIndex n k v o) k' = get o k'.
Proof.
  intros N0. induction o as [|[k1 v1] o IH]; simpl.
  - destruct (String.eqb_spec k k'); [congruence | reflexivity].
  - destruct (arrayIndex k1) as [n1|].
    + destruct (n <? n1)%N; simpl.
      * destruct (String.eqb_spec k k'); [congruence | reflexivity].
      * destruct (String.eqb_spec k1 k'); [reflexivity | exact IH].
    + simpl. destruct (String.eqb_spec k k'); [congruence | reflexivity].
Qed.

Lemma get_app_None (o o' : obj V) (k : string) :
  get o k = None -> get (o ++ o') k = get o' k.
Proof.
  induction o as [|[k1 v1] o IH]; simpl; [reflexivity |].
  destruct (String.eqb k1 k); [discriminate | exact IH].
Qed.

Lemma get_app_Some (o o' : obj V) (k : string) (v : V) :
  get o k = Some v -> get (o ++ o') k = Some v.
Proof.
  induction o as [|[k1 v1] o IH]; simpl; [discriminate |].
  destruct (String.eqb k1 k); [auto | exact IH].
Qed.

(** Reading back what was written. *)
Lemma get_set_eq (k : string) (v : V) (o : obj V) : get (set k v o) k = Some v.
Proof.
  unfold set. destruct (get o k) as [w|] eqn:E.
  - apply get_replace_eq. congruence.
  - destruct (arrayIndex k) as [n|].
    + now apply get_insertIndex_eq.
    + rewrite get_app_None by exact E. simpl. now rewrite String.eqb_refl.
Qed.

(** A write leaves the other properties alone. *)
Lemma get_set_ne (k k' : string) (v : V) (o : obj V) :
  k' <> k -> get (set k v o) k' = get o k'.
Proof.
  intros N0. unfold set. destruct (get o k) as [w|] eqn:E.
  - now apply get_replace_ne.
  - destruct (arrayIndex k) as [n|].
    + now apply get_insertIndex_ne.
    + destruct (get o k') as [w|] eqn:E'.
      * now apply get_app_Some.
      * rewrite get_app_None by exact E'. simpl.
        destruct (String.eqb_spec k k'); [congruence | reflexivity].
Qed.

Lemma in_keys_get (o : obj V) (k : string) :
  In k (keys o) <-> exists v, get o k = Some v.
Proof.
  unfold keys. induction o as [|[k1 v1] o IH]; simpl.
  - split; [contradiction | intros (v & E); discriminate].
  - destruct (String.eqb_spec k1 k) as [-> | N0].
    + split; [intros _; now exists v1 | now left].
    + rewrite <- IH. split; [intros [E | Hin]; [contradiction | exact Hin] | now right].
Qed.

(** A write to a property that exists keeps the keys and their order. *)
Lemma keys_set_present (k : string) (v : V) (o : obj V) :
  get o k <> None -> keys (set k v o) = keys o.
Proof.
  intros Hg. unfold set. destruct (get o k); [apply keys_replace | congruence].
Qed.

Lemma keys_insertIndex (n : N) (k : string) (v : V) (o : obj V) :
  Add k (keys o) (keys (insertIndex n k v o)).
Proof.
  unfold keys. induction o as [|[k1 v1] o IH]; simpl.
  - constructor.
  - destruct (arrayIndex k1) as [n1|].
    + destruct (n <? n1)%N; simpl; [constructor | now constructor].
    + simpl. constructor.
Qed.

Lemma keys_app_new (k : string) (v : V) (o : obj V) :
  Add k (keys o) (keys (o ++ [(k, v)])).
Proof.
  unfold keys. induction o as [|[k1 v1] o IH]; simpl; now constructor.
Qed.

(** A write keeps the keys of an object distinct. *)
Lemma keys_set_NoDup (k : string) (v : V) (o : obj V) :
  NoDup (keys o) -> NoDup (keys (set k v o)).
Proof.
  intros Hn. unfold set. destruct (get o k) as [w|] eqn:E.
  - now rewrite keys_replace.
  - assert (~ In k (keys o)) as Hk.
    { intros Hin. apply in_keys_get in Hin as (w & Hw). congruence. }
    destruct (arrayIndex k) as [n|].
    + apply (NoDup_Add (keys_insertIndex n k v o)). auto.
    + apply (NoDup_Add (keys_app_new k v o)). auto.
Qed.

End ObjectFacts.

(** ** BuildShareLink: ancestor pruning *)

Section Pruning.
Import Js Props BuildShareLink.

#[local] Abbreviation members := (obj (option Json.node)).

Lemma absent_true (m : members) (p : string) :
  absent m p = true
  <-> (get m p = None /\ inherited p = false) \/ get m p = Some None.
Proof.
  unfold absent. destruct (get m p) as [[e|]|]; [| |destruct (inherited p)]; cbn [negb];
    split; intros; intuition congruence.
Qed.

Lemma eliminate_keys (m : members) (key : string) : keys (eliminate m key) = keys m.
Proof.
  unfold eliminate. destruct (get m key) as [[item|]|] eqn:E; try reflexivity.
  destruct (truthy (Json.isOpen item) && existsb (absent m) (Json.parents item));
    [| reflexivity].
  apply keys_set_present. congruence.
Qed.

(** A turn of the loop writes at most to its own key, and then
    undefined. *)
Lemma eliminate_get (m : members) (key k : string) :
  get (eliminate m key) k = get m k
  \/ (k = key /\ get (eliminate m key) k = Some None
      /\ exists item, get m key = Some (Some item)
           /\ truthy (Json.isOpen item) = true
           /\ existsb (absent m) (Json.parents item) = true).
Proof.
  unfold eliminate. destruct (get m key) as [[item|]|] eqn:E; try now left.
  destruct (truthy (Json.isOpen item)) eqn:Ho; cbn [andb]; [| now left].
  destruct (existsb (absent m) (Json.parents item)) eqn:Hx; [| now left].
  destruct (String.eqb_spec k key) as [-> | N0].
  - right. rewrite get_set_eq. split; [reflexivity |]. split; [reflexivity |].
    now exists item.
  - left. now apply get_set_ne.
Qed.

Lemma eliminate_absent (m : members) (key p : string) :
  absent m p = true -> absent (eliminate m key) p = true.
Proof.
  rewrite !absent_true. intros Ha.
  destruct (eliminate_get m key p) as [-> | (_ & -> & _)]; auto.
Qed.

Lemma eliminate_undefined (m : members) (key k : string) :
  get m k = Some None -> get (eliminate m key) k = Some None.
Proof.
  intros Hk. destruct (eliminate_get m key k) as [-> | (_ & -> & _)]; auto.
Qed.

Lemma eliminateAll_keys (ks : list string) (m : members) :
  keys (fold_left eliminate ks m) = keys m.
Proof.
  revert m; induction ks as [|k1 ks IH]; intros m; simpl; [reflexivity |].
  now rewrite IH, eliminate_keys.
Qed.

Lemma eliminateAll_absent (ks : list string) (m : members) (p : string) :
  absent m p = true -> absent (fold_left eliminate ks m) p = true.
Proof.
  revert m; induction ks as [|k1 ks IH]; intros m Ha; simpl; [exact Ha |].
  apply IH. now apply eliminate_absent.
Qed.

Lemma eliminateAll_undefined (ks : list string) (m : members) (k : string) :
  get m k = Some None -> get (fold_left eliminate ks m) k = Some None.
Proof.
  revert m; induction ks as [|k1 ks IH]; intros m Hk; simpl; [exact Hk |].
  apply IH. now apply eliminate_undefined.
Qed.

(** Every value is what it was, or undefined. *)
Lemma eliminateAll_get (ks : list string) (m : members) (k : string) :
  get (fold_left eliminate ks m) k = get m k
  \/ get (fold_left eliminate ks m) k = Some None.
Proof.
  revert m; induction ks as [|k1 ks IH]; intros m; simpl; [now left |].
  destruct (IH (eliminate m k1)) as [E | E]; [| now right].
  rewrite E. destruct (eliminate_get m k1 k) as [-> | (_ & -> & _)]; auto.
Qed.

(** The pruning rule: an open entry with an ancestor that has no entry is
    set to undefined, whenever its key is among those visited. *)
Lemma eliminateAll_prunes (ks : list string) (m : members) (k p : string)
    (e : Json.node) :
  In k ks ->
  get m k = Some (Some e) ->
  truthy (Json.isOpen e) = true ->
  In p (Json.parents e) ->
  absent m p = true ->
  get (fold_left eliminate ks m) k = Some None.
Proof.
  revert m; induction ks as [|k1 ks IH]; intros m Hin Hk Ho Hp Ha; [contradiction |].
  simpl. destruct (String.eqb_spec k1 k) as [-> | N0].
  - apply eliminateAll_undefined. unfold eliminate. rewrite Hk, Ho. cbn [andb].
    assert (existsb (absent m) (Json.parents e) = true) as ->.
    { apply existsb_exists. now exists p. }
    apply get_set_eq.
  - destruct Hin as [-> | Hin]; [contradiction |].
    apply IH; auto.
    + destruct (eliminate_get m k1 k) as [-> | (-> & _)]; [exact Hk | contradiction].
    + now apply eliminate_absent.
Qed.

(** Conversely, an entry that ends undefined was open and has an ancestor
    without an entry in the result. *)
Lemma eliminateAll_pruned (ks : list string) (m : members) (k : string)
    (e : Json.node) :
  get m k = Some (Some e) ->
  get (fold_left eliminate ks m) k = Some None ->
  truthy (Json.isOpen e) = true
  /\ exists p, In p (Json.parents e) /\ absent (fold_left eliminate ks m) p = true.
Proof.
  revert m; induction ks as [|k1 ks IH]; intros m Hk Hr; simpl in *; [congruence |].
  destruct (eliminate_get m k1 k) as [E | (-> & E & item & Hi & Ho & Hx)].
  - apply (IH (eliminate m k1)); [now rewrite E | exact Hr].
  - assert (item = e) as -> by congruence. split; [exact Ho |].
    apply existsb_exists in Hx as (p & Hp & Ha). exists p. split; [exact Hp |].
    apply eliminateAll_absent. now apply eliminate_absent.
Qed.

Lemma eliminateAll_other (ks : list string) (m : members) (k : string) :
  ~ In k ks -> get (fold_left eliminate ks m) k = get m k.
Proof.
  revert m; induction ks as [|k1 ks IH]; intros m Hn; simpl; [reflexivity |].
  rewrite IH by (intros Hin; apply Hn; now right).
  destruct (eliminate_get m k1 k) as [E | (-> & _)]; [exact E |].
  exfalso. apply Hn. now left.
Qed.

Lemma stored_NoDup (l : list Json.node) (acc : members) :
  NoDup (keys acc) -> NoDup (keys (fold_left store l acc)).
Proof.
  revert acc; induction l as [|n l IH]; intros acc Hn; simpl; [exact Hn |].
  apply IH. unfold store. now apply keys_set_NoDup.
Qed.

Lemma stored_items (l : list Json.node) (acc : members) :
  (forall k v, get acc k = Some v -> exists item, v = Some item) ->
  forall k v, get (fold_left store l acc) k = Some v -> exists item, v = Some item.
Proof.
  revert acc; induction l as [|n l IH]; intros acc Ha; simpl; [exact Ha |].
  apply IH. intros k v. unfold store.
  destruct (String.eqb_spec k (propertyKey (Json.id n))) as [-> | N0].
  - rewrite get_set_eq. intros E. injection E as <-. eauto.
  - rewrite get_set_ne by exact N0. apply Ha.
Qed.

(** Each turn of the loop of [addSharedMembers] finds, under its key, an
    item the reduce stored: [eliminate] never takes its last branch
    there. *)
Lemma eliminate_finds_item (flat : list Json.node) (before after : list string)
    (key : string) :
  keys (keyById flat) = before ++ key :: after ->
  exists item, get (fold_left eliminate before (keyById flat)) key = Some (Some item).
Proof.
  intros Hk.
  assert (NoDup (keys (keyById flat))) as Hn.
  { unfold keyById. apply stored_NoDup. constructor. }
  rewrite Hk in Hn. apply NoDup_remove_2 in Hn.
  rewrite eliminateAll_other by (intros Hin; apply Hn; apply in_or_app; now left).
  assert (In key (keys (keyById flat))) as Hin.
  { rewrite Hk. apply in_or_app. right. now left. }
  apply in_keys_get in Hin as (v & Hv). rewrite Hv.
  unfold keyById in Hv. apply stored_items in Hv as (item & ->); [eauto |].
  intros k w E. discriminate.
Qed.

End Pruning.

Section SharedMembers.
Import Js Props BuildShareLink.

#[local] Abbreviation members := (obj (option Json.node)).

(** What the reduce leaves at a key: the last item stored under it, or
    what was there when no item has the key. *)
Lemma stored_get (l : list Json.node) (acc : members) (k : string) :
  (exists n, In n l /\ propertyKey (Json.id n) = k
     /\ get (fold_left store l acc) k = Some (Some (clearId n)))
  \/ ((forall n, In n l -> propertyKey (Json.id n) <> k)
      /\ get (fold_left store l acc) k = get acc k).
Proof.
  revert acc; induction l as [|n1 l IH]; intros acc; simpl.
  - right. split; [intros n [] | reflexivity].
  - destruct (IH (store acc n1)) as [(n & Hin & Hk & Hg) | (Hno & Hg)].
    + left. exists n. auto.
    + destruct (String.eqb_spec (propertyKey (Json.id n1)) k) as [E | N0].
      * left. exists n1. split; [now left |]. split; [exact E |].
        rewrite Hg. unfold store. rewrite E. apply get_set_eq.
      * right. split.
        -- intros n [<- | Hin]; [exact N0 | now apply Hno].
        -- rewrite Hg. unfold store. apply get_set_ne. congruence.
Qed.

(** The entries of the object the reduce builds: items that passed the
    filter, under their ids, with the id cleared. *)
Lemma keyById_get (flat : list Json.node) (k : string) (v : option Json.node) :
  get (keyById flat) k = Some v ->
  exists n, In n flat /\ enabledOrOpen n = true /\ propertyKey (Json.id n) = k
    /\ v = Some (clearId n).
Proof.
  unfold keyById. change (filter _ flat) with (filter enabledOrOpen flat). intros Hg.
  destruct (stored_get (filter enabledOrOpen flat) [] k) as [(n & Hin & Hk & Hg') | (_ & Hg')].
  - apply filter_In in Hin as [Hin Hf]. exists n.
    repeat split; auto. rewrite Hg in Hg'. now injection Hg'.
  - rewrite Hg' in Hg. discriminate.
Qed.

Lemma keyById_stored (flat : list Json.node) (n : Json.node) :
  In n flat -> enabledOrOpen n = true ->
  exists n', In n' flat /\ enabledOrOpen n' = true
    /\ propertyKey (Json.id n') = propertyKey (Json.id n)
    /\ get (keyById flat) (propertyKey (Json.id n)) = Some (Some (clearId n')).
Proof.
  intros Hin Hf. unfold keyById. change (filter _ flat) with (filter enabledOrOpen flat).
  destruct (stored_get (filter enabledOrOpen flat) [] (propertyKey (Json.id n)))
    as [(n' & Hin' & Hk & Hg) | (Hno & _)].
  - apply filter_In in Hin' as [Hin' Hf']. exists n'. auto.
  - exfalso. apply (Hno n); [| reflexivity]. apply filter_In. auto.
Qed.

Lemma get_In {V} (o : obj V) (k : string) (v : V) : get o k = Some v -> In (k, v) o.
Proof.
  induction o as [|[k1 v1] o IH]; simpl; [discriminate |].
  destruct (String.eqb_spec k1 k) as [-> | N0].
  - intros E; injection E as ->. now left.
  - intros E. right. now apply IH.
Qed.

Lemma ancestorClosed_sound (m : members) :
  ancestorClosed m = true ->
  forall k e p e' q,
    get m k = Some (Some e) -> In p (Json.parents e) ->
    get m p = Some (Some e') -> In q (Json.parents e') -> In q (Json.parents e).
Proof.
  unfold ancestorClosed. intros Hc k e p e' q Hk Hp Hp' Hq.
  rewrite forallb_forall in Hc. specialize (Hc _ (get_In _ _ Hk)). cbn [snd] in Hc.
  rewrite forallb_forall in Hc. specialize (Hc _ Hp). rewrite Hp' in Hc.
  rewrite forallb_forall in Hc. specialize (Hc _ Hq).
  apply existsb_exists in Hc as (q' & Hin & E). apply String.eqb_eq in E. now subst q'.
Qed.

(** While the loop runs over an object whose entries are closed under
    ancestors, every entry is one of the first object, and a key without
    an entry either had none at first or belongs to an item one of whose
    ancestors had none at first. *)
Lemma eliminateAll_origin (m0 : members) (ks : list string) :
  ancestorClosed m0 = true ->
  forall m,
    (forall k e, get m k = Some (Some e) -> get m0 k = Some (Some e)) ->
    (forall q, absent m q = true ->
       absent m0 q = true
       \/ exists e q', get m0 q = Some (Some e) /\ In q' (Json.parents e)
            /\ absent m0 q' = true) ->
    forall q, absent (fold_left eliminate ks m) q = true ->
      absent m0 q = true
      \/ exists e q', get m0 q = Some (Some e) /\ In q' (Json.parents e)
           /\ absent m0 q' = true.
Proof.
  intros Hc. induction ks as [|k1 ks IH]; intros m Hsame Habs; simpl; [exact Habs |].
  apply IH.
  - intros k e Hk. apply Hsame.
    destruct (eliminate_get m k1 k) as [<- | (_ & E & _)]; [exact Hk | congruence].
  - intros q Hq.
    destruct (eliminate_get m k1 q) as [E | (-> & _ & item & Hi & _ & Hx)].
    + apply Habs. apply absent_true. apply absent_true in Hq. now rewrite <- E.
    + right. apply existsb_exists in Hx as (p & Hp & Ha).
      pose proof (Hsame _ _ Hi) as Hi0.
      destruct (Habs _ Ha) as [Ha0 | (ep & q' & Hep & Hq' & Ha0)].
      * exists item, p. auto.
      * exists item, q'. repeat split; auto.
        eapply ancestorClosed_sound; eauto.
Qed.

Lemma eliminateAll_none (ks : list string) (m : members) (p : string) :
  get m p = None -> get (fold_left eliminate ks m) p = None.
Proof.
  revert m; induction ks as [|k1 ks IH]; intros m Hp; simpl; [exact Hp |].
  apply IH.
  destruct (eliminate_get m k1 p) as [-> | (-> & _ & item & Hi & _)];
    [exact Hp | congruence].
Qed.

(** An entry that is not open, or whose ancestors all read truthy at the
    end, is left as it was. *)
Lemma eliminateAll_kept (ks : list string) (m : members) (k : string) (e : Json.node) :
  get m k = Some (Some e) ->
  truthy (Json.isOpen e) = false
  \/ (forall p, In p (Json.parents e) -> absent (fold_left eliminate ks m) p = false) ->
  get (fold_left eliminate ks m) k = Some (Some e).
Proof.
  intros Hk Hsafe.
  destruct (eliminateAll_get ks m k) as [E | E]; [now rewrite E |].
  destruct (@eliminateAll_pruned ks m k e Hk E) as (Ho & p & Hp & Ha).
  destruct Hsafe as [Hc | Hall]; [congruence |].
  rewrite (Hall p Hp) in Ha. discriminate.
Qed.

(** C1, as the code has it.  In the object [addSharedMembers] builds from
    a serialized catalog, an entry whose isOpen is true and one of whose
    ancestor ids has no entry is set to undefined before the object is
    pushed, provided that id does not name a member of [Object.prototype]:
    the test [!catalogForSharing[parentId]] finds such a member on the
    plain object, so an open entry whose ancestors each have an entry at
    the end, or have none and bear such a name, is kept.  When the entries
    are closed under ancestors the rule also holds for an ancestor that
    reads undefined in the result.  For group A (open) holding B (closed)
    holding C (isOpen true), the object keeps A as it is; B has no key when
    it is not enabled and is kept when it is; and C is set to undefined
    exactly when B is not enabled and the id of B is no such name, and is
    kept open otherwise. *)
Theorem C1_ancestor_pruning (serialized : list Json.node) :
  (forall k e p,
     get (keyById (flattenCatalog serialized)) k = Some (Some e) ->
     truthy (Json.isOpen e) = true ->
     In p (Json.parents e) ->
     get (keyById (flattenCatalog serialized)) p = None ->
     inherited p = false ->
     get (catalogForSharing serialized) k = Some None)
  /\ (forall k e,
      get (keyById (flattenCatalog serialized)) k = Some (Some e) ->
      (forall p, In p (Json.parents e) ->
         (get (keyById (flattenCatalog serialized)) p = None /\ inherited p = true)
         \/ exists e', get (catalogForSharing serialized) p = Some (Some e')) ->
      get (catalogForSharing serialized) k = Some (Some e))
  /\ (ancestorClosed (keyById (flattenCatalog serialized)) = true ->
      forall k e p,
        get (keyById (flattenCatalog serialized)) k = Some (Some e) ->
        truthy (Json.isOpen e) = true ->
        In p (Json.parents e) ->
        absent (catalogForSharing serialized) p = true ->
        get (catalogForSharing serialized) k = Some None)
  /\ (forall a b c pa pb pc,
        a <> b -> a <> c -> b <> c ->
        truthy (read pa "isOpen") = true ->
        truthy (read pb "isOpen") = false ->
        truthy (read pc "isOpen") = true ->
        get (catalogForSharing (chain a b c pa pb pc)) a
        = Some (Some (Json.Node None [] pa None))
        /\ (truthy (read pb "isEnabled") = false ->
            get (catalogForSharing (chain a b c pa pb pc)) b = None)
        /\ (truthy (read pb "isEnabled") = true ->
            get (catalogForSharing (chain a b c pa pb pc)) b
            = Some (Some (Json.Node None [a] pb None)))
        /\ (get (catalogForSharing (chain a b c pa pb pc)) c = Some None
            <-> truthy (read pb "isEnabled") = false /\ inherited b = false)
        /\ (get (catalogForSharing (chain a b c pa pb pc)) c = Some None
            \/ get (catalogForSharing (chain a b c pa pb pc)) c
               = Some (Some (Json.Node None [a; b] pc None)))).
Proof.
  unfold catalogForSharing, eliminateOpenGroups.
  set (m0 := keyById (flattenCatalog serialized)).
  assert (forall k e p, get m0 k = Some (Some e) -> truthy (Json.isOpen e) = true ->
            In p (Json.parents e) -> absent m0 p = true ->
            get (fold_left eliminate (keys m0) m0) k = Some None) as Hfirst.
  { intros k e p Hk Ho Hp Ha.
    apply (@eliminateAll_prunes (keys m0) m0 k p e); auto.
    apply in_keys_get. eauto. }
  split; [| split; [| split]].
  - intros k e p Hk Ho Hp Hn Hi. apply (Hfirst k e p); auto.
    apply absent_true. left. now split.
  - intros k e Hk Hall. apply eliminateAll_kept; [exact Hk |]. right. intros p Hp.
    unfold absent. destruct (Hall p Hp) as [[Hn Hi] | (e' & He')].
    + now rewrite (eliminateAll_none _ _ _ Hn), Hi.
    + now rewrite He'.
  - intros Hc k e p Hk Ho Hp Ha.
    destruct (@eliminateAll_origin m0 (keys m0) Hc m0 (fun _ _ E => E)
                (fun _ E => or_introl E) p Ha)
      as [Ha0 | (ep & q' & Hep & Hq' & Ha0)].
    + apply (Hfirst k e p); auto.
    + apply (Hfirst k e q'); auto.
      eapply ancestorClosed_sound; eauto.
  - clear m0 Hfirst. intros a b c pa pb pc Hab Hac Hbc Hoa Hob Hoc.
    set (A := Json.Node None [] pa None).
    set (B := Json.Node None [a] pb None).
    set (Cn := Json.Node None [a; b] pc None).
    destruct (truthy (read pb "isEnabled")) eqn:Heb.
    + assert (keyById (flattenCatalog (chain a b c pa pb pc))
              = set c (Some Cn) (set b (Some B) (set a (Some A) []))) as ->.
      { unfold keyById, chain, flattenCatalog. cbn [flat_map flattenNode app filter].
        unfold Json.isEnabled, Json.isOpen. cbn [Json.props].
        rewrite Hoa, Hob, Heb, Hoc, ?orb_true_r. reflexivity. }
      set (m0 := set c (Some Cn) (set b (Some B) (set a (Some A) []))).
      assert (get m0 a = Some (Some A)) as Ha.
      { unfold m0. rewrite !get_set_ne by congruence. apply get_set_eq. }
      assert (get m0 b = Some (Some B)) as Hb.
      { unfold m0. rewrite get_set_ne by congruence. apply get_set_eq. }
      assert (get m0 c = Some (Some Cn)) as Hc by apply get_set_eq.
      assert (get (fold_left eliminate (keys m0) m0) a = Some (Some A)) as Ha'.
      { apply eliminateAll_kept; [exact Ha |]. right. intros p []. }
      assert (get (fold_left eliminate (keys m0) m0) b = Some (Some B)) as Hb'.
      { apply eliminateAll_kept; [exact Hb |]. left. exact Hob. }
      assert (get (fold_left eliminate (keys m0) m0) c = Some (Some Cn)) as Hc'.
      { apply eliminateAll_kept; [exact Hc |]. right. unfold absent.
        intros p [<- | [<- | []]]; [now rewrite Ha' | now rewrite Hb']. }
      split; [exact Ha' |]. split; [discriminate |]. split; [intros _; exact Hb' |].
      split; [| now right].
      rewrite Hc'. split; [discriminate | intros [E _]; discriminate].
    + assert (keyById (flattenCatalog (chain a b c pa pb pc))
              = set c (Some Cn) (set a (Some A) [])) as ->.
      { unfold keyById, chain, flattenCatalog. cbn [flat_map flattenNode app filter].
        unfold Json.isEnabled, Json.isOpen. cbn [Json.props].
        rewrite Hoa, Hob, Heb, Hoc, ?orb_true_r. reflexivity. }
      set (m0 := set c (Some Cn) (set a (Some A) [])).
      assert (get m0 a = Some (Some A)) as Ha.
      { unfold m0. rewrite get_set_ne by congruence. apply get_set_eq. }
      assert (get m0 c = Some (Some Cn)) as Hc by apply get_set_eq.
      assert (get m0 b = None) as Hb.
      { unfold m0. rewrite !get_set_ne by congruence. reflexivity. }
      assert (get (fold_left eliminate (keys m0) m0) a = Some (Some A)) as Ha'.
      { apply eliminateAll_kept; [exact Ha |]. right. intros p []. }
      pose proof (eliminateAll_none (keys m0) m0 b Hb) as Hb'.
      split; [exact Ha' |]. split; [intros _; exact Hb' |]. split; [discriminate |].
      destruct (inherited b) eqn:Hi.
      * assert (get (fold_left eliminate (keys m0) m0) c = Some (Some Cn)) as Hc'.
        { apply eliminateAll_kept; [exact Hc |]. right. unfold absent.
          intros p [<- | [<- | []]]; [now rewrite Ha' | now rewrite Hb', Hi]. }
        split; [| now right].
        rewrite Hc'. split; [discriminate | intros [_ E]; discriminate].
      * assert (get (fold_left eliminate (keys m0) m0) c = Some None) as Hc'.
        { apply (@eliminateAll_prunes (keys m0) m0 c b Cn); auto.
          - apply in_keys_get. eauto.
          - right. now left.
          - apply absent_true. left. now split. }
        split; [| now left]. split; [intros _; now split | intros _; exact Hc'].
Qed.

End SharedMembers.

(** ** The serialization walk *)

Section WalkFacts.
Import Js Props Catalog.

Lemma member_induction (P : member -> Prop) :
  (forall uid ps, P (Member uid ps None)) ->
  (forall uid ps l, Forall P l -> P (Member uid ps (Some l))) ->
  forall m, P m.
Proof.
  intros Hleaf Hnode. fix IH 1. intros [uid ps [l|]].
  - apply Hnode. induction l as [|c l IHl]; constructor; [apply IH | exact IHl].
  - apply Hleaf.
Qed.

Lemma flat_map_flat_map {A B D} (f : A -> list B) (g : B -> list D) (l : list A) :
  flat_map g (flat_map f l) = flat_map (fun c => flat_map g (f c)) l.
Proof.
  induction l as [|c l IH]; [reflexivity |].
  cbn [flat_map]. now rewrite flat_map_app, IH.
Qed.

(** A chain of filters without effects is the conjunction of the filters
    and leaves the recorded rejections alone. *)
Lemma combineFilters_pure {X} (fs : list (X -> bool)) (x : X) (st : list item) :
  combineFilters (map pure fs) x st = (forallb (fun f => f x) fs, st).
Proof.
  induction fs as [|f fs IH]; [reflexivity |].
  cbn [map combineFilters forallb]. unfold bind, pure at 1, ret at 1.
  destruct (f x); [exact IH | reflexivity].
Qed.

Lemma filterProperties_pure (pf : filterFn (string * member))
    (k : string * member -> bool) (m : member) (ps : obj value) (st : list item) :
  (forall x st, pf x st = (k x, st)) ->
  filterProperties pf m ps st = (filter (fun kv => k (fst kv, m)) ps, st).
Proof.
  intros Hpf. induction ps as [|[p v] ps IH]; [reflexivity |].
  cbn [filterProperties filter fst]. unfold bind. rewrite Hpf, IH. unfold ret.
  destruct (k (p, m)); reflexivity.
Qed.

Lemma serializeItems_spec (visit : member -> St (option Json.node))
    (out : member -> option Json.node) (lg : member -> list item)
    (l : list member) :
  Forall (fun c => forall st, visit c st = (out c, st ++ lg c)) l ->
  forall st,
    serializeItems visit l st
    = (flat_map (fun c => match out c with Some n => [n] | None => [] end) l,
       st ++ flat_map lg l).
Proof.
  induction 1 as [|c l Hc _ IH]; intros st.
  - cbn. unfold ret. now rewrite app_nil_r.
  - cbn [serializeItems flat_map]. unfold bind. rewrite Hc, IH. unfold ret.
    rewrite <- app_assoc. destruct (out c); reflexivity.
Qed.

(** The walk computes [serializePure] and appends to the rejections what
    the filter logs for each visited member, in the order of the visit. *)
Lemma serializeMember_spec (o : options) (accept : item -> bool)
    (log : item -> list item) (keep : option (string * member -> bool)) :
  itemFilterIs o accept log -> propertyFilterIs o keep ->
  forall m ancestors par st,
    serializeMember o ancestors par m st
    = (serializePure accept keep ancestors par m,
       st ++ flat_map log (visited accept par m)).
Proof.
  intros Hi Hp m. induction m as [uid ps | uid ps l IH] using member_induction;
    intros ancestors par st.
  - cbn [serializeMember serializePure visited items]. unfold bind at 1.
    assert ((match itemFilter o with
             | Some f => f {| self := Member uid ps None; parent := par |}
             | None => ret true
             end) st
            = (accept {| self := Member uid ps None; parent := par |},
               st ++ log {| self := Member uid ps None; parent := par |})) as ->.
    { unfold itemFilterIs in Hi. destruct (itemFilter o).
      - apply Hi.
      - destruct (Hi {| self := Member uid ps None; parent := par |}) as [-> ->].
        unfold ret. now rewrite app_nil_r. }
    destruct (accept {| self := Member uid ps None; parent := par |});
      [| cbn; unfold ret; now rewrite app_nil_r].
    unfold bind.
    assert (forall st', (match propertyFilter o with
             | Some pf => filterProperties pf (Member uid ps None)
                            (properties (Member uid ps None))
             | None => ret (properties (Member uid ps None))
             end) st' = (keptProperties keep (Member uid ps None), st')) as ->.
    { intros st'. unfold propertyFilterIs in Hp. unfold keptProperties.
      destruct (propertyFilter o), keep; try contradiction; [| reflexivity].
      now apply filterProperties_pure. }
    cbn. unfold ret. now rewrite app_nil_r.
  - cbn [serializeMember serializePure visited items]. unfold bind at 1.
    assert ((match itemFilter o with
             | Some f => f {| self := Member uid ps (Some l); parent := par |}
             | None => ret true
             end) st
            = (accept {| self := Member uid ps (Some l); parent := par |},
               st ++ log {| self := Member uid ps (Some l); parent := par |})) as ->.
    { unfold itemFilterIs in Hi. destruct (itemFilter o).
      - apply Hi.
      - destruct (Hi {| self := Member uid ps (Some l); parent := par |}) as [-> ->].
        unfold ret. now rewrite app_nil_r. }
    destruct (accept {| self := Member uid ps (Some l); parent := par |});
      [| cbn; unfold ret; now rewrite app_nil_r].
    unfold bind at 1.
    assert (forall st', (match propertyFilter o with
             | Some pf => filterProperties pf (Member uid ps (Some l))
                            (properties (Member uid ps (Some l)))
             | None => ret (properties (Member uid ps (Some l)))
             end) st' = (keptProperties keep (Member uid ps (Some l)), st')) as ->.
    { intros st'. unfold propertyFilterIs in Hp. unfold keptProperties.
      destruct (propertyFilter o), keep; try contradiction; [| reflexivity].
      now apply filterProperties_pure. }
    unfold bind.
    rewrite (@serializeItems_spec
               (serializeMember o (ancestors ++ [uniqueId (Member uid ps (Some l))])
                  (Some (Member uid ps (Some l))))
               (serializePure accept keep (ancestors ++ [uniqueId (Member uid ps (Some l))])
                  (Some (Member uid ps (Some l))))
               (fun c => flat_map log (visited accept (Some (Member uid ps (Some l))) c))).
    + unfold ret. cbn [flat_map]. f_equal. rewrite <- app_assoc. do 2 f_equal.
      symmetry. apply flat_map_flat_map.
    + eapply Forall_impl; [| exact IH]. intros c Hc st'. apply Hc.
Qed.

Lemma serializeToJson_spec (o : options) (accept : item -> bool)
    (log : item -> list item) (keep : option (string * member -> bool))
    (root : member) (st : list item) :
  itemFilterIs o accept log -> propertyFilterIs o keep ->
  serializeToJson o root st
  = (serializeForest accept keep [] (Some root) (topLevel root),
     st ++ flat_map log (visitedForest accept (Some root) (topLevel root))).
Proof.
  intros Hi Hp. unfold serializeToJson, topLevel, serializeForest, visitedForest.
  destruct (items root) as [l|]; cbn [orEmptyMembers].
  - rewrite (@serializeItems_spec (serializeMember o [] (Some root))
               (serializePure accept keep [] (Some root))
               (fun c => flat_map log (visited accept (Some root) c))).
    + f_equal. f_equal. symmetry. apply flat_map_flat_map.
    + apply Forall_forall. intros c _ st'. now apply serializeMember_spec.
  - cbn. unfold ret. now rewrite app_nil_r.
Qed.

End WalkFacts.

(** ** BuildShareLink: what the two walks collect *)

Section Collected.
Import Js Props Catalog BuildShareLink.
Context {C : Cesium} {F : MemberFilters} {H : Host}.

Variable accept : item -> bool.
Variable keep : option (string * member -> bool).

#[local] Abbreviation entryOf :=
  (fun it : item => (Some (uniqueId (self it)), keptProperties keep (self it))).

#[local] Abbreviation only :=
  (fun o : option Json.node => match o with Some n => [n] | None => [] end).

Lemma flatten_forest (out : member -> option Json.node) (vis : member -> list item)
    (l : list member) :
  Forall (fun c =>
            map idAndProps (flat_map flattenNode (only (out c)))
            = map entryOf (filter accept (vis c))) l ->
  map idAndProps (flat_map flattenNode (flat_map (fun c => only (out c)) l))
  = map entryOf (filter accept (flat_map vis l)).
Proof.
  induction 1 as [|c l Hc _ IH]; [reflexivity |].
  cbn [flat_map]. rewrite flat_map_app, map_app, filter_app, map_app. now rewrite Hc, IH.
Qed.

(** The flattened output lists the visited members that were accepted, in
    the order of the visit, each with its id and its kept properties. *)
Lemma flatten_serializePure (m : member) :
  forall ancestors par,
    map idAndProps (flat_map flattenNode (only (serializePure accept keep ancestors par m)))
    = map entryOf (filter accept (visited accept par m)).
Proof.
  induction m as [uid ps | uid ps l IH] using member_induction; intros ancestors par.
  - cbn [serializePure visited items].
    destruct (accept {| self := Member uid ps None; parent := par |}) eqn:E.
    + cbn [filter]. rewrite E. reflexivity.
    + cbn [filter]. rewrite E. reflexivity.
  - cbn [serializePure visited items].
    destruct (accept {| self := Member uid ps (Some l); parent := par |}) eqn:E.
    + cbn [filter]. rewrite E. cbn [flat_map flattenNode app map]. rewrite app_nil_r.
      f_equal. apply flatten_forest.
      eapply Forall_impl; [| exact IH]. intros c Hc. apply Hc.
    + cbn [filter]. rewrite E. reflexivity.
Qed.

Lemma flatten_serializeForest (ancestors : list string) (par : option member)
    (l : list member) :
  map idAndProps (flattenCatalog (serializeForest accept keep ancestors par l))
  = map entryOf (filter accept (visitedForest accept par l)).
Proof.
  unfold flattenCatalog, serializeForest, visitedForest. apply flatten_forest.
  apply Forall_forall. intros c _. apply flatten_serializePure.
Qed.

(** The visited members are the reached ones. *)
Lemma visited_reached (m : member) :
  forall par it,
    In it (visited accept par m) <->
    it = {| self := m; parent := par |}
    \/ (accept {| self := m; parent := par |} = true
        /\ exists kids, items m = Some kids /\ Reached accept (Some m) kids it).
Proof.
  induction m as [uid ps | uid ps l IH] using member_induction; intros par it.
  - cbn [visited items].
    destruct (accept {| self := Member uid ps None; parent := par |}); cbn [In].
    + split; [intros [<- | []]; now left | intros [-> | (_ & kids & E & _)]];
        [now left | discriminate].
    + split; [intros [<- | []]; now left | intros [-> | (E & _)]];
        [now left | discriminate].
  - cbn [visited items].
    destruct (accept {| self := Member uid ps (Some l); parent := par |}) eqn:E; cbn [In].
    + split.
      * intros [<- | Hin]; [now left |]. right. split; [reflexivity |].
        exists l. split; [reflexivity |].
        apply in_flat_map in Hin as (c & Hc & Hin).
        rewrite Forall_forall in IH. apply (IH c Hc) in Hin as [-> | (Ha & kids & Hk & Hr)].
        -- now apply Reached_top.
        -- now apply Reached_below with (g := c) (kids := kids).
      * intros [-> | (_ & kids & Hk & Hr)]; [now left |]. right.
        injection Hk as <-. apply in_flat_map.
        rewrite Forall_forall in IH.
        inversion Hr as [par' l' m Hm | par' l' g kids it' Hg Ha Hk Hr']; subst.
        -- exists m. split; [exact Hm |]. apply (IH m Hm). now left.
        -- exists g. split; [exact Hg |]. apply (IH g Hg). right.
           split; [exact Ha |]. now exists kids.
    + split; [intros [<- | []]; now left | intros [-> | (E' & _)]];
        [now left | discriminate].
Qed.

Lemma visitedForest_reached (par : option member) (l : list member) (it : item) :
  In it (visitedForest accept par l) <-> Reached accept par l it.
Proof.
  unfold visitedForest. rewrite in_flat_map. split.
  - intros (c & Hc & Hin). apply visited_reached in Hin as [-> | (Ha & kids & Hk & Hr)].
    + now apply Reached_top.
    + now apply Reached_below with (g := c) (kids := kids).
  - intros Hr. inversion Hr as [par' l' m Hm | par' l' g kids it' Hg Ha Hk Hr']; subst.
    + exists m. split; [exact Hm |]. apply visited_reached. now left.
    + exists g. split; [exact Hg |]. apply visited_reached. right.
      split; [exact Ha |]. now exists kids.
Qed.

End Collected.

Section TwoFragments.
Import Js Props Catalog BuildShareLink.
Context {C : Cesium} {F : MemberFilters} {H : Host}.

Lemma rememberRejections_spec (f : item -> bool) (it : item) (st : list item) :
  rememberRejections f it st = (f it, if f it then st else st ++ [it]).
Proof. unfold rememberRejections. now destruct (f it). Qed.

Lemma userAddedFilter_spec (it : item) (st : list item) :
  userAddedFilter it st = (userAdded it, st ++ rejection it).
Proof.
  unfold userAddedFilter, userAdded, rejection.
  cbn [combineFilters]. unfold bind at 1. rewrite rememberRejections_spec.
  destruct (noLocalData it); cbn [andb].
  - unfold bind, pure, ret. rewrite app_nil_r.
    destruct (userSuppliedOnly it); [| reflexivity].
    destruct (parentHasNoUrl it); reflexivity.
  - reflexivity.
Qed.

Lemma rejections_filter (l : list item) :
  flat_map rejection l = filter (fun it => negb (noLocalData it)) l.
Proof.
  induction l as [|it l IH]; [reflexivity |].
  cbn [flat_map filter]. unfold rejection at 1. rewrite IH.
  now destruct (noLocalData it).
Qed.

Lemma addUserAddedCatalog_eq (t : terria) (initSources : list initSource) :
  addUserAddedCatalog t initSources
  = (if (0 <? length (serializeForest userAdded None [] (Some (t_catalog t))
                        (topLevel (t_catalog t))))%nat
     then initSources
          ++ [CatalogInit (serializeForest userAdded None [] (Some (t_catalog t))
                             (topLevel (t_catalog t)))]
     else initSources,
     filter (fun it => negb (noLocalData it))
       (visitedForest userAdded (Some (t_catalog t)) (topLevel (t_catalog t)))).
Proof.
  unfold addUserAddedCatalog.
  rewrite (@serializeToJson_spec _ userAdded rejection None).
  - cbn [app]. now rewrite rejections_filter.
  - unfold itemFilterIs. cbn [itemFilter]. apply userAddedFilter_spec.
  - exact I.
Qed.

(** C3 (amended). The chain of [addUserAddedCatalog] accepts a member
    exactly when it passes the no-local-data filter, is user supplied and
    has no parent or a parent without a url; the remembering filter gives
    the verdict of the no-local-data filter and appends the member to the
    rejections when that verdict is a rejection.  The catalog fragment,
    pushed when it is not empty, lists, flattened, the members the walk
    reaches that the chain accepts, in the order of the walk, with their
    properties; the rejections are the reached members the no-local-data
    filter rejects.  The walk reaches the members below the root and the
    children of every accepted group it reaches. *)
Theorem C3_user_added_catalog (t : terria) (initSources : list initSource) :
  (forall it st,
     rememberRejections noLocalData it st
     = (noLocalData it, if noLocalData it then st else st ++ [it]))
  /\ (forall it st,
      userAddedFilter it st
      = (noLocalData it && userSuppliedOnly it && parentHasNoUrl it,
         if noLocalData it then st else st ++ [it]))
  /\ (forall it,
      parentHasNoUrl it = true
      <-> parent it = None
          \/ exists p, parent it = Some p /\ truthy (read (properties p) "url") = false)
  /\ addUserAddedCatalog t initSources
     = (if (0 <? length (serializeForest userAdded None [] (Some (t_catalog t))
                           (topLevel (t_catalog t))))%nat
        then initSources
             ++ [CatalogInit (serializeForest userAdded None [] (Some (t_catalog t))
                                (topLevel (t_catalog t)))]
        else initSources,
        filter (fun it => negb (noLocalData it))
          (visitedForest userAdded (Some (t_catalog t)) (topLevel (t_catalog t))))
  /\ map idAndProps
       (flattenCatalog (serializeForest userAdded None [] (Some (t_catalog t))
                          (topLevel (t_catalog t))))
     = map (fun it => (Some (uniqueId (self it)), properties (self it)))
         (filter userAdded
            (visitedForest userAdded (Some (t_catalog t)) (topLevel (t_catalog t))))
  /\ (forall it,
      In it (visitedForest userAdded (Some (t_catalog t)) (topLevel (t_catalog t)))
      <-> Reached userAdded (Some (t_catalog t)) (topLevel (t_catalog t)) it).
Proof.
  split; [apply rememberRejections_spec |].
  split.
  { intros it st. rewrite userAddedFilter_spec. unfold userAdded, rejection.
    destruct (noLocalData it); [now rewrite app_nil_r | reflexivity]. }
  split.
  { intros it. unfold parentHasNoUrl. destruct (parent it) as [p|].
    - rewrite negb_true_iff. split.
      + intros E. right. now exists p.
      + intros [E | (p' & E & Hu)]; [discriminate | now injection E as ->].
    - split; [now left | reflexivity]. }
  split; [apply addUserAddedCatalog_eq |].
  split; [apply (flatten_serializeForest userAdded None) |].
  intros it. apply visitedForest_reached.
Qed.

Lemma sharedOptions_item : itemFilterIs sharedOptions noLocalData (fun _ => []).
Proof.
  unfold itemFilterIs, sharedOptions. cbn [itemFilter]. intros it st.
  change (combineFilters [pure noLocalData]) with (combineFilters (map pure [noLocalData])).
  rewrite combineFilters_pure. cbn [forallb]. now rewrite andb_true_r, app_nil_r.
Qed.

Lemma sharedOptions_property : propertyFilterIs sharedOptions (Some sharedKeep).
Proof.
  unfold propertyFilterIs, sharedOptions. cbn [propertyFilter]. intros x st.
  change (combineFilters _)
    with (combineFilters
            (map pure [sharedOnly;
                       fun pm : string * member => negb (String.eqb (fst pm) "name")])).
  rewrite combineFilters_pure. cbn [forallb]. unfold sharedKeep. now rewrite andb_true_r.
Qed.

(** The serialized catalog [addSharedMembers] starts from. *)
Lemma shared_serialized (t : terria) :
  fst (serializeToJson sharedOptions (t_catalog t) [])
  = serializeForest noLocalData (Some sharedKeep) [] (Some (t_catalog t))
      (topLevel (t_catalog t)).
Proof.
  now rewrite (@serializeToJson_spec sharedOptions noLocalData (fun _ => [])
                 (Some sharedKeep) (t_catalog t) [] sharedOptions_item
                 sharedOptions_property).
Qed.

Lemma get_filter_dropped (f : string * value -> bool) (ps : obj value) (k : string) :
  (forall v, f (k, v) = false) -> get (filter f ps) k = None.
Proof.
  intros Hf. induction ps as [|[k1 v1] ps IH]; [reflexivity |].
  cbn [filter]. destruct (f (k1, v1)) eqn:E; [| exact IH].
  cbn [get]. destruct (String.eqb_spec k1 k) as [-> | N0]; [| exact IH].
  rewrite Hf in E. discriminate.
Qed.

End TwoFragments.

Section SharedFragment.
Import Js Props Catalog BuildShareLink.
Context {C : Cesium} {F : MemberFilters} {H : Host}.

(** Where the nodes of the serialized catalog come from: each is a
    reached member without local data, with its id and with those of its
    properties that pass [sharedOnly] and are not called name. *)
Lemma shared_nodes (t : terria) (n : Json.node) :
  In n (flattenCatalog (fst (serializeToJson sharedOptions (t_catalog t) []))) ->
  exists it,
    Reached noLocalData (Some (t_catalog t)) (topLevel (t_catalog t)) it
    /\ noLocalData it = true
    /\ Json.id n = Some (uniqueId (self it))
    /\ Json.props n
       = filter (fun kv => sharedOnly (fst kv, self it)
                           && negb (String.eqb (fst kv) "name"))
           (properties (self it)).
Proof.
  rewrite shared_serialized. intros Hin.
  apply (in_map idAndProps) in Hin.
  rewrite (flatten_serializeForest noLocalData (Some sharedKeep)) in Hin.
  apply in_map_iff in Hin as (it & E & Hin).
  apply filter_In in Hin as [Hv Ha].
  apply visitedForest_reached in Hv.
  unfold idAndProps in E. injection E as Ei Ep.
  exists it. repeat split; auto.
Qed.

Lemma shared_nodes_unnamed (t : terria) (n : Json.node) :
  In n (flattenCatalog (fst (serializeToJson sharedOptions (t_catalog t) []))) ->
  get (Json.props n) "name" = None.
Proof.
  intros Hin. destruct (shared_nodes t n Hin) as (it & _ & _ & _ & ->).
  apply get_filter_dropped. intros v. cbn [fst]. now rewrite andb_false_r.
Qed.

(** C4 (amended). The sharedCatalogMembers fragment, pushed when it has a
    key, is keyed by exactly the ids of the flattened serialized nodes
    whose isEnabled or isOpen is true.  An entry is such a node with its id
    cleared; a key holds undefined instead when its node was open and an
    ancestor of it has no entry (the ancestor pruning).  Every serialized
    node carries the properties of its member that pass [sharedOnly] and
    are not called name, so no entry has a name. *)
Theorem C4_shared_members (t : terria) (initSources : list initSource) :
  addSharedMembers t initSources
  = (if (0 <? length (keys (catalogForSharing
                              (fst (serializeToJson sharedOptions (t_catalog t) [])))))%nat
     then initSources
          ++ [SharedCatalogMembers
                (catalogForSharing (fst (serializeToJson sharedOptions (t_catalog t) [])))]
     else initSources)
  /\ (forall k,
      In k (keys (catalogForSharing (fst (serializeToJson sharedOptions (t_catalog t) []))))
      <-> exists n,
            In n (flattenCatalog (fst (serializeToJson sharedOptions (t_catalog t) [])))
            /\ enabledOrOpen n = true /\ propertyKey (Json.id n) = k)
  /\ (forall k e,
      get (catalogForSharing (fst (serializeToJson sharedOptions (t_catalog t) []))) k
      = Some (Some e) ->
      get (Json.props e) "name" = None
      /\ exists n,
           In n (flattenCatalog (fst (serializeToJson sharedOptions (t_catalog t) [])))
           /\ enabledOrOpen n = true /\ propertyKey (Json.id n) = k
           /\ e = clearId n)
  /\ (forall k,
      get (catalogForSharing (fst (serializeToJson sharedOptions (t_catalog t) []))) k
      = Some None ->
      exists n,
        In n (flattenCatalog (fst (serializeToJson sharedOptions (t_catalog t) [])))
        /\ enabledOrOpen n = true /\ propertyKey (Json.id n) = k
        /\ truthy (Json.isOpen n) = true
        /\ exists p, In p (Json.parents n)
             /\ absent (catalogForSharing
                          (fst (serializeToJson sharedOptions (t_catalog t) []))) p
                = true)
  /\ (forall n,
      In n (flattenCatalog (fst (serializeToJson sharedOptions (t_catalog t) []))) ->
      exists it,
        Reached noLocalData (Some (t_catalog t)) (topLevel (t_catalog t)) it
        /\ noLocalData it = true
        /\ Json.id n = Some (uniqueId (self it))
        /\ Json.props n
           = filter (fun kv => sharedOnly (fst kv, self it)
                               && negb (String.eqb (fst kv) "name"))
               (properties (self it))).
Proof.
  split; [reflexivity |].
  unfold catalogForSharing, eliminateOpenGroups.
  set (flat := flattenCatalog (fst (serializeToJson sharedOptions (t_catalog t) []))).
  set (m0 := keyById flat).
  assert (forall n, In n flat -> get (Json.props n) "name" = None) as Hname
    by apply shared_nodes_unnamed.
  split; [| split; [| split]].
  - intros k. rewrite eliminateAll_keys, in_keys_get. split.
    + intros (v & Hv). destruct (@keyById_get flat k v Hv) as (n & Hin & Hf & Hk & _).
      now exists n.
    + intros (n & Hin & Hf & <-).
      destruct (@keyById_stored flat n Hin Hf) as (n' & _ & _ & _ & Hg). eauto.
  - intros k e Hg.
    assert (get m0 k = Some (Some e)) as Hg0.
    { destruct (eliminateAll_get (keys m0) m0 k) as [E | E]; congruence. }
    destruct (@keyById_get flat k (Some e) Hg0) as (n & Hin & Hf & Hk & Hv).
    injection Hv as ->. split; [cbn [clearId Json.props]; now apply Hname |]. now exists n.
  - intros k Hg.
    assert (In k (keys m0)) as Hin.
    { rewrite <- (eliminateAll_keys (keys m0) m0). apply in_keys_get. eauto. }
    apply in_keys_get in Hin as (v & Hv).
    destruct (@keyById_get flat k v Hv) as (n & Hin & Hf & Hk & ->).
    destruct (@eliminateAll_pruned (keys m0) m0 k (clearId n) Hv Hg) as (Ho & p & Hp & Ha).
    exists n. repeat split; auto. now exists p.
  - intros n. apply shared_nodes.
Qed.

End SharedFragment.

(** ** The share-link properties on the sample catalog *)

Section ShareSamples.
Import Js Props Catalog BuildShareLink.

#[local] Existing Instance Sample.cesium.
#[local] Existing Instance Sample.filters.
#[local] Existing Instance Sample.host.

#[local] Abbreviation sampleTerria := (Sample.terria []).

(** A closed group whose id is the word constructor: it has no entry,
    and the open item below it is kept open. *)
Lemma C1_failing_input :
  get (keyById (flattenCatalog
                  (chain "Root" "constructor" "Roads" [("isOpen", VBool true)]
                     [("isOpen", VBool false)] [("isOpen", VBool true)])))
      "constructor"
  = None
  /\ get (catalogForSharing
            (chain "Root" "constructor" "Roads" [("isOpen", VBool true)]
               [("isOpen", VBool false)] [("isOpen", VBool true)])) "Roads"
     = Some (Some (Json.Node None ["Root"; "constructor"] [("isOpen", VBool true)] None)).
Proof.
  split; [reflexivity |].
  destruct (C1_ancestor_pruning []) as (_ & _ & _ & Hchain).
  destruct (Hchain "Root" "constructor" "Roads" [("isOpen", VBool true)]
              [("isOpen", VBool false)] [("isOpen", VBool true)]
              ltac:(discriminate) ltac:(discriminate) ltac:(discriminate)
              eq_refl eq_refl eq_refl)
    as (_ & _ & _ & Hiff & [Hpruned | Hkept]); [| exact Hkept].
  apply Hiff in Hpruned as [_ Hi]. discriminate.
Defined.

(** Feedback that is to carry the share link, on a Terria instance with
    no way to shorten it: the full link is chosen, and the call throws. *)
Lemma C2_failing_input :
  canShorten sampleTerria = false
  /\ shareLinkPromise true sampleTerria
     = Normal (PlainString "https://maps.example/#start=%7Bversion%3A0.0.05%7D")
  /\ exists what,
       Feedback.sendFeedback (N := Sample.network (Fulfilled VNull))
         (Some (Sample.feedbackOf sampleTerria (VBool true))) Sample.quiet
       = (Sample.quiet, Throw (TypeError what)).
Proof.
  split; [reflexivity |].
  destruct (C2_full_link_when_shortening_is_unavailable
              (N := Sample.network (Fulfilled VNull))
              (Sample.feedbackOf sampleTerria (VBool true))
              (Feedback.FeedbackTerria sampleTerria (VStr "https://feedback.example/submit"))
              Sample.quiet)
    as (_ & Hfull & _).
  destruct (Hfull eq_refl) as (E & _ & _ & Hthrow).
  split; [etransitivity; [exact E | reflexivity] | exact (Hthrow eq_refl eq_refl eq_refl)].
Defined.

(** The user property hideExplorerPanel set to 1: the link carries it
    as key=1. *)
Lemma C5_failing_input :
  buildShareLink
    (Sample.terria [("hideExplorerPanel", "1")])
  = "https://maps.example/#start=%7Bversion%3A0.0.05%7D&key=1".
Proof.
  rewrite (proj1 (C5_whitelisted_properties_are_named_key
                    (Sample.terria [("hideExplorerPanel", "1")]))).
  reflexivity.
Defined.

Lemma C9_witness :
  t_pickedFeatures sampleTerria = Some Sample.picked
  /\ features Sample.picked <> []
  /\ exists fragment,
       addFeaturePicking sampleTerria []
       = [PickedFeaturesInit fragment]
       /\ pf_entities fragment = [ {| e_name := VStr "parcel 12"; e_hash := 1%Z |} ].
Proof.
  assert (features Sample.picked <> []) as Hne by discriminate.
  split; [reflexivity |]. split; [exact Hne |].
  destruct (C9_entities_are_the_vector_features sampleTerria
              (picked := Sample.picked) [] eq_refl Hne) as (fragment & E & He & _).
  exists fragment. split; [exact E |]. rewrite He. reflexivity.
Defined.

Lemma C3_witness :
  map idAndProps
    (flattenCatalog (serializeForest (userAdded) None []
                       (Some Sample.rootGroup) (topLevel Sample.rootGroup)))
  = [ (Some "My CSV", properties Sample.myCsv); (Some "W", properties Sample.wmsGroup) ]
  /\ snd (addUserAddedCatalog sampleTerria [])
     = [ {| self := Sample.localFile; parent := Some Sample.rootGroup |} ].
Proof.
  destruct (C3_user_added_catalog sampleTerria [])
    as (_ & _ & _ & Hadd & Hflat & _).
  split.
  - refine (eq_trans Hflat _). reflexivity.
  - rewrite Hadd. reflexivity.
Defined.

(** A user-supplied GeoJSON layer without local data, placed below a group
    whose url is that of a WMS server: the walk reaches it, the rule of the
    specification keeps it whenever the url that would regenerate it is
    not the group's, and the code leaves it out of the fragment. *)
Lemma C3_counterexample :
  exists it : item,
    it = {| self := Sample.layerOfService; parent := Some Sample.wmsGroup |}
    /\ Reached userAdded (Some Sample.rootGroup) (topLevel Sample.rootGroup) it
    /\ (forall regeneratedFrom : item -> string,
          regeneratedFrom it <> "https://wms.example/ows" ->
          specUserAdded regeneratedFrom it = true)
    /\ userAddedFilter it [] = (false, [])
    /\ map Json.id
         (flattenCatalog
            (serializeForest (userAdded) None []
               (Some Sample.rootGroup) (topLevel Sample.rootGroup)))
       = [Some "My CSV"; Some "W"].
Proof.
  eexists. split; [reflexivity |]. split; [| split; [| split]].
  - apply Reached_below with (g := Sample.wmsGroup) (kids := [Sample.layerOfService]).
    + cbn. auto.
    + reflexivity.
    + reflexivity.
    + apply Reached_top. now left.
  - intros regeneratedFrom Hr. unfold specUserAdded, specParentRule.
    cbn [parent self]. 
    destruct (String.eqb_spec
                (toStr (read (properties Sample.wmsGroup) "url"))
                (regeneratedFrom
                   {| self := Sample.layerOfService; parent := Some Sample.wmsGroup |}))
      as [E | N0].
    + exfalso. apply Hr. now rewrite <- E.
    + cbn [negb]. now rewrite orb_true_r.
  - reflexivity.
  - reflexivity.
Qed.

(** On the sample catalog, C is a flattened serialized node whose isOpen
    is true, and the fragment holds undefined under its id. *)
Lemma C4_counterexample :
  exists n : Json.node,
    In n (flattenCatalog
            (fst (serializeToJson (sharedOptions)
                    Sample.rootGroup [])))
    /\ Json.id n = Some "A/B/C"
    /\ enabledOrOpen n = true
    /\ get (catalogForSharing
              (fst (serializeToJson (sharedOptions)
                      Sample.rootGroup [])))
          "A/B/C"
       = Some None.
Proof.
  exists (Json.Node (Some "A/B/C") ["A"; "A/B"] [("isOpen", VBool true)] None).
  split; [| split; [| split]]; try reflexivity.
  vm_compute. tauto.
Qed.

Lemma C4_witness :
  keys (catalogForSharing
          (fst (serializeToJson (sharedOptions) Sample.rootGroup [])))
  = ["A"; "A/B/C"; "A/B/E"; "My CSV"; "W"]
  /\ get (Json.props
            (Json.Node None ["A"; "A/B"] [("isEnabled", VBool true); ("opacity", VNum 1)]
               None)) "name" = None.
Proof.
  split; [reflexivity |].
  destruct (C4_shared_members sampleTerria []) as (_ & _ & Hentry & _).
  apply (Hentry "A/B/E"). reflexivity.
Defined.

End ShareSamples.

(** ** BuildShareLink: the share data as a whole *)

Section ShareDataLayout.
Import Js Props Catalog BuildShareLink.
Context {C : Cesium} {F : MemberFilters} {H : Host}.

Lemma addUserAddedCatalog_part (t : terria) (l : list initSource) :
  exists cat, fst (addUserAddedCatalog t l) = l ++ cat
    /\ (cat = [] \/ exists c, c <> [] /\ cat = [CatalogInit c]).
Proof.
  unfold addUserAddedCatalog.
  destruct (serializeToJson _ (t_catalog t) []) as [c r]. cbn [fst].
  destruct c as [|n c]; cbn [length Nat.ltb Nat.leb].
  - exists []. rewrite app_nil_r. auto.
  - exists [CatalogInit (n :: c)]. split; [reflexivity |]. right.
    exists (n :: c). split; [discriminate | reflexivity].
Qed.

Lemma addSharedMembers_part (t : terria) (l : list initSource) :
  exists shared, addSharedMembers t l = l ++ shared
    /\ (shared = [] \/ exists m, m <> [] /\ shared = [SharedCatalogMembers m]).
Proof.
  unfold addSharedMembers.
  destruct (catalogForSharing _) as [|kv m]; cbn [keys map length Nat.ltb Nat.leb].
  - exists []. rewrite app_nil_r. auto.
  - exists [SharedCatalogMembers (kv :: m)]. split; [reflexivity |]. right.
    exists (kv :: m). split; [discriminate | reflexivity].
Qed.

Lemma addFeaturePicking_part (t : terria) (l : list initSource) :
  exists picked, addFeaturePicking t l = l ++ picked
    /\ (picked = [] \/ exists p, picked = [PickedFeaturesInit p])
    /\ (picked = [] <->
        t_pickedFeatures t = None
        \/ exists pf, t_pickedFeatures t = Some pf /\ features pf = []).
Proof.
  unfold addFeaturePicking. destruct (t_pickedFeatures t) as [pf|].
  - destruct (features pf) as [|f fs] eqn:E; cbn [length Nat.ltb Nat.leb].
    + exists []. rewrite app_nil_r. split; [reflexivity |]. split; [now left |].
      split; [intros _; right; now exists pf | reflexivity].
    + eexists [PickedFeaturesInit _]. split; [reflexivity |]. split; [right; eauto |].
      split; [discriminate |].
      intros [Hn | (pf' & Hp & Hf)]; [discriminate |].
      injection Hp as <-. congruence.
  - exists []. rewrite app_nil_r. split; [reflexivity |]. split; [now left |].
    split; [now left | reflexivity].
Qed.

Lemma addLocationMarker_part (t : terria) (l : list initSource) :
  exists marker, addLocationMarker t l = l ++ marker
    /\ (marker = [] \/ exists m, marker = [LocationMarkerInit m])
    /\ (marker = [] <-> locationMarker t = None).
Proof.
  unfold addLocationMarker. destruct (locationMarker t) as [e|].
  - eexists [LocationMarkerInit _]. split; [reflexivity |]. split; [right; eauto |].
    split; discriminate.
  - exists []. rewrite app_nil_r. split; [reflexivity |]. split; [now left |]. tauto.
Qed.

(** X1. The share data carry the version 0.0.05 and the init sources of
    the Terria instance, unchanged and in their order, followed by: at most
    one catalog fragment, never an empty one; at most one
    sharedCatalogMembers fragment, never one without a key; exactly one
    fragment of view settings; a pickedFeatures fragment exactly when
    features are picked; a locationMarker fragment exactly when a marker
    is set. *)
Theorem X1_share_data_layout (t : terria) :
  version (getShareData t) = "0.0.05"
  /\ exists cat shared view picked marker,
       sd_initSources (getShareData t)
       = t_initSources t ++ cat ++ shared ++ [ViewInit view] ++ picked ++ marker
       /\ (cat = [] \/ exists c, c <> [] /\ cat = [CatalogInit c])
       /\ (shared = [] \/ exists m, m <> [] /\ shared = [SharedCatalogMembers m])
       /\ (picked = [] \/ exists p, picked = [PickedFeaturesInit p])
       /\ (picked = [] <->
           t_pickedFeatures t = None
           \/ exists pf, t_pickedFeatures t = Some pf /\ features pf = [])
       /\ (marker = [] \/ exists m, marker = [LocationMarkerInit m])
       /\ (marker = [] <-> locationMarker t = None).
Proof.
  split; [reflexivity |]. unfold getShareData. cbn [sd_initSources].
  destruct (addUserAddedCatalog_part t (t_initSources t)) as (cat & -> & Hcat).
  destruct (addSharedMembers_part t (t_initSources t ++ cat)) as (shared & -> & Hsh).
  set (l2 := (t_initSources t ++ cat) ++ shared).
  destruct (addFeaturePicking_part t (addViewSettings t l2)) as (picked & -> & Hp1 & Hp2).
  destruct (addLocationMarker_part t (addViewSettings t l2 ++ picked))
    as (marker & -> & Hm1 & Hm2).
  unfold addViewSettings. eexists cat, shared, _, picked, marker.
  split; [| tauto]. subst l2. rewrite <- !app_assoc. reflexivity.
Qed.

End ShareDataLayout.

(** ** BuildShareLink: flattenCatalog *)

Section Flatten.
Import Js Props BuildShareLink.

Lemma node_induction (P : Json.node -> Prop) :
  (forall i ps pr, P (Json.Node i ps pr None)) ->
  (forall i ps pr l, Forall P l -> P (Json.Node i ps pr (Some l))) ->
  forall n, P n.
Proof.
  intros Hleaf Hnode. fix IH 1. intros [i ps pr [l|]].
  - apply Hnode. induction l as [|c l IHl]; constructor; [apply IH | exact IHl].
  - apply Hleaf.
Qed.

Lemma flattenNode_facts (n : Json.node) :
  Forall (fun x => Json.items x = None) (flattenNode n)
  /\ length (flattenNode n) = nodeCount n
  /\ map Json.id (flattenNode n) = preorderIds n.
Proof.
  induction n as [i ps pr | i ps pr l IH] using node_induction.
  - cbn. repeat split. constructor; [reflexivity | constructor].
  - cbn [flattenNode nodeCount preorderIds length map]. repeat split.
    + constructor; [reflexivity |]. apply Forall_flat_map.
      eapply Forall_impl; [| exact IH]. intros c Hc. apply Hc.
    + f_equal. induction IH as [|c l Hc _ IHl]; [reflexivity |].
      cbn [flat_map map list_sum fold_right]. rewrite length_app, IHl.
      destruct Hc as (_ & -> & _). reflexivity.
    + f_equal. induction IH as [|c l Hc _ IHl]; [reflexivity |].
      cbn [flat_map]. rewrite map_app, IHl.
      destruct Hc as (_ & _ & ->). reflexivity.
Qed.

Lemma flatten_flat (l : list Json.node) :
  Forall (fun x => Json.items x = None) l -> flattenCatalog l = l.
Proof.
  unfold flattenCatalog. induction 1 as [|x l Hx _ IH]; [reflexivity |].
  cbn [flat_map]. rewrite IH. destruct x as [i ps pr its]. cbn in Hx. subst its.
  reflexivity.
Qed.

Lemma flattenNode_nodesOf (n : Json.node) :
  flattenNode n = map withoutItems (nodesOf n).
Proof.
  induction n as [i ps pr | i ps pr l IH] using node_induction; [reflexivity |].
  cbn [flattenNode nodesOf map]. f_equal.
  induction IH as [|c l Hc _ IHl]; [reflexivity |].
  cbn [flat_map]. now rewrite map_app, IHl, Hc.
Qed.

(** X2. [flattenCatalog] returns the nodes of the hierarchy, every one
    once, each node before the nodes below it and with the order of the
    items kept; each node is as it was, with its id, parents and other
    properties, but for its items, which are undefined.  So the result has
    as many nodes as the hierarchy, with their ids in that order; a list
    whose nodes have no items is returned as it is, and flattening the
    result again changes nothing. *)
Theorem X2_flattenCatalog (items : list Json.node) :
  flattenCatalog items = map withoutItems (flat_map nodesOf items)
  /\ Forall (fun item => Json.items item = None) (flattenCatalog items)
  /\ length (flattenCatalog items) = list_sum (map nodeCount items)
  /\ map Json.id (flattenCatalog items) = flat_map preorderIds items
  /\ (forall flat, Forall (fun item => Json.items item = None) flat ->
                   flattenCatalog flat = flat)
  /\ flattenCatalog (flattenCatalog items) = flattenCatalog items.
Proof.
  assert (Forall (fun item => Json.items item = None) (flattenCatalog items)) as Hflat.
  { unfold flattenCatalog. apply Forall_flat_map. apply Forall_forall.
    intros n _. apply flattenNode_facts. }
  split.
  { clear Hflat. unfold flattenCatalog. induction items as [|n l IH]; [reflexivity |].
    cbn [flat_map]. now rewrite map_app, IH, flattenNode_nodesOf. }
  split; [exact Hflat |]. split; [| split; [| split; [exact flatten_flat |]]].
  - clear Hflat. unfold flattenCatalog. induction items as [|n l IH]; [reflexivity |].
    cbn [flat_map map list_sum fold_right]. rewrite length_app, IH.
    destruct (flattenNode_facts n) as (_ & -> & _). reflexivity.
  - clear Hflat. unfold flattenCatalog. induction items as [|n l IH]; [reflexivity |].
    cbn [flat_map]. rewrite map_app, IH.
    destruct (flattenNode_facts n) as (_ & _ & ->). reflexivity.
  - now apply flatten_flat.
Qed.

End Flatten.

(** ** BuildShareLink: the short link *)

Section ShortLinks.
Import Js Props BuildShareLink.
Context {C : Cesium} {F : Catalog.MemberFilters} {H : Host}.

Lemma shareLinkPromise_normal (sendShareURL : bool) (t : terria) :
  exists link, shareLinkPromise sendShareURL t = Normal link.
Proof.
  unfold shareLinkPromise. destruct sendShareURL; [| eexists; reflexivity].
  destruct (canShorten t) eqn:Hc; [| eexists; reflexivity].
  unfold canShorten in Hc. unfold buildShortShareLink.
  destruct (t_shareDataService t) as [s|]; [eexists; reflexivity |].
  destruct (t_urlShortener t) as [u|]; [eexists; reflexivity | discriminate].
Qed.

(** X3. [buildShortShareLink] assumes a url shortener when there is no
    share-data service: it returns a promise whenever [canShorten] holds,
    and throws a TypeError when neither collaborator is defined, in which
    case [canShorten] is false.  So the link [sendFeedback] takes is
    always evaluated without an exception. *)
Theorem X3_short_link_is_guarded (t : terria) :
  (canShorten t = true -> exists p, buildShortShareLink t = Normal p)
  /\ (t_shareDataService t = None -> t_urlShortener t = None ->
      canShorten t = false
      /\ exists what, buildShortShareLink t = Throw (TypeError what))
  /\ (forall sendShareURL, exists link, shareLinkPromise sendShareURL t = Normal link).
Proof.
  assert (canShorten t = true -> exists p, buildShortShareLink t = Normal p) as Hg.
  { unfold canShorten, buildShortShareLink.
    destruct (t_shareDataService t) as [s|]; [intros _; eexists; reflexivity |].
    destruct (t_urlShortener t) as [u|]; [intros _; eexists; reflexivity |].
    discriminate. }
  split; [exact Hg |]. split.
  - intros Hs Hu. unfold canShorten, buildShortShareLink. rewrite Hs, Hu.
    split; [reflexivity | eexists; reflexivity].
  - intros sendShareURL. apply shareLinkPromise_normal.
Qed.

(** X4. A share-data service that is defined is the one
    [buildShortShareLink] asks, whether or not it reports itself usable:
    when [canShorten] holds only because of the url shortener, the token
    is still asked of the service, and its failure is the failure of the
    short link. *)
Theorem X4_share_data_service_comes_first
    (t : terria) (service : shareDataService) :
  t_shareDataService t = Some service ->
  buildShortShareLink t
  = Normal (then_ (getShareToken service (getShareData t))
              (fun token => Normal (urlFromToken token)))
  /\ (forall shortener,
      t_urlShortener t = Some shortener -> us_isUsable shortener = true ->
      sds_isUsable service = false ->
      canShorten t = true
      /\ forall e, getShareToken service (getShareData t) = Rejected e ->
                   shareLinkPromise true t = Normal (Promised (Rejected e))).
Proof.
  intros Hs. unfold buildShortShareLink. rewrite Hs. split; [reflexivity |].
  intros shortener Hu Hus Hss.
  assert (canShorten t = true) as Hc.
  { unfold canShorten. now rewrite Hu, Hus. }
  split; [exact Hc |]. intros e He.
  unfold shareLinkPromise, buildShortShareLink. now rewrite Hc, Hs, He.
Qed.

End ShortLinks.

(** ** BuildShareLink: more on the shared members *)

Section SharedMembersMore.
Import Js Props BuildShareLink.

(** X5. When several flattened nodes that are enabled or open have the
    same id, the entry of that id is the last of them: later nodes
    overwrite earlier ones. *)
Theorem X5_last_node_of_an_id_wins (before after : list Json.node) (n : Json.node) :
  enabledOrOpen n = true ->
  (forall n', In n' after -> enabledOrOpen n' = true ->
              propertyKey (Json.id n') <> propertyKey (Json.id n)) ->
  get (keyById (before ++ n :: after)) (propertyKey (Json.id n)) = Some (Some (clearId n)).
Proof.
  intros Hn Hafter. unfold keyById.
  change (filter _ (before ++ n :: after)) with (filter enabledOrOpen (before ++ n :: after)).
  rewrite filter_app. cbn [filter]. rewrite Hn. rewrite fold_left_app. cbn [fold_left].
  destruct (stored_get (filter enabledOrOpen after)
              (store (fold_left store (filter enabledOrOpen before) []) n)
              (propertyKey (Json.id n))) as [(n' & Hin & Hk & _) | (_ & ->)].
  - apply filter_In in Hin as [Hin Hf]. exfalso. now apply (Hafter n').
  - unfold store. apply get_set_eq.
Qed.

(** X6. The pruning of [addSharedMembers] removes no key and changes no
    key order; it leaves every entry as the reduce stored it or sets it
    to undefined; an entry that is not open, or all of whose ancestors
    still have an entry at the end, is left as it was. *)
Theorem X6_pruning_touches_nothing_else (serialized : list Json.node) :
  keys (catalogForSharing serialized) = keys (keyById (flattenCatalog serialized))
  /\ (forall k,
      get (catalogForSharing serialized) k = get (keyById (flattenCatalog serialized)) k
      \/ get (catalogForSharing serialized) k = Some None)
  /\ (forall k e,
      get (keyById (flattenCatalog serialized)) k = Some (Some e) ->
      truthy (Json.isOpen e) = false
      \/ (forall p, In p (Json.parents e) -> absent (catalogForSharing serialized) p = false) ->
      get (catalogForSharing serialized) k = Some (Some e)).
Proof.
  unfold catalogForSharing, eliminateOpenGroups.
  set (m := keyById (flattenCatalog serialized)).
  split; [apply eliminateAll_keys |]. split; [intros k; apply eliminateAll_get |].
  intros k e Hk Hsafe.
  destruct (eliminateAll_get (keys m) m k) as [E | E]; [now rewrite E |].
  destruct (@eliminateAll_pruned (keys m) m k e Hk E) as (Ho & p & Hp & Ha).
  destruct Hsafe as [Hc | Hall]; [congruence |].
  rewrite (Hall p Hp) in Ha. discriminate.
Qed.

End SharedMembersMore.

(** ** ArcGisCatalogGroup: the base path and the local name *)

Section BasePath.
Import Js Props.





End BasePath.

Section RemovePath.
Import Js Props.

Lemma substringFrom_suffix (k : nat) (s : string) :
  exists dropped, s = (dropped ++ ArcGis.substringFrom k s)%string
    /\ String.length dropped = Nat.min (String.length s) k.
Proof.
  revert s; induction k as [|k IH]; intros s.
  - exists "". split; [reflexivity |]. now rewrite Nat.min_0_r.
  - destruct s as [|c s]; [exists ""; now split |].
    destruct (IH s) as (d & E & Hl). exists (String c d). cbn [append ArcGis.substringFrom].
    split; [now rewrite <- E |]. cbn [String.length]. now rewrite Hl.
Qed.

(** X8. [removePathFromName] returns an end of the name: the whole name
    when the base path is empty or the name does not begin with it, and
    otherwise the name without its first characters, as many as the base
    path has and one more (all of it when the name is no longer).  A name
    equal to the base path becomes the empty string. *)
Theorem X8_removePathFromName (basePath name : string) :
  (exists dropped,
     name = (dropped ++ ArcGis.removePathFromName basePath name)%string
     /\ (dropped = ""
         \/ (basePath <> "" /\ String.prefix basePath name = true
             /\ String.length dropped
                = Nat.min (String.length name) (String.length basePath + 1))))
  /\ (basePath = "" \/ String.prefix basePath name = false ->
      ArcGis.removePathFromName basePath name = name)
  /\ (basePath <> "" ->
      ArcGis.removePathFromName basePath basePath = ""
      /\ forall c tail,
           ArcGis.removePathFromName basePath (basePath ++ String c tail) = tail).
Proof.
  split; [| split].
  - destruct basePath as [|b0 b].
    { exists "". split; [reflexivity | now left]. }
    destruct (String.prefix (String b0 b) name) eqn:Hp.
    + pose proof Hp as Hp'. apply prefix_spec in Hp' as (tail & ->).
      rewrite removePathFromName_strips by discriminate.
      unfold ArcGis.removePathFromName.
      destruct (substringFrom_suffix (String.length (String b0 b) + 1) (String b0 b ++ tail))
        as (d & E & Hl).
      exists d. rewrite <- (substringFrom_app (String b0 b) tail 1).
      split; [exact E |]. right. split; [discriminate |]. split; [reflexivity | exact Hl].
    + exists "". rewrite removePathFromName_keeps by auto. split; [reflexivity | now left].
  - apply removePathFromName_keeps.
  - intros Hne. split.
    + rewrite <- (append_empty_r basePath) at 2.
      now rewrite removePathFromName_strips.
    + intros c tail. now rewrite removePathFromName_strips.
Qed.

End RemovePath.

Section ServiceChild.
Import Js Props.
Context {H : ArcGis.Host}.

Lemma assign_kind (k : string) (v : value) (g : ArcGis.group) :
  ArcGis.kind (ArcGis.assign k v g) = ArcGis.kind g.
Proof.
  unfold ArcGis.assign.
  repeat match goal with |- context [if ?b then _ else _] => destruct b end; reflexivity.
Qed.

Lemma assignAll_kind (l : obj value) (g : ArcGis.group) :
  ArcGis.kind (fold_left (fun g kv => ArcGis.assign (fst kv) (snd kv) g) l g)
  = ArcGis.kind g.
Proof.
  revert g; induction l as [|[k v] l IH]; intros g; simpl; [reflexivity |].
  now rewrite IH, assign_kind.
Qed.

Lemma assign_other (k : string) (v : value) (g : ArcGis.group) :
  (k <> "url" -> ArcGis.url (ArcGis.assign k v g) = ArcGis.url g)
  /\ (k <> "dataCustodian" ->
      ArcGis.dataCustodian (ArcGis.assign k v g) = ArcGis.dataCustodian g)
  /\ (k <> "blacklist" -> ArcGis.blacklist (ArcGis.assign k v g) = ArcGis.blacklist g).
Proof.
  unfold ArcGis.assign.
  destruct (String.eqb_spec k "name"); [subst; repeat split; reflexivity |].
  destruct (String.eqb_spec k "url"); [subst; repeat split; (reflexivity || contradiction) |].
  destruct (String.eqb_spec k "dataCustodian");
    [subst; repeat split; intros; (reflexivity || contradiction) |].
  destruct (String.eqb_spec k "blacklist");
    [subst; repeat split; intros; (reflexivity || contradiction) |].
  destruct (String.eqb k "itemProperties"); repeat split; reflexivity.
Qed.

Lemma assignAll_other (l : obj value) (g : ArcGis.group) :
  (~ In "url" (keys l) ->
   ArcGis.url (fold_left (fun g kv => ArcGis.assign (fst kv) (snd kv) g) l g)
   = ArcGis.url g)
  /\ (~ In "dataCustodian" (keys l) ->
      ArcGis.dataCustodian (fold_left (fun g kv => ArcGis.assign (fst kv) (snd kv) g) l g)
      = ArcGis.dataCustodian g)
  /\ (~ In "blacklist" (keys l) ->
      ArcGis.blacklist (fold_left (fun g kv => ArcGis.assign (fst kv) (snd kv) g) l g)
      = ArcGis.blacklist g).
Proof.
  revert g; induction l as [|[k v] l IH]; intros g; simpl; [auto |].
  destruct (IH (ArcGis.assign k v g)) as (Hu & Hd & Hb).
  destruct (assign_other k v g) as (Hu1 & Hd1 & Hb1).
  repeat split; intros Hn.
  - rewrite Hu by tauto. apply Hu1. intros ->. tauto.
  - rewrite Hd by tauto. apply Hd1. intros ->. tauto.
  - rewrite Hb by tauto. apply Hb1. intros ->. tauto.
Qed.

(** X9. For a service of type MapServer or FeatureServer,
    [createMapOrFeatureServer] adds one child at the end of the parent's
    items and returns it.  The child is a MapServer group exactly when
    the type is MapServer, whatever the parent's itemProperties say; its
    url is the parent's url extended by the local name and the type, and
    its dataCustodian and blacklist are the parent's, unless
    itemProperties carry a property of that name. *)
Theorem X9_service_child (parent : ArcGis.group) (basePath : string)
    (s : ArcGis.service) :
  serverType s = true ->
  exists child,
    ArcGis.createMapOrFeatureServer parent basePath s
    = (ArcGis.add child parent, Some child)
    /\ ArcGis.kind child
       = (if ArcGis.strictEqStr (ArcGis.svc_type s) (VStr "MapServer")
          then ArcGis.EsriMapServerGroup else ArcGis.EsriFeatureServerGroup)
    /\ (~ In "url" (keys (ArcGis.ownProperties (ArcGis.itemProperties parent))) ->
        ArcGis.url child
        = ArcGis.uriSegments (ArcGis.url parent)
            [ArcGis.removePathFromName basePath (ArcGis.svc_name s);
             toStr (ArcGis.svc_type s)])
    /\ (~ In "dataCustodian" (keys (ArcGis.ownProperties (ArcGis.itemProperties parent))) ->
        ArcGis.dataCustodian child = ArcGis.dataCustodian parent)
    /\ (~ In "blacklist" (keys (ArcGis.ownProperties (ArcGis.itemProperties parent))) ->
        ArcGis.blacklist child = ArcGis.blacklist parent).
Proof.
  intros Ht. unfold ArcGis.createMapOrFeatureServer.
  destruct (ArcGis.indexOf (ArcGis.svc_type s) ArcGis.validServerTypes) as [i|] eqn:Ei.
  2:{ apply indexOf_serverType in Ei. congruence. }
  eexists. split; [reflexivity |].
  set (group0 := {| ArcGis.kind := _ |}).
  assert ((if defined (ArcGis.itemProperties parent)
           then fold_left (fun g kv => ArcGis.assign (fst kv) (snd kv) g)
                  (ArcGis.ownProperties (ArcGis.itemProperties parent)) group0
           else group0)
          = fold_left (fun g kv => ArcGis.assign (fst kv) (snd kv) g)
              (ArcGis.ownProperties (ArcGis.itemProperties parent)) group0) as ->.
  { destruct (ArcGis.itemProperties parent); reflexivity. }
  destruct (assignAll_other (ArcGis.ownProperties (ArcGis.itemProperties parent)) group0)
    as (Hu & Hd & Hb).
  rewrite assignAll_kind. split; [| split; [exact Hu | split; [exact Hd | exact Hb]]].
  subst group0. cbn [ArcGis.kind].
  unfold ArcGis.validServerTypes in Ei. cbn [ArcGis.indexOf] in Ei.
  destruct (ArcGis.svc_type s) as [ | | b | z | t | f]; cbn [ArcGis.strictEqStr] in *;
    try discriminate.
  rewrite (String.eqb_sym t "MapServer").
  destruct (String.eqb "MapServer" t); [now injection Ei as <- |].
  destruct (String.eqb "FeatureServer" t); [now injection Ei as <- | discriminate].
Qed.

End ServiceChild.

(** ** sendFeedback *)

Section SendFeedback.
Import Js Async Props BuildShareLink Feedback.
Context {C : Cesium} {F : Catalog.MemberFilters} {H : Host} {N : Network}.

Lemma answered_outcome (json : value) (w : world) :
  (exists e, answered json w = (w, Throw e))
  \/ answered json w = (raiseError w, Normal false)
  \/ answered json w = (raiseEvent "Thank you for your feedback!" w, Normal true).
Proof.
  unfold answered.
  destruct (match json with VStr s => parse s | _ => Normal json end) as [j|e];
    [| left; eauto].
  destruct (negb (truthy j) || negb (truthy (resultOf j)) || isNotSuccess (resultOf j));
    auto.
Qed.

Lemma answered_true (json : value) (w : world) :
  (exists w', answered json w = (w', Normal true)) <-> success json.
Proof.
  unfold answered, success. split.
  - intros (w' & E).
    destruct (match json with VStr s => parse s | _ => Normal json end) as [j|e] eqn:Ej;
      [| discriminate].
    destruct (negb (truthy j) || negb (truthy (resultOf j)) || isNotSuccess (resultOf j))
      eqn:Eb; [discriminate |].
    apply orb_false_iff in Eb as [Eb Hs]. apply orb_false_iff in Eb as [_ Hr].
    destruct j as [ | | b | z | s | fields]; cbn [resultOf truthy negb] in *; try discriminate.
    exists fields. split.
    + unfold read in Hs. destruct (get fields "result") as [[ | | b | z | s | f]|];
        cbn [isNotSuccess] in Hs; try discriminate.
      apply negb_false_iff, String.eqb_eq in Hs. now subst s.
    + destruct json; try (injection Ej as ->; now left). right. eauto.
  - intros (fields & Hr & [-> | (text & -> & Hp)]).
    + cbn [truthy negb orb resultOf]. unfold read. rewrite Hr. cbn. eauto.
    + rewrite Hp. cbn [truthy negb orb resultOf]. unfold read. rewrite Hr. cbn. eauto.
Qed.

(** What the chain of callbacks does, by the way the share link promise
    settles. *)
Lemma chain_outcome (o : options) (t : feedbackTerria) (p : promise string) (w : world) :
  let r1 := thenP p (post o t) w in
  let r2 := thenS (snd r1) answered (fst r1) in
  let r3 := otherwiseS (snd r2) failed (fst r2) in
  exists b reqs,
    snd r3 = Fulfilled b
    /\ raised (fst r3)
       = raised w ++ [if b then "Thank you for your feedback!"
                      else "Unable to send feedback"]
    /\ posted (fst r3) = posted w ++ reqs
    /\ match p with
       | Rejected _ => reqs = [] /\ b = false
       | Fulfilled link =>
           reqs = [ {| r_url := feedbackUrl t; r_method := "POST";
                       r_data := {| f_title := o_title o; f_name := o_name o;
                                    f_email := o_email o; f_shareLink := link;
                                    f_comment := o_comment o |} |} ]
           /\ (b = true <->
               exists answer,
                 loadWithXhr
                   {| r_url := feedbackUrl t; r_method := "POST";
                      r_data := {| f_title := o_title o; f_name := o_name o;
                                   f_email := o_email o; f_shareLink := link;
                                   f_comment := o_comment o |} |}
                 = Fulfilled answer
                 /\ success answer)
       end.
Proof.
  destruct p as [link | e]; cbn [thenP post fst snd].
  - set (r := {| r_url := feedbackUrl t |}).
    set (w0 := {| raised := raised w; posted := posted w ++ [r] |}).
    destruct (loadWithXhr r) as [answer | e] eqn:El; cbn [thenS].
    + pose proof (answered_true answer w0) as Ht.
      destruct (answered_outcome answer w0) as [(e & E) | [E | E]]; rewrite E; cbn.
      * exists false, [r]. repeat split; try discriminate.
        intros (a & Ea & Hs). injection Ea as <-.
        apply Ht in Hs as (w' & Hs). congruence.
      * exists false, [r]. repeat split; try discriminate.
        intros (a & Ea & Hs). injection Ea as <-.
        apply Ht in Hs as (w' & Hs). congruence.
      * exists true, [r]. repeat split; try reflexivity.
        intros _. exists answer. split; [reflexivity |].
        apply Ht. eauto.
    + cbn. exists false, [r]. repeat split; try discriminate.
      intros (a & Ea & _). discriminate.
  - cbn. exists false, []. rewrite app_nil_r. repeat split.
Qed.

Lemma sendFeedback_promised (o : options) (t : feedbackTerria) (p : promise string)
    (w : world) :
  o_terria o = Some t -> defined (feedbackUrl t) = true ->
  shareLinkPromise (truthy (sendShareURL o)) (instance t) = Normal (Promised p) ->
  exists w' b reqs,
    sendFeedback (Some o) w = (w', Normal (Some (Fulfilled b)))
    /\ raised w'
       = raised w ++ [if b then "Thank you for your feedback!"
                      else "Unable to send feedback"]
    /\ posted w' = posted w ++ reqs
    /\ match p with
       | Rejected _ => reqs = [] /\ b = false
       | Fulfilled link =>
           reqs = [requestFor o t link]
           /\ (b = true <->
               exists answer,
                 loadWithXhr (requestFor o t link) = Fulfilled answer /\ success answer)
       end.
Proof.
  intros Ht Hu Hp. unfold sendFeedback. rewrite Ht, Hu, Hp. cbn [negb].
  destruct (chain_outcome o t p w) as (b & reqs & E3 & Hr & Hq & Hm).
  cbv zeta in E3, Hr, Hq.
  destruct (thenP p (post o t) w) as [w1 p1]. cbn [fst snd] in *.
  destruct (thenS p1 answered w1) as [w2 p2]. cbn [fst snd] in *.
  destruct (otherwiseS p2 failed w2) as [w3 p3]. cbn [fst snd] in *. subst p3.
  exists w3, b, reqs. auto.
Qed.

(** X10. Whenever [sendFeedback] returns, exactly one TerriaError has been
    raised on [terria.error] and at most one request has been made.  When
    it returns undefined (no feedback url is configured) the error is
    "Unable to send feedback" and no request was made.  When it returns a
    promise, the promise is fulfilled, never rejected: with true after
    "Thank you for your feedback!", with false after "Unable to send
    feedback". *)
Theorem X10_feedback_is_reported_once
    (opts : option options) (w w' : world) (returned : option (promise bool)) :
  sendFeedback opts w = (w', Normal returned) ->
  exists title reqs,
    raised w' = raised w ++ [title]
    /\ posted w' = posted w ++ reqs
    /\ length reqs <= 1
    /\ match returned with
       | None => title = "Unable to send feedback" /\ reqs = []
       | Some p =>
           exists b, p = Fulfilled b
             /\ title = (if b then "Thank you for your feedback!"
                         else "Unable to send feedback")
       end.
Proof.
  destruct opts as [o|]; [| discriminate]. unfold sendFeedback at 1.
  destruct (o_terria o) as [t|] eqn:Ht; [| discriminate].
  destruct (defined (feedbackUrl t)) eqn:Hu; cbn [negb].
  - destruct (shareLinkPromise (truthy (sendShareURL o)) (instance t))
      as [[s | p]|e] eqn:Hp; try discriminate.
    destruct (@sendFeedback_promised o t p w Ht Hu Hp)
      as (w1 & b & reqs & E & Hr & Hq & Hm).
    unfold sendFeedback in E. rewrite Ht, Hu, Hp in E. cbn [negb] in E. rewrite E.
    intros E'. injection E' as <- <-.
    exists (if b then "Thank you for your feedback!" else "Unable to send feedback"), reqs.
    split; [exact Hr |].
    split; [exact Hq |]. split; [| eauto].
    destruct p; destruct Hm as [-> _]; cbn; lia.
  - intros E. injection E as <- <-. exists "Unable to send feedback", [].
    cbn. rewrite app_nil_r. auto.
Qed.

(** X11. When [sendFeedback] throws, it has raised no error on
    [terria.error] and made no request.  It throws the DeveloperError
    exactly when the options, or their terria, are undefined. *)
Theorem X11_feedback_failures_are_silent (opts : option options) (w : world) :
  (forall w' e, sendFeedback opts w = (w', Throw e) -> w' = w)
  /\ ((exists what, sendFeedback opts w = (w, Throw (DeveloperError what)))
      <-> opts = None \/ exists o, opts = Some o /\ o_terria o = None).
Proof.
  split.
  - intros w' e. destruct opts as [o|]; cbn [sendFeedback]; [| congruence].
    destruct (o_terria o) as [t|] eqn:Ht; [| congruence].
    destruct (defined (feedbackUrl t)) eqn:Hu; cbn [negb]; [| discriminate].
    destruct (shareLinkPromise (truthy (sendShareURL o)) (instance t))
      as [[s | p]|e'] eqn:Hp; try congruence.
    destruct (@sendFeedback_promised o t p w Ht Hu Hp) as (w1 & b & reqs & E & _).
    unfold sendFeedback in E. rewrite Ht, Hu, Hp in E. cbn [negb] in E. rewrite E.
    discriminate.
  - split.
    + intros (what & E). destruct opts as [o|]; [| now left]. right. exists o.
      split; [reflexivity |]. cbn [sendFeedback] in E.
      destruct (o_terria o) as [t|] eqn:Ht; [| reflexivity]. exfalso.
      destruct (defined (feedbackUrl t)) eqn:Hu; cbn [negb] in E; [| discriminate].
      destruct (shareLinkPromise_normal (truthy (sendShareURL o)) (instance t))
        as (link & Hp).
      rewrite Hp in E. destruct link as [s | p]; [discriminate |].
      destruct (@sendFeedback_promised o t p w Ht Hu Hp) as (w1 & b & reqs & E' & _).
      unfold sendFeedback in E'. rewrite Ht, Hu, Hp in E'. cbn [negb] in E'.
      rewrite E' in E. discriminate.
    + intros [-> | (o & -> & Ho)]; cbn [sendFeedback]; [eauto |]. rewrite Ho. eauto.
Qed.

(** X12. With a feedback url configured, [sendShareURL] set and no usable
    short-link collaborator, [sendFeedback] throws a TypeError: the full
    link of [buildShareLink] is a string, and [then] is called on it.
    No request is made and no error is raised on [terria.error]. *)
Theorem X12_full_link_is_never_sent (o : options) (t : feedbackTerria) (w : world) :
  o_terria o = Some t ->
  defined (feedbackUrl t) = true ->
  truthy (sendShareURL o) = true ->
  canShorten (instance t) = false ->
  exists what, sendFeedback (Some o) w = (w, Throw (TypeError what)).
Proof.
  intros Ht Hu Hs Hc. unfold sendFeedback, shareLinkPromise.
  rewrite Ht, Hu, Hs, Hc. cbn [negb]. eauto.
Qed.

(** X13. With a feedback url configured and [sendShareURL] not set, one
    request is made: a POST to the feedback url with the title, name,
    email and comment of the options and the share link "Not shared".
    The promise is fulfilled with true exactly when the request is
    answered by an object whose result is SUCCESS, or by the JSON text of
    one. *)
Theorem X13_feedback_without_share_link (o : options) (t : feedbackTerria) (w : world) :
  o_terria o = Some t ->
  defined (feedbackUrl t) = true ->
  truthy (sendShareURL o) = false ->
  exists w' b,
    sendFeedback (Some o) w = (w', Normal (Some (Fulfilled b)))
    /\ posted w' = posted w ++ [requestFor o t "Not shared"]
    /\ (b = true <->
        exists answer,
          loadWithXhr (requestFor o t "Not shared") = Fulfilled answer
          /\ success answer).
Proof.
  intros Ht Hu Hs.
  destruct (@sendFeedback_promised o t (Fulfilled "Not shared") w Ht Hu)
    as (w' & b & reqs & E & _ & Hq & -> & Hb).
  { unfold shareLinkPromise. now rewrite Hs. }
  exists w', b. auto.
Qed.

(** X14. With a feedback url configured, [sendShareURL] set and
    [canShorten] true: when the short link fails, no request is made, the
    error "Unable to send feedback" is raised and the promise is
    fulfilled with false; when it succeeds, the one request carries the
    link of the token form. *)
Theorem X14_feedback_with_short_link (o : options) (t : feedbackTerria) (w : world) :
  o_terria o = Some t ->
  defined (feedbackUrl t) = true ->
  truthy (sendShareURL o) = true ->
  canShorten (instance t) = true ->
  exists p,
    buildShortShareLink (instance t) = Normal p
    /\ match p with
       | Rejected _ =>
           sendFeedback (Some o) w = (raiseError w, Normal (Some (Fulfilled false)))
       | Fulfilled link =>
           (exists token, link = urlFromToken token)
           /\ exists w' b,
                sendFeedback (Some o) w = (w', Normal (Some (Fulfilled b)))
                /\ posted w' = posted w ++ [requestFor o t link]
       end.
Proof.
  intros Ht Hu Hs Hc.
  destruct (shareLinkPromise_normal true (instance t)) as (link & Hp).
  pose proof Hp as Hp'. unfold shareLinkPromise in Hp. rewrite Hc in Hp.
  destruct (buildShortShareLink (instance t)) as [p|e] eqn:Hb; [| discriminate].
  injection Hp as <-. exists p. split; [reflexivity |].
  rewrite <- Hs in Hp'.
  destruct (@sendFeedback_promised o t p w Ht Hu Hp')
    as (w' & b & reqs & E & Hr & Hq & Hm).
  destruct p as [link | e].
  - split.
    + unfold buildShortShareLink in Hb.
      destruct (t_shareDataService (instance t)) as [s|].
      * injection Hb as Hb. destruct (getShareToken s _) as [token|]; cbn [then_] in Hb;
          [injection Hb as <-; now exists token | discriminate].
      * destruct (t_urlShortener (instance t)) as [u|]; [| discriminate].
        injection Hb as Hb. destruct (shorten u _) as [token|]; cbn [then_] in Hb;
          [injection Hb as <-; now exists token | discriminate].
    + destruct Hm as [-> _]. exists w', b. auto.
  - destruct Hm as [-> ->]. rewrite E. f_equal.
    destruct w' as [ra po], w as [ra0 po0]. cbn in *. rewrite app_nil_r in Hq.
    unfold raiseError, raiseEvent. cbn. now rewrite Hr, Hq.
Qed.

End SendFeedback.

(** ** Chart *)

Section ChartData.
Import Js Props Chart.
Variable points : Type.
Context {H : Host points}.

(** X15. [getChartDataPromise] returns undefined only when it is given
    neither data nor a url.  The promise it returns is always fulfilled:
    with the data given; or, for a url, with the series made from the
    table that was loaded, and with no series at all when the load fails
    or the series cannot be made. *)
Theorem X15_chart_data_promise_never_rejects
    (p : props points) (data : option (list (chartData points))) (url : value)
    (catalogItem : option (catalogItem points)) :
  match getChartDataPromise p data url catalogItem with
  | Some promise =>
      exists d, promise = Fulfilled d
        /\ (forall given, data = Some given -> d = given)
        /\ (data = None ->
            match loadIntoTableStructure catalogItem url with
            | Fulfilled table =>
                match chartDataArrayFromTableStructure p table with
                | Normal series => d = series
                | Throw _ => d = []
                end
            | Rejected _ => d = []
            end)
  | None => data = None /\ defined url = false
  end.
Proof.
  unfold getChartDataPromise. destruct data as [given|].
  - exists given. split; [reflexivity |]. split; [now intros g [= ->] | discriminate].
  - destruct (defined url); [| now split].
    destruct (loadIntoTableStructure catalogItem url) as [table|e]; cbn [then_ otherwise].
    + destruct (chartDataArrayFromTableStructure p table) as [series|e]; cbn.
      * exists series. repeat split; discriminate.
      * exists []. repeat split; discriminate.
    + exists []. repeat split; discriminate.
Qed.

Lemma chartDataFrom_spec (ys : list (option (column))) (colors : option (list value))
    (pointArrays : list points) :
  forall index l,
    chartDataFrom ys colors index pointArrays = Normal l ->
    length l = length pointArrays
    /\ forall i d, nth_error l i = Some d ->
         cd_id d = index + i
         /\ cd_color d = colorOf colors (index + i)
         /\ nth_error pointArrays i = Some (cd_points d)
         /\ exists y, nth_error ys (index + i) = Some (Some y)
              /\ cd_name d = col_name y /\ cd_units d = col_units y.
Proof.
  induction pointArrays as [|pts rest IH]; intros index l E; cbn [chartDataFrom] in E.
  - injection E as <-. split; [reflexivity |]. intros [|i] d; discriminate.
  - destruct (nth_error ys index) as [[y|]|] eqn:Ey; try discriminate.
    destruct (chartDataFrom ys colors (S index) rest) as [l'|] eqn:El; [| discriminate].
    injection E as <-. destruct (IH _ _ El) as [Hlen Hnth]. split; [cbn; now rewrite Hlen |].
    intros [|i] d Hd; cbn [nth_error] in *.
    + injection Hd as <-. cbn. rewrite Nat.add_0_r. repeat split. now exists y.
    + destruct (Hnth i d Hd) as (Hi & Hc & Hp & y' & Hy & Hn & Hu).
      replace (index + S i) with (S index + i) by lia. repeat split; auto. now exists y'.
Qed.

Lemma chartDataFrom_throws (ys : list (option column)) (colors : option (list value))
    (pointArrays : list points) :
  forall index e,
    chartDataFrom ys colors index pointArrays = Throw e ->
    exists what, e = TypeError what.
Proof.
  induction pointArrays as [|pts rest IH]; intros index e; cbn [chartDataFrom];
    [discriminate |].
  destruct (nth_error ys index) as [[y|]|]; try (intros [= <-]; eauto).
  destruct (chartDataFrom ys colors (S index) rest) eqn:Er; [discriminate |].
  intros [= <-]. now apply (IH (S index)).
Qed.

(** X16. When [chartDataArrayFromTableStructure] returns, it returns one
    series per array of points, in order: the series at index i has the
    id i, the points at i, the name and the units of the y column at i,
    and the colour at i modulo the number of colours (undefined when no
    colours are given). *)
Theorem X16_chart_series (p : props points) (table : tableStructure points)
    (series : list (chartData points)) :
  chartDataArrayFromTableStructure p table = Normal series ->
  exists x ys,
    x = getColumnWithNameIdOrIndex table (if truthy (xColumn p) then xColumn p else VNum 0)
    /\ yColumnsOf p table x = Normal ys
    /\ length series = length (toPointArrays table x ys)
    /\ (forall i d, nth_error series i = Some d ->
        cd_id d = i
        /\ nth_error (toPointArrays table x ys) i = Some (cd_points d)
        /\ (exists y, nth_error ys i = Some (Some y)
              /\ cd_name d = col_name y /\ cd_units d = col_units y)
        /\ cd_color d
           = match colors p with
             | Some (c :: cs) => nth (i mod length (c :: cs)) (c :: cs) VUndefined
             | _ => VUndefined
             end).
Proof.
  unfold chartDataArrayFromTableStructure.
  set (x := getColumnWithNameIdOrIndex table _).
  destruct (yColumnsOf p table x) as [ys|e] eqn:Ey; [| discriminate].
  intros E. exists x, ys. split; [reflexivity |]. split; [exact Ey |].
  destruct (chartDataFrom_spec _ _ _ _ E) as [Hlen Hnth]. split; [exact Hlen |].
  intros i d Hd. destruct (Hnth i d Hd) as (Hi & Hc & Hp & Hy).
  cbn [Nat.add] in *. repeat split; auto.
  rewrite Hc. unfold colorOf. destruct (colors p) as [[|c cs]|]; reflexivity.
Qed.

(** X17. Without [props.yColumns], the series are made from one y column:
    the first column of the table that is scalar and is not the x
    column.  [chartDataArrayFromTableStructure] throws the DeveloperError
    "No y-column available." exactly when the table has no such
    column. *)
Theorem X17_fallback_y_column (p : props points) (table : tableStructure points) :
  yColumns p = None ->
  (chartDataArrayFromTableStructure p table
   = Throw (DeveloperError "No y-column available.")
   <-> forall c, In c (columns table) ->
         differs c (getColumnWithNameIdOrIndex table
                      (if truthy (xColumn p) then xColumn p else VNum 0)) = false
         \/ isScalar c = false)
  /\ (forall before y after,
      columns table = before ++ y :: after ->
      differs y (getColumnWithNameIdOrIndex table
                   (if truthy (xColumn p) then xColumn p else VNum 0)) = true ->
      isScalar y = true ->
      (forall c, In c before ->
         differs c (getColumnWithNameIdOrIndex table
                      (if truthy (xColumn p) then xColumn p else VNum 0)) = false
         \/ isScalar c = false) ->
      yColumnsOf p table
        (getColumnWithNameIdOrIndex table
           (if truthy (xColumn p) then xColumn p else VNum 0))
      = Normal [Some y]).
Proof.
  intros Hy. unfold chartDataArrayFromTableStructure, yColumnsOf. rewrite Hy.
  set (x := getColumnWithNameIdOrIndex table _).
  set (f := fun column : column => differs column x && isScalar column).
  split.
  - destruct (filter f (columns table)) as [|y l] eqn:Ef.
    + split; [| reflexivity]. intros _ c Hin.
      assert (f c = false) as Hc.
      { destruct (f c) eqn:Hc; [| reflexivity].
        assert (In c (filter f (columns table))) as Hin' by (apply filter_In; auto).
        rewrite Ef in Hin'. contradiction. }
      unfold f in Hc. now apply andb_false_iff in Hc.
    + split.
      * intros E. exfalso.
        apply chartDataFrom_throws in E as (what & E). discriminate.
      * intros Hall. exfalso.
        assert (In y (filter f (columns table))) as Hin by (rewrite Ef; now left).
        apply filter_In in Hin as [Hin Hf]. unfold f in Hf.
        apply andb_true_iff in Hf as [Hd Hs].
        destruct (Hall y Hin); congruence.
  - intros before y after Ec Hd Hs Hb. rewrite Ec, filter_app.
    assert (filter f before = []) as ->.
    { clear Ec. induction before as [|c before IH]; [reflexivity |].
      cbn [filter]. assert (f c = false) as ->.
      { unfold f. apply andb_false_iff. apply Hb. now left. }
      apply IH. intros c' Hin. apply Hb. now right. }
    cbn [app filter]. unfold f at 1. rewrite Hd, Hs. reflexivity.
Qed.

Lemma getChartParameters_id (p : props points) (random : string)
    (tooltipId : option string) :
  fst (getChartParameters p random tooltipId)
  = if stylingIs p "feature-info" then tooltipId
    else match tooltipId with
         | Some i => Some i
         | None => Some ("d3-tooltip-" ++ random)%string
         end.
Proof.
  unfold getChartParameters.
  destruct (match data p with Some d => Normal (Some d) | None => _ end);
    cbn [fst]; destruct (stylingIs p "feature-info"); reflexivity.
Qed.

(** X18. The parameters [getChartParameters] returns, by [props.styling]:
    the chart is mini exactly for feature-info; there are tooltip
    settings exactly when the styling is not feature-info and no
    highlightX is given; title settings exactly when the styling is
    neither feature-info nor histogram; a grid exactly when it is not
    feature-info; the margin is all zeros for histogram, undefined for
    feature-info and 0, 20, 20, 0 otherwise; the height defaults to 100;
    data given as a prop are the data of the chart. *)
Theorem X18_chart_settings_by_styling (p : props points) (random : string)
    (tooltipId : option string) (parameters : chartParameters points) :
  snd (getChartParameters p random tooltipId) = Normal parameters ->
  cp_mini parameters = stylingIs p "feature-info"
  /\ (cp_tooltipSettings parameters <> None
      <-> stylingIs p "feature-info" = false /\ defined (highlightX p) = false)
  /\ (cp_titleSettings parameters <> None
      <-> stylingIs p "feature-info" = false /\ stylingIs p "histogram" = false)
  /\ (cp_grid parameters <> None <-> stylingIs p "feature-info" = false)
  /\ cp_margin parameters
     = (if stylingIs p "histogram"
        then Some {| top := 0; right := 0; bottom := 0; left := 0 |}
        else if stylingIs p "feature-info" then None
        else Some {| top := 0; right := 20; bottom := 20; left := 0 |})
  /\ cp_height parameters = match height p with Some h => h | None => 100%Z end
  /\ (forall d, data p = Some d -> cp_data parameters = Some d).
Proof.
  unfold getChartParameters.
  destruct (match data p with Some d => Normal (Some d) | None => _ end)
    as [chartData|e] eqn:Ed; cbn [snd]; [| discriminate].
  intros [= <-]. cbn.
  split; [reflexivity |].
  destruct (stylingIs p "feature-info"), (stylingIs p "histogram"),
    (defined (highlightX p)), tooltipId; cbn;
    repeat split; try discriminate; try tauto; try congruence;
    try (intros []; discriminate);
    try (intros d Hd; rewrite Hd in Ed; now injection Ed as <-).
Qed.

(** X19. A component keeps its tooltip id: once [_tooltipId] is set, no
    run of calls of [getChartParameters] changes it, whatever the props
    and the random numbers; a call with the feature-info styling sets
    none; and the tooltip settings a call returns carry the id the
    component holds from then on. *)
Theorem X19_tooltip_id_is_kept (calls : list (props points * string))
    (p : props points) (random : string) (tooltipId : option string) :
  (forall i, tooltipId = Some i -> tooltipIdAfter calls tooltipId = Some i)
  /\ (stylingIs p "feature-info" = true ->
      fst (getChartParameters p random tooltipId) = tooltipId)
  /\ (forall parameters tooltip,
      snd (getChartParameters p random tooltipId) = Normal parameters ->
      cp_tooltipSettings parameters = Some tooltip ->
      fst (getChartParameters p random tooltipId) = Some (tt_id tooltip)
      /\ tooltipIdAfter calls (Some (tt_id tooltip)) = Some (tt_id tooltip)).
Proof.
  assert (forall (cs : list (props points * string)) i,
            tooltipIdAfter cs (Some i) = Some i) as Hkept.
  { unfold tooltipIdAfter. induction cs as [|[p' r'] cs IH]; intros i; [reflexivity |].
    cbn [fold_left fst snd]. rewrite getChartParameters_id.
    destruct (stylingIs p' "feature-info"); apply IH. }
  split; [intros i ->; apply Hkept |]. split.
  - intros Hs. now rewrite getChartParameters_id, Hs.
  - intros parameters tooltip E Ht. split; [| apply Hkept].
    rewrite getChartParameters_id. unfold getChartParameters in E.
    destruct (match data p with Some d => Normal (Some d) | None => _ end)
      as [chartData|e]; cbn [snd] in E; [| discriminate].
    injection E as <-. cbn [cp_tooltipSettings] in Ht.
    destruct (defined (highlightX p)); [discriminate |].
    destruct (stylingIs p "feature-info"); cbn [negb] in Ht; [discriminate |].
    destruct tooltipId; cbn in Ht; now injection Ht as <-.
Qed.

(** X20. A chart mounted with data and then unmounted leaves the window
    as it was: [componentDidMount] creates the chart and registers one
    new resize listener, [componentWillUnmount] removes that listener,
    destroys the chart with the same parameters and clears [_element]
    and [_promise]. *)
Theorem X20_chart_mount_then_unmount (p : props points) (random : string)
    (this : component) (w : page points) (d : list (chartData points)) :
  data p = Some d ->
  ~ In (closures w) (listeners w) ->
  exists mounted w1 unmounted w2 parameters,
    componentDidMount p random this w = (mounted, w1, Normal tt)
    /\ listeners w1 = listeners w ++ [closures w]
    /\ _promise mounted = Some (Fulfilled (closures w))
    /\ componentWillUnmount p random mounted w1 = (unmounted, w2, Normal tt)
    /\ listeners w2 = listeners w
    /\ calls w2 = calls w ++ [Create parameters; Destroy parameters]
    /\ cp_data parameters = Some d
    /\ _element unmounted = false
    /\ _promise unmounted = None.
Proof.
  intros Hd Hfresh.
  assert (exists ps,
            getChartParameters p random (_tooltipId this)
            = (fst (getChartParameters p random (_tooltipId this)), Normal ps)
            /\ cp_data ps = Some d
            /\ getChartParameters p random
                 (fst (getChartParameters p random (_tooltipId this)))
               = (fst (getChartParameters p random (_tooltipId this)), Normal ps))
    as (ps & E & Hdata & Eagain).
  { unfold getChartParameters. rewrite Hd. cbn [fst snd].
    eexists. split; [reflexivity |]. split; [reflexivity |].
    destruct (stylingIs p "feature-info"); cbn [negb]; [reflexivity |].
    destruct (_tooltipId this); reflexivity. }
  unfold componentDidMount. rewrite E. unfold getChartDataPromise. rewrite Hdata.
  eexists _, _, _, _, ps. split; [reflexivity |].
  cbn [listeners calls called closures _promise _element].
  split; [reflexivity |]. split; [reflexivity |]. split.
  { unfold componentWillUnmount.
    cbn [_promise _tooltipId listeners closures calls called]. rewrite Eagain.
    reflexivity. }
  cbn [listeners calls called closures _promise _element].
  split.
  - rewrite remove_app. cbn [List.remove].
    destruct (Nat.eq_dec (closures w) (closures w)) as [_|N]; [| now elim N].
    rewrite app_nil_r. now apply notin_remove.
  - split; [| now repeat split]. rewrite <- app_assoc. cbn [app]. do 3 f_equal.
    destruct ps. cbn in *. now subst.
Qed.

(** X21. A chart with no data, no table structure and no url has no
    promise to wait for: [componentDidMount] throws a TypeError and
    neither draws nor registers a listener; [componentDidUpdate] throws
    it too when the update counter is positive and there is no poll url,
    and does nothing when the counter is not positive. *)
Theorem X21_chart_without_a_source (p : props points) (random : string)
    (this : component) (w : page points) :
  data p = None -> p_tableStructure p = None -> defined (url p) = false ->
  (exists mounted what,
     componentDidMount p random this w = (mounted, w, Throw (TypeError what)))
  /\ (positive (updateCounter p) = true -> truthy (pollUrl p) = false ->
      exists updated what,
        componentDidUpdate p random this w = (updated, w, Throw (TypeError what)))
  /\ (positive (updateCounter p) = false ->
      exists updated, componentDidUpdate p random this w = (updated, w, Normal tt)).
Proof.
  intros Hd Ht Hu.
  assert (exists ps, getChartParameters p random (_tooltipId this)
                     = (fst (getChartParameters p random (_tooltipId this)), Normal ps)
                     /\ cp_data ps = None) as (ps & E & Hdata).
  { unfold getChartParameters. rewrite Hd, Ht. cbn [fst]. eexists. split; reflexivity. }
  split; [| split].
  - unfold componentDidMount. rewrite E, Hdata. unfold getChartDataPromise. rewrite Hu.
    eauto.
  - intros Hc Hp. unfold componentDidUpdate. rewrite E, Hdata, Hc, Hp.
    unfold getChartDataPromise. rewrite Hu. eauto.
  - intros Hc. unfold componentDidUpdate. rewrite E, Hdata, Hc. eauto.
Qed.

End ChartData.

(** ** TerriaJsonCatalogFunction *)

Section Invoke.
Import Js Props TerriaJson.
Context {H : Host}.

Lemma addParameter_eq (q : obj value) (p : functionParameter) :
  addParameter q p = if hasValue p then set (p_id p) (formatForService p) q else q.
Proof.
  unfold addParameter, hasValue.
  destruct (defined (p_value p)), (isEmptyString (p_value p)); reflexivity.
Qed.

Lemma queryParameters_get (l : list functionParameter) (k : string) :
  forall acc,
    (exists before p after,
       l = before ++ p :: after /\ p_id p = k /\ hasValue p = true
       /\ (forall q, In q after -> p_id q = k -> hasValue q = false)
       /\ get (fold_left addParameter l acc) k = Some (formatForService p))
    \/ ((forall q, In q l -> p_id q = k -> hasValue q = false)
        /\ get (fold_left addParameter l acc) k = get acc k).
Proof.
  induction l as [|p l IH]; intros acc; cbn [fold_left].
  - right. split; [intros q [] | reflexivity].
  - destruct (IH (addParameter acc p)) as [(b & p' & a & -> & Hk & Hv & Ha & Hg) | (Hno & Hg)].
    + left. exists (p :: b), p', a. auto.
    + rewrite Hg, addParameter_eq. clear Hg.
      destruct (hasValue p) eqn:Hp.
      * destruct (String.eqb_spec (p_id p) k) as [E | N0].
        -- left. exists [], p, l. repeat split; auto.
           rewrite E. apply get_set_eq.
        -- right. split.
           ++ intros q [<- | Hin] Hq; [contradiction | now apply Hno].
           ++ apply get_set_ne. congruence.
      * right. split; [| reflexivity].
        intros q [<- | Hin] Hq; [exact Hp | now apply Hno].
Qed.

(** X22. The query [invoke] sends holds, under the id of a parameter, what
    [formatForService] gives for the last parameter of that id that has a
    value; an id all of whose parameters lack a value is not in the
    query.  A parameter has a value unless its value is undefined, null
    or the empty string. *)
Theorem X22_query_parameters (l : list functionParameter) (k : string) :
  (forall v, get (queryParametersOf l) k = Some v ->
     exists before p after,
       l = before ++ p :: after /\ p_id p = k /\ hasValue p = true
       /\ (forall q, In q after -> p_id q = k -> hasValue q = false)
       /\ v = formatForService p)
  /\ (get (queryParametersOf l) k = None
      <-> forall p, In p l -> p_id p = k -> hasValue p = false)
  /\ (forall p, hasValue p = true
      <-> p_value p <> VUndefined /\ p_value p <> VNull /\ p_value p <> VStr "").
Proof.
  unfold queryParametersOf.
  destruct (queryParameters_get l k [])
    as [(b & p & a & El & Hk & Hv & Ha & Hg) | (Hno & Hg)].
  - split; [| split].
    + intros v Ev. rewrite Hg in Ev. injection Ev as <-. exists b, p, a. auto.
    + rewrite Hg. split; [discriminate |]. intros Hno.
      rewrite (Hno p) in Hv; [discriminate | | exact Hk].
      rewrite El. apply in_or_app. right. now left.
    + intros q. unfold hasValue.
      destruct (p_value q) as [ | | b0 | z | s | f]; cbn;
        try (split; [intros; repeat split; discriminate | reflexivity || tauto]);
        try (split; [discriminate | intros (? & ? & ?); congruence]).
      destruct (String.eqb_spec s ""); cbn.
      * split; [discriminate | intros (_ & _ & N0); subst; now elim N0].
      * split; [intros _; repeat split; congruence | reflexivity].
  - split; [| split].
    + intros v Ev. rewrite Hg in Ev. discriminate.
    + rewrite Hg. split; [intros _; exact Hno | reflexivity].
    + intros q. unfold hasValue.
      destruct (p_value q) as [ | | b0 | z | s | f]; cbn;
        try (split; [intros; repeat split; discriminate | reflexivity || tauto]);
        try (split; [discriminate | intros (? & ? & ?); congruence]).
      destruct (String.eqb_spec s ""); cbn.
      * split; [discriminate | intros (_ & _ & N0); subst; now elim N0].
      * split; [intros _; repeat split; congruence | reflexivity].
Qed.

(** X23. A result item that is an object is enabled unless it says
    otherwise: [isEnabled] becomes true only when it was undefined or
    null; [name] and [description] are kept when truthy and are otherwise
    those of the pending item; every other property is left alone.  An
    item that is null or a primitive value makes the loop throw a
    TypeError. *)
Theorem X23_result_item_defaults (asyncResult : pendingItem) (fields : obj json) :
  (exists fields',
     prepare asyncResult (JObj fields) = Normal (JObj fields')
     /\ get fields' "isEnabled"
        = (if definedJ (get fields "isEnabled") then get fields "isEnabled"
           else Some (JBool true))
     /\ get fields' "name"
        = (if truthyJ (get fields "name") then get fields "name"
           else Some (JStr (ar_name asyncResult)))
     /\ get fields' "description"
        = (if truthyJ (get fields "description") then get fields "description"
           else Some (JStr (ar_description asyncResult)))
     /\ (forall k, k <> "isEnabled" -> k <> "name" -> k <> "description" ->
                   get fields' k = get fields k))
  /\ (forall item,
      (forall f, item <> JObj f) -> (forall l n, item <> JArr l n) ->
      exists what, prepare asyncResult item = Throw (TypeError what)).
Proof.
  split.
  - unfold prepare. cbn [prop].
    set (f1 := if negb (definedJ (get fields "isEnabled"))
               then set "isEnabled" (JBool true) fields else fields).
    assert ((if negb (definedJ (get fields "isEnabled"))
             then assign "isEnabled" (JBool true) (JObj fields)
             else Normal (JObj fields)) = Normal (JObj f1)) as ->.
    { subst f1. now destruct (definedJ (get fields "isEnabled")). }
    cbn [prop assign].
    set (n := match get f1 "name" with
              | Some n => if truthyJ (get f1 "name") then n else JStr (ar_name asyncResult)
              | None => JStr (ar_name asyncResult)
              end).
    set (f2 := set "name" n f1).
    set (d := match get f2 "description" with
              | Some d' => if truthyJ (get f2 "description") then d'
                           else JStr (ar_description asyncResult)
              | None => JStr (ar_description asyncResult)
              end).
    exists (set "description" d f2). split; [reflexivity |].
    assert (get f1 "isEnabled"
            = if definedJ (get fields "isEnabled") then get fields "isEnabled"
              else Some (JBool true)) as H1.
    { subst f1. destruct (definedJ (get fields "isEnabled")); cbn [negb];
        [reflexivity | apply get_set_eq]. }
    assert (forall k, k <> "isEnabled" -> get f1 k = get fields k) as H1'.
    { intros k Hk. subst f1. destruct (definedJ (get fields "isEnabled")); cbn [negb];
        [reflexivity | now apply get_set_ne]. }
    assert (get f2 "description" = get fields "description") as Hd.
    { subst f2. rewrite get_set_ne by discriminate. apply H1'. discriminate. }
    repeat split.
    + rewrite get_set_ne by discriminate. subst f2. rewrite get_set_ne by discriminate.
      exact H1.
    + rewrite get_set_ne by discriminate. subst f2. rewrite get_set_eq. subst n.
      rewrite H1' by discriminate.
      destruct (get fields "name") as [j|]; [| reflexivity].
      destruct (truthyJ (Some j)); reflexivity.
    + rewrite get_set_eq. subst d. rewrite Hd.
      destruct (get fields "description") as [j|]; [| reflexivity].
      destruct (truthyJ (Some j)); reflexivity.
    + intros k K1 K2 K3. rewrite get_set_ne by exact K3. subst f2.
      rewrite get_set_ne by exact K2. now apply H1'.
  - intros item Ho Ha. unfold prepare.
    destruct item as [ | b | z | s | l n | f]; cbn; eauto.
    + now elim (Ha l n).
    + now elim (Ho f).
Qed.

Lemma indexOfSelf_spec (items : list entry) :
  match indexOfSelf items with
  | Some i =>
      exists before after,
        items = before ++ Self :: after /\ ~ In Self before /\ length before = i
  | None => ~ In Self items
  end.
Proof.
  induction items as [|x items IH]; cbn [indexOfSelf]; [tauto |].
  destruct x as [ | key | id name].
  - exists [], items. repeat split; auto.
  - destruct (indexOfSelf items) as [i|]; cbn [option_map].
    + destruct IH as (b & a & -> & Hn & Hl). exists (Member key :: b), a.
      repeat split; [| cbn; now rewrite Hl]. intros [E | Hin]; [discriminate | auto].
    + intros [E | Hin]; [discriminate | auto].
  - destruct (indexOfSelf items) as [i|]; cbn [option_map].
    + destruct IH as (b & a & -> & Hn & Hl). exists (ResultsGroup id name :: b), a.
      repeat split; [| cbn; now rewrite Hl]. intros [E | Hin]; [discriminate | auto].
    + intros [E | Hin]; [discriminate | auto].
Qed.

Lemma not_in_split_unique (before after before' after' : list entry) :
  before ++ Self :: after = before' ++ Self :: after' ->
  ~ In Self before -> ~ In Self before' -> before = before' /\ after = after'.
Proof.
  revert before'; induction before as [|x b IH]; intros [|y b'] E Hn Hn'; cbn in *.
  - injection E as ->. auto.
  - injection E as <- _. tauto.
  - injection E as -> _. tauto.
  - injection E as -> E. destruct (IH b' E) as [-> ->]; tauto.
Qed.

(** X24. The group that receives the results is the one the share key
    index holds under the id of the function followed by -results; then
    the catalog is left as it is.  Otherwise a new group of that id,
    named after the function, is placed in the items around the function:
    directly after the function when it is among them, at the end when
    it is not; the other items keep their order, and the index holds the
    new group under its id and is otherwise as it was.  So a second run
    finds the group of the first and places nothing. *)
Theorem X24_results_group_placement (this : catalogFunction) (c : catalog) :
  (forall group,
     get (shareKeyIndex c) (toStr (cf_uniqueId this) ++ "-results")%string = Some group ->
     resultsGroupOf this c = (c, group))
  /\ (get (shareKeyIndex c) (toStr (cf_uniqueId this) ++ "-results")%string = None ->
      snd (resultsGroupOf this c)
      = ResultsGroup (toStr (cf_uniqueId this) ++ "-results")
          (toStr (cf_name this) ++ " Results")
      /\ get (shareKeyIndex (fst (resultsGroupOf this c)))
             (toStr (cf_uniqueId this) ++ "-results")%string
         = Some (snd (resultsGroupOf this c))
      /\ (forall k, k <> (toStr (cf_uniqueId this) ++ "-results")%string ->
                    get (shareKeyIndex (fst (resultsGroupOf this c))) k
                    = get (shareKeyIndex c) k)
      /\ (parentItems c <> None -> groupItems (fst (resultsGroupOf this c)) = groupItems c)
      /\ (parentItems c = None <-> parentItems (fst (resultsGroupOf this c)) = None)
      /\ length (itemsAround (fst (resultsGroupOf this c))) = S (length (itemsAround c))
      /\ (forall before after,
          itemsAround c = before ++ Self :: after -> ~ In Self before ->
          itemsAround (fst (resultsGroupOf this c))
          = before ++ Self :: snd (resultsGroupOf this c) :: after)
      /\ (~ In Self (itemsAround c) ->
          itemsAround (fst (resultsGroupOf this c))
          = itemsAround c ++ [snd (resultsGroupOf this c)]))
  /\ resultsGroupOf this (fst (resultsGroupOf this c)) = resultsGroupOf this c.
Proof.
  split; [| split].
  3: { unfold resultsGroupOf at 2 3.
       destruct (get (shareKeyIndex c) (toStr (cf_uniqueId this) ++ "-results")%string)
         as [group|] eqn:E; cbn [fst].
       - unfold resultsGroupOf. now rewrite E.
       - unfold resultsGroupOf.
         destruct (parentItems c); cbn [shareKeyIndex]; now rewrite get_set_eq. }
  - unfold resultsGroupOf. intros group ->. reflexivity.
  - unfold resultsGroupOf. intros ->. cbn [snd fst].
    set (g := ResultsGroup _ _).
    fold (itemsAround c).
    set (index := match indexOfSelf (itemsAround c) with
                  | Some i => S i
                  | None => length (itemsAround c)
                  end).
    assert (itemsAround
              (match parentItems c with
               | Some _ => {| parentItems := Some (spliceIn index g (itemsAround c));
                              groupItems := groupItems c;
                              shareKeyIndex :=
                                set (toStr (cf_uniqueId this) ++ "-results")%string g
                                  (shareKeyIndex c) |}
               | None => {| parentItems := None;
                            groupItems := spliceIn index g (itemsAround c);
                            shareKeyIndex :=
                              set (toStr (cf_uniqueId this) ++ "-results")%string g
                                (shareKeyIndex c) |}
               end) = spliceIn index g (itemsAround c)) as Hitems.
    { destruct (parentItems c); reflexivity. }
    rewrite Hitems.
    split; [reflexivity |].
    split; [destruct (parentItems c); cbn [shareKeyIndex]; apply get_set_eq |].
    split; [intros k Hk; destruct (parentItems c); cbn [shareKeyIndex];
            apply get_set_ne; congruence |].
    split; [now destruct (parentItems c) |].
    split; [destruct (parentItems c); cbn; split; congruence |].
    pose proof (indexOfSelf_spec (itemsAround c)) as Hs.
    assert (index <= length (itemsAround c)) as Hle.
    { subst index. destruct (indexOfSelf (itemsAround c)) as [i|]; [| lia].
      destruct Hs as (b & a & -> & _ & <-). rewrite length_app. cbn. lia. }
    split; [| split].
    + unfold spliceIn. rewrite length_app. cbn [length].
      rewrite length_firstn, length_skipn. lia.
    + intros before after E Hn. subst index.
      destruct (indexOfSelf (itemsAround c)) as [i|].
      * destruct Hs as (b & a & E' & Hn' & <-).
        rewrite E' in E. destruct (not_in_split_unique _ _ _ _ E Hn' Hn) as [-> ->].
        rewrite E'. unfold spliceIn.
        replace (S (length before)) with (length (before ++ [Self]))
          by (rewrite length_app; cbn; lia).
        replace (before ++ Self :: after) with ((before ++ [Self]) ++ after)
          by (now rewrite <- app_assoc).
        rewrite firstn_app, firstn_all, skipn_app, skipn_all, Nat.sub_diag.
        cbn [firstn skipn app]. rewrite app_nil_r, <- app_assoc. reflexivity.
      * exfalso. apply Hs. rewrite E. apply in_or_app. right. now left.
    + intros Hn. subst index. destruct (indexOfSelf (itemsAround c)) as [i|].
      * destruct Hs as (b & a & E' & _). exfalso. apply Hn. rewrite E'.
        apply in_or_app. right. now left.
      * unfold spliceIn. now rewrite firstn_all, skipn_all.
Qed.

Lemma answer_handled (this : catalogFunction) (ar : pendingItem) (answer : json)
    (c : catalog) :
  (exists e, answered this ar answer c = (c, [], Throw e))
  \/ (exists call c', answered this ar answer c = (c', [call], Normal (settles call))
        /\ (call = UpdateFromStartData answer \/ call = AddInitSource answer -> c' = c)).
Proof.
  unfold answered.
  destruct (prop answer "version") as [version|e]; [| left; eauto].
  destruct (prop answer "initSources") as [initSources|e]; [| left; eauto].
  destruct (prop answer "catalog") as [catalog|e]; [| left; eauto].
  destruct (truthyJ version && truthyJ initSources); [right; eauto |].
  destruct (isArray catalog); [right; eauto |].
  destruct (prepareAll ar _) as [items'|e]; [| left; eauto].
  destruct (resultsGroupOf this c) as [c' g]. right.
  exists (UpdateItems items' true g), c'.
  split; [reflexivity |]. intros [E | E]; discriminate.
Qed.

(** X25. [invoke] names the pending item after the function and the time.
    With [inputs] undefined it throws a TypeError before any request.
    Otherwise it asks for the proxied url built from the query and
    returns a promise.  When the request fails the promise is rejected
    with its error, nothing is handed on and the pending item stays
    enabled.  When it is answered the pending item ends disabled, and
    either the callback threw (the promise is rejected and no results
    group was placed) or the answer went to exactly one of
    [updateFromStartData], [addInitSource] and [updateItems], whose
    promise is the one returned; before the first two, [invoke] places
    no results group in the catalog. *)
Theorem X25_invoke_outcome (this : catalogFunction) (now : date) (c : catalog) :
  ar_name (asyncResult (invoke this now c))
  = (toStr (cf_name this) ++ " " ++ timestamp now)%string
  /\ match inputs this with
     | None =>
         (exists what, returned (invoke this now c) = Throw (TypeError what))
         /\ requested (invoke this now c) = None
         /\ made (invoke this now c) = []
         /\ after (invoke this now c) = c
     | Some parameters =>
         requested (invoke this now c)
         = Some (proxyCatalogItemUrl this
                   (uriWithQuery (cf_url this) (queryParametersOf parameters)) "1d")
         /\ exists p,
              returned (invoke this now c) = Normal p
              /\ match loadJson
                         (proxyCatalogItemUrl this
                            (uriWithQuery (cf_url this) (queryParametersOf parameters))
                            "1d") with
                 | Rejected e =>
                     p = Rejected e
                     /\ made (invoke this now c) = []
                     /\ after (invoke this now c) = c
                     /\ ar_isEnabled (asyncResult (invoke this now c)) = Some true
                 | Fulfilled answer =>
                     ar_isEnabled (asyncResult (invoke this now c)) = Some false
                     /\ ((made (invoke this now c) = []
                          /\ after (invoke this now c) = c
                          /\ exists e, p = Rejected e)
                         \/ exists call,
                              made (invoke this now c) = [call] /\ p = settles call
                              /\ (call = UpdateFromStartData answer
                                  \/ call = AddInitSource answer ->
                                  after (invoke this now c) = c))
                 end
     end.
Proof.
  unfold invoke. destruct (inputs this) as [parameters|]; cbn zeta.
  - set (u := proxyCatalogItemUrl this _ "1d").
    destruct (loadJson u) as [answer|e] eqn:El.
    + set (ar := {| ar_name := _ |}).
      destruct (answer_handled this ar answer c) as [(e & E) | (call & c' & E & Hc)];
        rewrite E; cbn.
      * split; [reflexivity |]. split; [reflexivity |]. eexists. split; [reflexivity |].
        split; [reflexivity |]. left. eauto.
      * split; [reflexivity |]. split; [reflexivity |]. eexists. split; [reflexivity |].
        split; [reflexivity |]. right. exists call. auto.
    + cbn. split; [reflexivity |]. split; [reflexivity |]. eexists. repeat split.
  - cbn. repeat split. eauto.
Qed.

End Invoke.

(** ** Cesium3DTilesCatalogItem *)

Section TilesFacts.
Import Js Props Tiles.
Variable proxy : item -> value -> string.

Lemma setShow_length (r : nat) (v : value) (l : list tileset) :
  length (setShow r v l) = length l.
Proof.
  revert r; induction l as [|t l IH]; intros [|r]; cbn; auto.
Qed.

Lemma destroy_length (r : nat) (l : list tileset) : length (destroy r l) = length l.
Proof.
  revert r; induction l as [|t l IH]; intros [|r]; cbn; auto.
Qed.

Lemma setShow_destroyed (r : nat) (v : value) (l : list tileset) (k : nat) :
  option_map destroyed (nth_error (setShow r v l) k) = option_map destroyed (nth_error l k).
Proof.
  revert r k; induction l as [|t l IH]; intros [|r] [|k]; cbn; auto.
Qed.

Lemma existsb_eqb_In (r : nat) (l : list nat) : existsb (Nat.eqb r) l = true <-> In r l.
Proof.
  rewrite existsb_exists. split.
  - intros (x & Hin & E). apply Nat.eqb_eq in E. now subst.
  - intros Hin. exists r. split; [exact Hin | apply Nat.eqb_refl].
Qed.

Lemma run_settled (before : list nat) (c : call) (state : item * scene) :
  settled before state -> settled before (run proxy c state).
Proof.
  destruct state as [this s]. unfold settled. cbn [fst snd].
  intros (Hp & Hb & Ht). destruct c; cbn [run fst snd].
  - unfold _enableInCesium. destruct (_tileset this) as [r|] eqn:Er.
    + rewrite Er. destruct Ht as [Hn Hd].
      assert (existsb (Nat.eqb r) (primitives s) = true) as ->.
      { apply existsb_eqb_In. rewrite Hp. apply in_or_app. right. now left. }
      cbn [fst snd]. rewrite ?Er. auto.
    + cbn [withTileset _tileset tilesets primitives].
      assert (existsb (Nat.eqb (length (tilesets s))) (primitives s) = false) as ->.
      { destruct (existsb _ _) eqn:E; [| reflexivity]. apply existsb_eqb_In in E.
        rewrite Hp, app_nil_r in E. apply Hb in E. lia. }
      cbn [fst snd _tileset tilesets primitives]. rewrite Hp, app_nil_r.
      split; [reflexivity |]. split.
      * intros r Hr. rewrite length_app. apply Hb in Hr. cbn. lia.
      * split; [intros Hin; apply Hb in Hin; lia |].
        rewrite nth_error_app2 by lia. now rewrite Nat.sub_diag.
  - unfold _disableInCesium. destruct (_tileset this) as [r|] eqn:Er.
    + cbn [fst snd withTileset _tileset tilesets primitives]. destruct Ht as [Hn Hd].
      rewrite Hp, remove_app. cbn [List.remove].
      destruct (Nat.eq_dec r r) as [_|N]; [| now elim N].
      rewrite !app_nil_r, notin_remove by exact Hn.
      split; [reflexivity |]. split; [| exact I].
      intros k Hk. destruct (existsb _ _); rewrite ?destroy_length; now apply Hb.
    + cbn [fst snd]. rewrite ?Er. auto.
  - unfold _showInCesium. destruct (_tileset this) as [r|] eqn:Er; [| rewrite ?Er; auto].
    cbn [tilesets primitives]. rewrite ?Er. split; [exact Hp |]. split.
    + intros k Hk. rewrite setShow_length. now apply Hb.
    + destruct Ht as [Hn Hd]. split; [exact Hn |]. now rewrite setShow_destroyed.
  - unfold _hideInCesium. destruct (_tileset this) as [r|] eqn:Er; [| rewrite ?Er; auto].
    cbn [tilesets primitives]. rewrite ?Er. split; [exact Hp |]. split.
    + intros k Hk. rewrite setShow_length. now apply Hb.
    + destruct Ht as [Hn Hd]. split; [exact Hn |]. now rewrite setShow_destroyed.
Qed.

(** X26. Starting from an item without a tileset, after any run of calls
    to enable, disable, show and hide it in Cesium, the primitives of the
    scene are those there were at the start, followed by the tileset of
    the item exactly while it has one; that tileset is not destroyed.
    Enabling again adds nothing, and disabling leaves the primitives as
    they were at the start. *)
Theorem X26_one_tileset_per_item (calls : list call) (this : item) (s : scene) :
  _tileset this = None ->
  (forall r, In r (primitives s) -> r < length (tilesets s)) ->
  let final := fold_left (fun state c => run proxy c state) calls (this, s) in
  primitives (snd final)
  = primitives s ++ match _tileset (fst final) with Some r => [r] | None => [] end
  /\ (forall r, _tileset (fst final) = Some r ->
      ~ In r (primitives s)
      /\ option_map destroyed (nth_error (tilesets (snd final)) r) = Some false)
  /\ (_tileset (fst (run proxy Enable final)) <> None
      /\ run proxy Enable (run proxy Enable final) = run proxy Enable final)
  /\ (_tileset (fst (run proxy Disable final)) = None
      /\ primitives (snd (run proxy Disable final)) = primitives s).
Proof.
  intros Hnone Hwf final.
  assert (settled (primitives s) final) as Hfinal.
  { subst final.
    assert (settled (primitives s) (this, s)) as H0.
    { unfold settled. cbn [fst snd]. rewrite Hnone, app_nil_r. auto. }
    revert H0. generalize (this, s). induction calls as [|c calls IH]; intros st Hst;
      [exact Hst |].
    cbn [fold_left]. apply IH. now apply run_settled. }
  pose proof Hfinal as (Hp & Hb & Ht).
  split; [exact Hp |]. split.
  { intros r Er. rewrite Er in Ht. exact Ht. }
  split.
  - pose proof (run_settled Enable Hfinal) as He.
    assert (_tileset (fst (run proxy Enable final)) <> None) as Hsome.
    { cbn [run]. unfold _enableInCesium. destruct (_tileset (fst final)) as [r|] eqn:Er.
      - rewrite Er. destruct (existsb _ _); cbn [fst]; now rewrite Er.
      - cbn [withTileset _tileset]. destruct (existsb _ _); cbn [fst _tileset]; discriminate. }
    split; [exact Hsome |].
    destruct (run proxy Enable final) as [i1 s1] eqn:E1. cbn [fst] in Hsome.
    destruct He as (Hp1 & _ & Ht1). cbn [fst snd] in *.
    cbn [run fst snd]. unfold _enableInCesium.
    destruct (_tileset i1) as [r|] eqn:Er; [| now elim Hsome]. rewrite Er.
    assert (existsb (Nat.eqb r) (primitives s1) = true) as ->; [| reflexivity].
    apply existsb_eqb_In. rewrite Hp1. apply in_or_app. right. now left.
  - pose proof (run_settled Disable Hfinal) as (Hp1 & _ & _).
    assert (_tileset (fst (run proxy Disable final)) = None) as Hn.
    { cbn [run]. unfold _disableInCesium.
      destruct (_tileset (fst final)) eqn:Er; cbn [fst]; [reflexivity | exact Er]. }
    split; [exact Hn |]. rewrite Hn, app_nil_r in Hp1. exact Hp1.
Qed.

End TilesFacts.

(** ** SidePanel *)

Section SidePanelFacts.
Import Props SidePanel.

Lemma unsubscribe_held (before : list nat) (this : component) (w : world) :
  (forall s, In s before -> s < made w) ->
  held before (this, w) ->
  ~ (exists s, this = Some s /\ In s before) ->
  held before (unsubscribeFromProps this w)
  /\ fst (unsubscribeFromProps this w) = None
  /\ made (snd (unsubscribeFromProps this w)) = made w.
Proof.
  unfold held. cbn [fst snd]. intros Hb (Hs & Hm) Hn. destruct this as [s|]; cbn.
  - rewrite Hs, remove_app. cbn [List.remove].
    destruct (Nat.eq_dec s s) as [_|N]; [| now elim N].
    rewrite !app_nil_r, notin_remove by (intros Hin; apply Hn; eauto).
    repeat split. intros k Hk. now apply Hb.
  - repeat split; auto.
Qed.

Lemma run_held (before : list nat) (c : lifecycle) (state : component * world) :
  (forall s, In s before -> s < made (snd state)) ->
  held before state ->
  ~ (exists s, fst state = Some s /\ In s before) ->
  held before (run c state)
  /\ (forall s, In s before -> s < made (snd (run c state)))
  /\ ~ (exists s, fst (run c state) = Some s /\ In s before)
  /\ (fst (run c state) = None <-> c = WillUnmount).
Proof.
  destruct state as [this w]. cbn [fst snd]. intros Hb Hh Hn.
  destruct (unsubscribe_held Hb Hh Hn) as ((Hs & Hm) & Hnone & Hmade).
  assert (held before (subscribeToProps this w)
          /\ (forall s, In s before -> s < made (snd (subscribeToProps this w)))
          /\ ~ (exists s, fst (subscribeToProps this w) = Some s /\ In s before)
          /\ fst (subscribeToProps this w) <> None) as Hsub.
  { unfold subscribeToProps.
    destruct (unsubscribeFromProps this w) as [this1 w1]. cbn [fst snd] in *.
    subst this1. rewrite app_nil_r in Hs. unfold held.
    cbn [fst snd subscriptions made]. rewrite Hs, Hmade. repeat split.
    - intros s Hin. apply in_app_or in Hin as [Hin | [<- | []]]; [apply Hb in Hin |]; lia.
    - intros s Hin. apply Hb in Hin. lia.
    - intros (s & [= <-] & Hin). apply Hb in Hin. lia.
    - discriminate. }
  destruct c; cbn [run fst snd];
    unfold componentDidMount, componentDidUpdate, componentWillUnmount.
  - destruct Hsub as (H1 & H2 & H3 & H4). repeat split; try assumption; try apply H1.
    + intros E. now elim H4.
    + discriminate.
  - destruct Hsub as (H1 & H2 & H3 & H4). repeat split; try assumption; try apply H1.
    + intros E. now elim H4.
    + discriminate.
  - rewrite Hmade, Hnone. repeat split; auto. intros (s & E & _). discriminate.
Qed.

(** X27. After any run of mounts, updates and unmounts, the side panel
    holds at most one subscription on the Now Viewing items: the
    subscriptions are those there were before, followed by the one the
    component holds.  It holds none exactly when nothing was called or
    the last call was the unmount; after an unmount the subscriptions
    are those there were before. *)
Theorem X27_side_panel_subscriptions (calls : list lifecycle) (w : world) :
  (forall s, In s (subscriptions w) -> s < made w) ->
  let final := fold_left (fun state c => run c state) calls (None, w) in
  subscriptions (snd final)
  = subscriptions w ++ match fst final with Some s => [s] | None => [] end
  /\ (fst final = None
      <-> calls = [] \/ exists earlier, calls = earlier ++ [WillUnmount])
  /\ subscriptions (snd (run WillUnmount final)) = subscriptions w.
Proof.
  intros Hw final.
  assert (forall cs state,
            (forall s, In s (subscriptions w) -> s < made (snd state)) ->
            held (subscriptions w) state ->
            ~ (exists s, fst state = Some s /\ In s (subscriptions w)) ->
            let r := fold_left (fun state c => run c state) cs state in
            held (subscriptions w) r
            /\ (forall s, In s (subscriptions w) -> s < made (snd r))
            /\ ~ (exists s, fst r = Some s /\ In s (subscriptions w))
            /\ (fst r = None <->
                (cs = [] /\ fst state = None)
                \/ exists earlier, cs = earlier ++ [WillUnmount])) as Hall.
  { induction cs as [|c cs IH]; intros state Hb Hh Hn; cbn [fold_left]; cbv zeta.
    - split; [exact Hh |]. split; [exact Hb |]. split; [exact Hn |]. split.
      + intros E. now left.
      + intros [[_ E] | (earlier & E)]; [exact E |]. now destruct earlier.
    - destruct (run_held c Hb Hh Hn) as (Hh1 & Hb1 & Hn1 & Hnone).
      destruct (IH (run c state) Hb1 Hh1 Hn1) as (Hh2 & Hb2 & Hn2 & Hnone2).
      cbv zeta in Hh2, Hb2, Hn2, Hnone2.
      split; [exact Hh2 |]. split; [exact Hb2 |]. split; [exact Hn2 |]. split.
      + intros E. right. apply Hnone2 in E as [[-> E] | (earlier & ->)].
        * apply Hnone in E as ->. now exists [].
        * now exists (c :: earlier).
      + intros [[E _] | (earlier & E)]; [discriminate |]. apply Hnone2.
        destruct earlier as [|c' earlier]; cbn in E.
        * injection E as -> <-. left. split; [reflexivity |]. now apply Hnone.
        * injection E as _ ->. right. now exists earlier. }
  assert (held (subscriptions w) (None, w)) as H0.
  { unfold held. cbn. rewrite app_nil_r. auto. }
  assert (~ (exists s, fst (None : component, w) = Some s /\ In s (subscriptions w))) as Hn0.
  { intros (s & E & _). discriminate. }
  destruct (Hall calls (None, w) Hw H0 Hn0) as (Hh & Hb & Hn & Hnone).
  cbv zeta in Hh, Hb, Hn, Hnone. fold final in Hh, Hb, Hn, Hnone.
  split; [apply Hh |]. split.
  - rewrite Hnone. cbn [fst]. split; [intros [[-> _] | E]; auto | intros [-> | E]; auto].
  - destruct (run_held WillUnmount Hb Hh Hn) as ((Hs & _) & _ & _ & Hu).
    rewrite Hs. destruct Hu as [_ Hu]. rewrite (Hu eq_refl). apply app_nil_r.
Qed.

(** X28. What the side panel shows: clearing the search text takes the
    location marker off the map and the search results out of the body;
    another text leaves the marker and shows the results exactly when
    they are to be shown; starting a location search shows them exactly
    when there is a text.  While a subscription is held, a change of the
    Now Viewing items replaces the results by the workbench, or by the
    empty workbench when there is no item; while none is held it leaves
    the results as they are. *)
Theorem X28_side_panel_body (w : world) (newText : string) (items : option nat) :
  (render (changeSearchText "" w) <> SidebarSearch
   /\ marker (changeSearchText "" w) = false)
  /\ (newText <> "" ->
      marker (changeSearchText newText w) = marker w
      /\ (render (changeSearchText newText w) = SidebarSearch
          <-> showLocationSearchResults w = true))
  /\ (render (startLocationSearch w) = SidebarSearch <-> locationSearchText w <> "")
  /\ (subscriptions w <> [] ->
      render (nowViewingChanged items w)
      = match items with
        | Some (S _) => Workbench
        | _ => WorkbenchEmpty
        end)
  /\ (subscriptions w = [] ->
      showLocationSearchResults (nowViewingChanged items w) = showLocationSearchResults w).
Proof.
  split; [| split; [| split; [| split]]].
  - unfold render, changeSearchText. cbn.
    split; [| reflexivity]. destruct (nowViewingItems w) as [[|?]|]; discriminate.
  - intros Hne. destruct newText as [|c s]; [contradiction |].
    unfold render, changeSearchText. cbn. split; [reflexivity |].
    destruct (showLocationSearchResults w); [tauto |].
    split; [| discriminate]. destruct (nowViewingItems w) as [[|?]|]; discriminate.
  - unfold render, startLocationSearch. cbn.
    destruct (locationSearchText w) as [|c s]; cbn.
    + split; [| tauto]. destruct (nowViewingItems w) as [[|?]|]; discriminate.
    + split; [discriminate | reflexivity].
  - intros Hs. unfold render, nowViewingChanged. cbn.
    destruct (subscriptions w); [contradiction |]. rewrite andb_false_r.
    destruct items as [[|?]|]; reflexivity.
  - intros Hs. unfold nowViewingChanged. cbn. now rewrite Hs.
Qed.

End SidePanelFacts.

(** ** ExplorerWindow *)

Section ExplorerWindowFacts.
Import ExplorerWindow.

Ltac simplify_timers :=
  repeat progress
    (cbn [elapse earliest without fire setTimeout slideIn slideOut fst snd
          visible slidIn explorerPanelAnimating now timers andb app];
     unfold SLIDE_DURATION in *).

Ltac timing :=
  simplify_timers;
  repeat (match goal with
          | |- context [(?a <=? ?b)%N] =>
              first [ replace (a <=? b)%N with true by (symmetry; apply N.leb_le; lia)
                    | replace (a <=? b)%N with false by (symmetry; apply N.leb_gt; lia) ]
          | |- context [(?a <? ?b)%N] =>
              first [ replace (a <? b)%N with true by (symmetry; apply N.ltb_lt; lia)
                    | replace (a <? b)%N with false by (symmetry; apply N.ltb_ge; lia) ]
          | |- context [(?a =? ?b)%N] =>
              first [ replace (a =? b)%N with true by (symmetry; apply N.eqb_eq; lia)
                    | replace (a =? b)%N with false by (symmetry; apply N.eqb_neq; lia) ]
          end; simplify_timers).

(** X29. With no timer waiting, a slide in leaves the window drawn, slid
    in and no longer animating once two slide durations have passed, and
    a slide out leaves it not drawn after one.  A slide in that follows a
    slide out by less than the slide duration does not keep the window
    drawn: the timer of the slide out still fires and hides it, although
    the window is slid in; when it follows by more, the window stays
    drawn. *)
Theorem X29_explorer_window_slides (w : window) (delay : N) (fuel : nat) :
  timers w = [] ->
  let opened := elapse (3 + fuel) (now w + 2 * SLIDE_DURATION)%N (slideIn w) in
  let closed := elapse (2 + fuel) (now w + SLIDE_DURATION)%N (slideOut w) in
  let reopened :=
    elapse (4 + fuel) (now w + delay + 2 * SLIDE_DURATION)%N
      (slideIn (elapse (2 + fuel) (now w + delay)%N (slideOut w))) in
  (rendered opened = true /\ slidIn opened = Some true
   /\ explorerPanelAnimating opened = false /\ timers opened = [])
  /\ (rendered closed = false /\ slidIn closed = Some false /\ timers closed = [])
  /\ (slidIn reopened = Some true /\ explorerPanelAnimating reopened = false
      /\ timers reopened = [])
  /\ ((delay < SLIDE_DURATION)%N -> rendered reopened = false)
  /\ ((SLIDE_DURATION < delay)%N -> rendered reopened = true).
Proof.
  destruct w as [v s a n ts]. cbn [timers now]. intros ->.
  cbv zeta. cbn [Nat.add].
  split; [timing; cbn [rendered visible]; auto |].
  split; [timing; cbn [rendered visible]; auto |].
  destruct (N.lt_ge_cases delay SLIDE_DURATION) as [Hd | Hd].
  - assert (exists t,
              elapse (S (S (S (S fuel)))) (n + delay + 2 * SLIDE_DURATION)%N
                (slideIn (elapse (S (S fuel)) (n + delay)%N
                            (slideOut (Window v s a n []))))
              = {| visible := Some false; slidIn := Some true;
                   explorerPanelAnimating := false; now := t; timers := [] |})
      as (t & ->).
    { eexists. timing. reflexivity. }
    cbn [rendered visible slidIn explorerPanelAnimating timers].
    split; [auto |]. split; [reflexivity |]. unfold SLIDE_DURATION in *. lia.
  - assert (exists t,
              elapse (S (S (S (S fuel)))) (n + delay + 2 * SLIDE_DURATION)%N
                (slideIn (elapse (S (S fuel)) (n + delay)%N
                            (slideOut (Window v s a n []))))
              = {| visible := Some true; slidIn := Some true;
                   explorerPanelAnimating := false; now := t; timers := [] |})
      as (t & ->).
    { eexists. timing. reflexivity. }
    cbn [rendered visible slidIn explorerPanelAnimating timers].
    split; [auto |]. split; [| reflexivity]. unfold SLIDE_DURATION in *. lia.
Qed.

End ExplorerWindowFacts.

(** ** ConceptViewer *)

Section Concepts.
Import Js Props ConceptViewer.

Lemma each_filter (allowMultipleProp : value) (l : list concept) :
  (fix each (l : list concept) : list view :=
     match l with
     | [] => []
     | child :: l' =>
         if truthy (isVisible child)
         then renderConcept allowMultipleProp child :: each l'
         else each l'
     end) l
  = map (renderConcept allowMultipleProp) (filter (fun c => truthy (isVisible c)) l).
Proof.
  induction l as [|c l IH]; [reflexivity |]. cbn [filter].
  destruct (truthy (isVisible c)); cbn [map]; now rewrite IH.
Qed.

(** X30. A Concept draws its header exactly when the concept has a name;
    in it, the button that opens the concept exactly when it has
    children, with the opened glyph exactly when it is open, and the
    button that selects it exactly when it is selectable.  That button
    holds exactly one icon: a checkbox when the Concept was given
    [allowMultiple], a radio button otherwise, on or off by [isActive];
    for booleans the other three children draw nothing.  Below an open
    concept come its visible items, each given the [allowMultiple] of
    the concept.  The ConceptViewer draws the visible concepts and gives
    them no [allowMultiple]: their icon is a radio button. *)
Theorem X30_concept_buttons (allowMultipleProp : value) (c : concept) :
  (headOf (renderConcept allowMultipleProp c) <> None <-> truthy (name c) = true)
  /\ (forall h, headOf (renderConcept allowMultipleProp c) = Some h ->
      (openButton h <> None <-> truthy (hasChildren c) = true)
      /\ (forall g, openButton h = Some g ->
                    g = if truthy (isOpen c) then opened else closed)
      /\ (selectButton h <> None <-> truthy (isSelectable c) = true)
      /\ (forall children, selectButton h = Some children ->
          icons children
          = [match truthy (isActive c), truthy allowMultipleProp with
             | true, true => checkboxOn
             | false, true => checkboxOff
             | true, false => radioOn
             | false, false => radioOff
             end]
          /\ ((exists a, isActive c = VBool a) ->
              (allowMultipleProp = VUndefined \/ exists m, allowMultipleProp = VBool m) ->
              length (filter drawsNothing children) = 3)))
  /\ belowOf (renderConcept allowMultipleProp c)
     = (if truthy (isOpen c)
        then Some (map (renderConcept (allowMultiple c))
                     (filter (fun x => truthy (isVisible x)) (items c)))
        else None)
  /\ (forall concepts,
      render concepts
      = map (renderConcept VUndefined) (filter (fun x => truthy (isVisible x)) concepts)
      /\ forall x children h,
           In x concepts -> truthy (isVisible x) = true ->
           headOf (renderConcept VUndefined x) = Some h ->
           selectButton h = Some children ->
           icons children = [if truthy (isActive x) then radioOn else radioOff]).
Proof.
  destruct c as [n co hc io isel ia iv am its]. cbn [renderConcept headOf belowOf].
  unfold headerOf. cbn [name hasChildren isOpen isSelectable isActive allowMultiple items].
  split; [| split; [| split]].
  - destruct (truthy n); split; congruence.
  - intros h Hh. destruct (truthy n); [| discriminate]. injection Hh as <-.
    cbn [openButton selectButton]. split; [destruct (truthy hc); split; congruence |].
    split; [intros g; destruct (truthy hc); [now intros [= <-] | discriminate] |].
    split; [destruct (truthy isel); split; congruence |].
    intros children. destruct (truthy isel); [| discriminate]. intros [= <-]. split.
    + unfold iconWhen, and_, not_, icons.
      destruct (truthy ia) eqn:Ha, (truthy allowMultipleProp) eqn:Hm;
        cbn [truthy negb flat_map app]; rewrite ?Ha, ?Hm; cbn [flat_map app];
        reflexivity.
    + intros (a & ->) Hm. unfold iconWhen, and_, not_.
      destruct Hm as [-> | (m & ->)]; [destruct a | destruct a, m]; reflexivity.
  - rewrite each_filter. reflexivity.
  - intros concepts. split; [reflexivity |].
    intros x children h _ _. destruct x as [n' co' hc' io' isel' ia' iv' am' its'].
    cbn [renderConcept headOf]. unfold headerOf.
    cbn [name hasChildren isOpen isSelectable isActive].
    destruct (truthy n'); [| discriminate]. intros [= <-]. cbn [selectButton].
    destruct (truthy isel'); [| discriminate]. intros [= <-].
    unfold iconWhen, and_, not_, icons.
    destruct (truthy ia') eqn:Ha; cbn [truthy negb flat_map app]; rewrite ?Ha;
      cbn [flat_map app]; reflexivity.
Qed.

End Concepts.


(** ** The further properties on the samples *)

Section MoreSamples.
Import Js Props.

#[local] Existing Instance Sample.cesium.
#[local] Existing Instance Sample.filters.
#[local] Existing Instance Sample.host.

(** A share-data service that is out of service is asked, although the
    url shortener alone makes [canShorten] hold. *)
Lemma X4_witness :
  BuildShareLink.canShorten
    (Sample.terriaWith (Some Sample.serviceDown) (Some Sample.shortener)) = true
  /\ BuildShareLink.shareLinkPromise true
       (Sample.terriaWith (Some Sample.serviceDown) (Some Sample.shortener))
     = Normal (BuildShareLink.Promised (Rejected (HostError "503 Service Unavailable"))).
Proof.
  destruct (X4_share_data_service_comes_first
              (Sample.terriaWith (Some Sample.serviceDown) (Some Sample.shortener))
              (service := Sample.serviceDown) eq_refl) as [_ Hrest].
  destruct (Hrest Sample.shortener eq_refl eq_refl eq_refl) as [Hc Hr].
  split; [exact Hc | exact (Hr _ eq_refl)].
Defined.

(** Two nodes of id A: the entry is the second. *)
Lemma X5_witness :
  get (BuildShareLink.keyById
         ([Json.Node (Some "A") [] [("isOpen", VBool true); ("opacity", VNum 1)] None]
          ++ Json.Node (Some "A") [] [("isEnabled", VBool true)] None
             :: [Json.Node (Some "B") ["A"] [("isOpen", VBool true)] None]))
      "A"
  = Some (Some (Json.Node None [] [("isEnabled", VBool true)] None)).
Proof.
  apply (X5_last_node_of_an_id_wins
           [Json.Node (Some "A") [] [("isOpen", VBool true); ("opacity", VNum 1)] None]
           [Json.Node (Some "B") ["A"] [("isOpen", VBool true)] None]
           (Json.Node (Some "A") [] [("isEnabled", VBool true)] None)).
  - reflexivity.
  - intros n' [<- | []] _. cbn. discriminate.
Defined.

(** A feature service of the Utilities folder. *)
Lemma X9_witness :
  exists child,
    ArcGis.createMapOrFeatureServer (H := Sample.arcGisHost (Fulfilled None))
      Sample.utilities "Utilities"
      {| ArcGis.svc_name := "Utilities/Geometry"; ArcGis.svc_type := VStr "FeatureServer" |}
    = (ArcGis.add child Sample.utilities, Some child)
    /\ ArcGis.kind child = ArcGis.EsriFeatureServerGroup
    /\ ArcGis.url child
       = "https://sampleserver.example/arcgis/rest/services/Utilities/Geometry/FeatureServer".
Proof.
  destruct (X9_service_child (H := Sample.arcGisHost (Fulfilled None))
              Sample.utilities "Utilities"
              {| ArcGis.svc_name := "Utilities/Geometry";
                 ArcGis.svc_type := VStr "FeatureServer" |} eq_refl)
    as (child & E & Hk & Hu & _).
  exists child. split; [exact E |]. split; [exact Hk |].
  rewrite Hu; [reflexivity | intros []].
Defined.

(** Feedback without a share link, accepted by the server. *)
Lemma X10_witness :
  exists title reqs,
    Feedback.raised
      (fst (Feedback.sendFeedback
              (N := Sample.network (Fulfilled (VObj [("result", VStr "SUCCESS")])))
              (Some (Sample.feedbackOf (Sample.terria []) (VBool false))) Sample.quiet))
    = Feedback.raised Sample.quiet ++ [title]
    /\ Feedback.posted
         (fst (Feedback.sendFeedback
                 (N := Sample.network (Fulfilled (VObj [("result", VStr "SUCCESS")])))
                 (Some (Sample.feedbackOf (Sample.terria []) (VBool false)))
                 Sample.quiet))
       = Feedback.posted Sample.quiet ++ reqs
    /\ length reqs <= 1
    /\ exists b, Fulfilled true = Fulfilled b
         /\ title = (if b then "Thank you for your feedback!"
                     else "Unable to send feedback").
Proof.
  exact (X10_feedback_is_reported_once
           (N := Sample.network (Fulfilled (VObj [("result", VStr "SUCCESS")])))
           (Some (Sample.feedbackOf (Sample.terria []) (VBool false))) Sample.quiet
           (returned := Some (Fulfilled true)) eq_refl).
Defined.

(** Feedback with the share link, and no way to shorten it. *)
Lemma X12_witness :
  exists what,
    Feedback.sendFeedback (N := Sample.network (Fulfilled VNull))
      (Some (Sample.feedbackOf (Sample.terria []) (VBool true))) Sample.quiet
    = (Sample.quiet, Throw (TypeError what)).
Proof.
  exact (X12_full_link_is_never_sent (N := Sample.network (Fulfilled VNull))
           (Sample.feedbackOf (Sample.terria []) (VBool true)) Sample.quiet
           eq_refl eq_refl eq_refl eq_refl).
Defined.

(** The server answers with the text null: the feedback is posted and
    reported as not sent. *)
Lemma X13_witness :
  exists w',
    Feedback.sendFeedback (N := Sample.network (Fulfilled (VStr "null")))
      (Some (Sample.feedbackOf (Sample.terria []) (VBool false))) Sample.quiet
    = (w', Normal (Some (Fulfilled false)))
    /\ length (Feedback.posted w') = 1.
Proof.
  destruct (X13_feedback_without_share_link
              (N := Sample.network (Fulfilled (VStr "null")))
              (Sample.feedbackOf (Sample.terria []) (VBool false)) Sample.quiet
              eq_refl eq_refl eq_refl) as (w' & b & E & Hp & Hb).
  exists w'. split; [| rewrite Hp; reflexivity].
  rewrite E. destruct b; [| reflexivity].
  destruct (proj1 Hb eq_refl) as (answer & Ea & fields & Hr & [Ef | (text & Et & Hparse)]).
  - injection Ea as <-. discriminate.
  - injection Ea as <-. injection Et as <-. discriminate.
Defined.

(** The short link of the sample shortener is what is posted. *)
Lemma X14_witness :
  exists w' b,
    Feedback.sendFeedback (N := Sample.network (Fulfilled VNull))
      (Some (Sample.feedbackOf (Sample.terriaWith None (Some Sample.shortener))
               (VBool true))) Sample.quiet
    = (w', Normal (Some (Fulfilled b)))
    /\ Feedback.posted w'
       = [requestFor
            (Sample.feedbackOf (Sample.terriaWith None (Some Sample.shortener)) (VBool true))
            (Feedback.FeedbackTerria (Sample.terriaWith None (Some Sample.shortener))
               (VStr "https://feedback.example/submit"))
            "https://maps.example/?lang=en#share=q7x"].
Proof.
  destruct (X14_feedback_with_short_link (N := Sample.network (Fulfilled VNull))
              (Sample.feedbackOf (Sample.terriaWith None (Some Sample.shortener))
                 (VBool true)) Sample.quiet eq_refl eq_refl eq_refl eq_refl)
    as (p & Ep & Hp).
  injection Ep as <-. exact (proj2 Hp).
Defined.

(** Two y columns asked for by index, two colours. *)
Lemma X16_witness :
  Chart.chartDataArrayFromTableStructure
    (Sample.chartProps VUndefined None (Some [VNum 1; VNum 2]) None) Sample.rainfall
  = Normal [Sample.rainSeries;
            {| Chart.cd_points := 2; Chart.cd_id := 1; Chart.cd_name := VStr "flow";
               Chart.cd_units := VStr "m3/s"; Chart.cd_color := VStr "blue" |}]
  /\ exists x ys,
       length [Sample.rainSeries;
               {| Chart.cd_points := 2; Chart.cd_id := 1; Chart.cd_name := VStr "flow";
                  Chart.cd_units := VStr "m3/s"; Chart.cd_color := VStr "blue" |}]
       = length (Chart.toPointArrays Sample.rainfall x ys).
Proof.
  split; [reflexivity |].
  destruct (X16_chart_series
              (Sample.chartProps VUndefined None (Some [VNum 1; VNum 2]) None)
              Sample.rainfall
              (series := [Sample.rainSeries;
                          {| Chart.cd_points := 2; Chart.cd_id := 1;
                             Chart.cd_name := VStr "flow"; Chart.cd_units := VStr "m3/s";
                             Chart.cd_color := VStr "blue" |}]) eq_refl)
    as (x & ys & _ & _ & Hlen & _).
  now exists x, ys.
Defined.

(** No y columns asked for: the rain column is taken. *)
Lemma X17_witness :
  Chart.yColumnsOf (Sample.chartProps VUndefined None None None) Sample.rainfall
    (Some Sample.dateColumn)
  = Normal [Some Sample.rainColumn].
Proof.
  destruct (X17_fallback_y_column (Sample.chartProps VUndefined None None None)
              Sample.rainfall eq_refl) as [_ Hfirst].
  apply (Hfirst [Sample.dateColumn] Sample.rainColumn [Sample.flowColumn]);
    try reflexivity.
  intros c [<- | []]. now left.
Defined.

(** A histogram: no title, no margin. *)
Lemma X18_witness :
  exists parameters,
    snd (Chart.getChartParameters
           (Sample.chartProps (VStr "histogram") (Some [Sample.rainSeries]) None None)
           "4217" None)
    = Normal parameters
    /\ Chart.cp_mini parameters = false
    /\ Chart.cp_margin parameters
       = Some {| Chart.top := 0; Chart.right := 0; Chart.bottom := 0; Chart.left := 0 |}
    /\ Chart.cp_height parameters = 100%Z.
Proof.
  eexists. split; [reflexivity |].
  destruct (X18_chart_settings_by_styling
              (Sample.chartProps (VStr "histogram") (Some [Sample.rainSeries]) None None)
              "4217" None eq_refl) as (Hm & _ & _ & _ & Hmargin & Hh & _).
  split; [exact Hm |]. split; [exact Hmargin | exact Hh].
Defined.

(** A chart of one series, mounted and unmounted on an empty page. *)
Lemma X20_witness :
  exists mounted w1 unmounted w2,
    Chart.componentDidMount (H := Sample.chartHost)
      (Sample.chartProps VUndefined (Some [Sample.rainSeries]) None None) "4217"
      Sample.newChart Sample.emptyPage
    = (mounted, w1, Normal tt)
    /\ Chart.listeners w1 = [0]
    /\ Chart.componentWillUnmount
         (Sample.chartProps VUndefined (Some [Sample.rainSeries]) None None) "4217"
         mounted w1
       = (unmounted, w2, Normal tt)
    /\ Chart.listeners w2 = []
    /\ length (Chart.calls w2) = 2.
Proof.
  destruct (X20_chart_mount_then_unmount (H := Sample.chartHost)
              (Sample.chartProps VUndefined (Some [Sample.rainSeries]) None None) "4217"
              Sample.newChart Sample.emptyPage (d := [Sample.rainSeries]) eq_refl
              (fun H => H))
    as (mounted & w1 & unmounted & w2 & ps & E1 & Hl1 & _ & E2 & Hl2 & Hc & _).
  exists mounted, w1, unmounted, w2. split; [exact E1 |]. split; [exact Hl1 |].
  split; [exact E2 |]. split; [exact Hl2 |]. rewrite Hc. reflexivity.
Defined.

(** A chart without data, table or url. *)
Lemma X21_witness :
  exists mounted what,
    Chart.componentDidMount (H := Sample.chartHost)
      (Sample.chartProps VUndefined None None None) "4217"
      Sample.newChart Sample.emptyPage
    = (mounted, Sample.emptyPage, Throw (TypeError what)).
Proof.
  exact (proj1 (X21_chart_without_a_source (H := Sample.chartHost)
                  (Sample.chartProps VUndefined None None None) "4217"
                  Sample.newChart Sample.emptyPage eq_refl eq_refl eq_refl)).
Defined.

(** The buildings, enabled, shown, hidden and disabled. *)
Lemma X26_witness :
  Tiles.primitives
    (snd (fold_left (fun state c => Tiles.run (fun _ u => toStr u) c state)
            [Tiles.Enable; Tiles.Show; Tiles.Enable; Tiles.Hide; Tiles.Disable;
             Tiles.Enable]
            (Sample.buildings, Sample.scene)))
  = [0; 2].
Proof.
  assert (forall r, In r (Tiles.primitives Sample.scene) ->
                    r < length (Tiles.tilesets Sample.scene)) as Hwf.
  { intros r [<- | []]. constructor. }
  destruct (X26_one_tileset_per_item (fun _ u => toStr u)
              [Tiles.Enable; Tiles.Show; Tiles.Enable; Tiles.Hide; Tiles.Disable;
               Tiles.Enable]
              Sample.buildings Sample.scene eq_refl Hwf) as (Hp & _).
  rewrite Hp. reflexivity.
Defined.

(** A side panel that is mounted, updated twice and unmounted. *)
Lemma X27_witness :
  SidePanel.subscriptions
    (snd (fold_left (fun state c => SidePanel.run c state)
            [SidePanel.DidMount; SidePanel.DidUpdate; SidePanel.DidUpdate;
             SidePanel.WillUnmount]
            (None, Sample.sidePanelWorld)))
  = [0].
Proof.
  assert (forall s, In s (SidePanel.subscriptions Sample.sidePanelWorld) ->
                    s < SidePanel.made Sample.sidePanelWorld) as Hwf.
  { intros s [<- | []]. constructor. }
  destruct (X27_side_panel_subscriptions
              [SidePanel.DidMount; SidePanel.DidUpdate; SidePanel.DidUpdate;
               SidePanel.WillUnmount]
              Sample.sidePanelWorld Hwf) as (Hs & _).
  rewrite Hs. reflexivity.
Defined.

(** The window closed and opened again a tenth of a second later. *)
Lemma X29_witness :
  ExplorerWindow.rendered
    (ExplorerWindow.elapse 4 (1000 + 100 + 2 * ExplorerWindow.SLIDE_DURATION)%N
       (ExplorerWindow.slideIn
          (ExplorerWindow.elapse 2 (1000 + 100)%N
             (ExplorerWindow.slideOut Sample.windowAtRest))))
  = false.
Proof.
  destruct (X29_explorer_window_slides Sample.windowAtRest 100%N 0 eq_refl)
    as (_ & _ & _ & Hearly & _).
  apply Hearly. reflexivity.
Defined.

End MoreSamples.
